(** * Invoice Data Extractor (streamlit_app.py): model and properties

    A shallow embedding of [streamlit_app.py].  Python [str] values are
    sequences of Unicode code points; the values produced by [json.loads]
    are a tree type; the Streamlit calls of a script run are recorded as
    a list of events; exceptions are an explicit result.

    The Python library functions the script calls ([str.strip],
    [str.startswith], slicing, [json.loads], [json.dumps],
    [base64.b64encode], [dict.get], [len], truthiness) are modelled from
    CPython's behaviour.  Streamlit, pandas, PIL and the OpenAI client are
    outside the embedding: their calls are recorded with their arguments,
    and what they answer is an input of the run.  Where such a call raises
    on what the script gives it, it raises in the embedding: the
    assignment to [st.secrets], a read of [st.secrets] without a secrets
    file, [st.metric] on a list or a mapping, [pd.DataFrame] on a string,
    [image.save] on an image the PNG writer refuses. *)

From Stdlib Require Import String List NArith ZArith Bool Lia Ascii.
From Stdlib Require Strings.Byte.
Import ListNotations.

Set Warnings "-register-all,-notation-for-abbreviation".

(** ** Python strings *)

Notation codepoint := N (only parsing).
Notation pystr := (list N) (only parsing).

Definition chr (a : ascii) : codepoint := N_of_ascii a.

(** An ASCII literal as a Python string. *)
Definition py (s : string) : pystr := map chr (list_ascii_of_string s).

Definition QUOTE : codepoint := 34%N.
Definition BACKSLASH : codepoint := 92%N.

Fixpoint str_eqb (a b : pystr) : bool :=
  match a, b with
  | [], [] => true
  | x :: a', y :: b' => (x =? y)%N && str_eqb a' b'
  | _, _ => false
  end.

(** [str.isspace] on one character: the code points CPython's
    [_PyUnicode_IsWhitespace] accepts. *)
Definition str_isspace (c : codepoint) : bool :=
  ((0x09 <=? c) && (c <=? 0x0d) || (0x1c <=? c) && (c <=? 0x20)
   || (c =? 0x85) || (c =? 0xa0) || (c =? 0x1680)
   || (0x2000 <=? c) && (c <=? 0x200a)
   || (c =? 0x2028) || (c =? 0x2029) || (c =? 0x202f) || (c =? 0x205f)
   || (c =? 0x3000))%N.

Fixpoint str_lstrip (s : pystr) : pystr :=
  match s with
  | [] => []
  | c :: r => if str_isspace c then str_lstrip r else s
  end.

Definition str_rstrip (s : pystr) : pystr := rev (str_lstrip (rev s)).

(** [s.strip()] *)
Definition str_strip (s : pystr) : pystr := str_rstrip (str_lstrip s).

(** [s.startswith(p)] *)
Fixpoint str_startswith (p s : pystr) : bool :=
  match p, s with
  | [], _ => true
  | x :: p', y :: s' => (x =? y)%N && str_startswith p' s'
  | _ :: _, [] => false
  end.

(** A slice bound [i] of a sequence of length [len], as Python clamps it:
    a negative bound counts from the end. *)
Definition slice_index (len : nat) (i : Z) : nat :=
  Z.to_nat (if (i <? 0)%Z then Z.max (i + Z.of_nat len) 0
            else Z.min i (Z.of_nat len)).

(** [s[i:j]] *)
Definition py_slice {A : Type} (s : list A) (i j : Z) : list A :=
  skipn (slice_index (List.length s) i) (firstn (slice_index (List.length s) j) s).

(** ** Fence stripping (extract_invoice_data, lines 80-86) *)

Definition FENCE_JSON : pystr := py "```json".
Definition FENCE : pystr := py "```".

(** Lines 82-85, on the already stripped content. *)
Definition strip_fence (content : pystr) : pystr :=
  if str_startswith FENCE_JSON content then py_slice content 7 (-3)
  else if str_startswith FENCE content then py_slice content 3 (-3)
  else content.

(** Lines 81-85. *)
Definition fence_stripped (content : pystr) : pystr :=
  strip_fence (str_strip content).

(** The spec's words for the same step: drop the first [k] characters and
    the last three. *)
Definition drop_last {A : Type} (k : nat) (s : list A) : list A :=
  firstn (List.length s - k) s.

Definition remove_first_and_last {A : Type} (k : nat) (s : list A) : list A :=
  drop_last 3 (skipn k s).

(** ** An instance of the parameters

    The development is parametric in the finite floats and in the images
    of PIL.  This instance has the one float [0.0] and holds an image as
    the bytes of its PNG file; the properties are run on it. *)

Module Sample.

Definition double : Type := unit.
Definition double_of_str (lexeme : pystr) : option double := Some tt.
Definition double_repr (x : double) : pystr := py "0.0".
Definition double_is_zero (x : double) : bool := true.

Definition bitmap : Type := list Byte.byte.
Definition Image_open (file : list Byte.byte) : option bitmap := Some file.
Definition Image_save_png (image : bitmap) : option (list Byte.byte) := Some image.

(** [pd.DataFrame] outside the sequences of mappings from text to text:
    here it refuses them all. *)
Definition DataFrame_accepts {V : Type} (items : V) : bool := false.

End Sample.

(** A second reading of files for the same images: [Image.open] accepts
    a file only when it starts with the first byte of the PNG signature. *)
Module Strict.

Definition Image_open (file : list Byte.byte) : option Sample.bitmap :=
  match file with
  | Byte.x89 :: _ => Some file
  | _ => None
  end.

End Strict.

(** A third reading, in which an image carries its mode and the PNG
    writer refuses the mode CMYK, as the one of PIL does: a file that
    starts as a JPEG file does is read as an image in that mode. *)
Module Cmyk.

Inductive mode : Type := RGB | CMYK.

Definition bitmap : Type := (mode * list Byte.byte)%type.

Definition Image_open (file : list Byte.byte) : option bitmap :=
  match file with
  | Byte.x89 :: _ => Some (RGB, file)
  | Byte.xff :: Byte.xd8 :: _ => Some (CMYK, file)
  | _ => None
  end.

Definition Image_save_png (image : bitmap) : option (list Byte.byte) :=
  match fst image with
  | RGB => Some (snd image)
  | CMYK => None
  end.

End Cmyk.

(** ** Python values

    CPython's [float] is an IEEE-754 double.  Its finite values, the
    conversion from a number lexeme ([float(s)]) and [float.__repr__] are
    parameters of the development; the three special values are
    constructors, so that the constants [NaN], [PosInf] and [NegInf] of
    [json.decoder] are each one value. *)

Section InvoiceApp.

Variable double : Type.

(** [float(s)] on a JSON number lexeme with a fraction or an exponent:
    [None] when the magnitude overflows, which CPython turns into an
    infinity of the lexeme's sign. *)
Variable double_of_str : pystr -> option double.

(** [float.__repr__] on a finite float. *)
Variable double_repr : double -> pystr.

(** [x == 0.0] *)
Variable double_is_zero : double -> bool.

Inductive pyfloat : Type :=
| FNaN
| FInf (negative : bool)
| FFinite (x : double).

(** What [json.loads] can return: [None], [bool], [int], [float], [str],
    [list], and [dict] with [str] keys, in insertion order. *)
Inductive value : Type :=
| PyNone
| PyBool (b : bool)
| PyInt (z : Z)
| PyFloat (f : pyfloat)
| PyStr (s : pystr)
| PyList (items : list value)
| PyDict (entries : list (pystr * value)).

Definition pydict := list (pystr * value).

(** [d.get(key)] *)
Fixpoint dict_get (d : pydict) (key : pystr) : option value :=
  match d with
  | [] => None
  | (k, v) :: d' => if str_eqb k key then Some v else dict_get d' key
  end.

(** [d[key] = v]: an existing key keeps its position. *)
Fixpoint dict_set (d : pydict) (key : pystr) (v : value) : pydict :=
  match d with
  | [] => [(key, v)]
  | (k, w) :: d' =>
      if str_eqb k key then (k, v) :: d' else (k, w) :: dict_set d' key v
  end.

(** [bool(v)] *)
Definition truthy (v : value) : bool :=
  match v with
  | PyNone => false
  | PyBool b => b
  | PyInt z => negb (z =? 0)%Z
  | PyFloat FNaN => true
  | PyFloat (FInf _) => true
  | PyFloat (FFinite x) => negb (double_is_zero x)
  | PyStr [] => false
  | PyStr (_ :: _) => true
  | PyList [] => false
  | PyList (_ :: _) => true
  | PyDict [] => false
  | PyDict (_ :: _) => true
  end.

(** ** json.loads

    The decoder of CPython's [json] module with its defaults (the C
    scanner, [strict=True], no hooks).  An input is the list of the
    characters still to read.  Every [JSONDecodeError] is one outcome,
    [DecodeError]; the recursion limit and the limit on the digits of an
    [int] are not modelled. *)

Inductive outcome (A : Type) : Type :=
| Done (a : A)
| DecodeError
| NoFuel.
Arguments Done {A} a.
Arguments DecodeError {A}.
Arguments NoFuel {A}.

(** The whitespace of the JSON grammar. *)
Definition json_ws (c : codepoint) : bool :=
  ((c =? 0x20) || (c =? 0x09) || (c =? 0x0a) || (c =? 0x0d))%N.

Fixpoint skip_ws (s : pystr) : pystr :=
  match s with
  | [] => []
  | c :: r => if json_ws c then skip_ws r else s
  end.

Definition is_digit (c : codepoint) : bool := ((0x30 <=? c) && (c <=? 0x39))%N.

Definition hex_value (c : codepoint) : option N :=
  if ((0x30 <=? c) && (c <=? 0x39))%N then Some (c - 0x30)%N
  else if ((0x61 <=? c) && (c <=? 0x66))%N then Some (c - 0x61 + 10)%N
  else if ((0x41 <=? c) && (c <=? 0x46))%N then Some (c - 0x41 + 10)%N
  else None.

Definition hex4 (a b c d : codepoint) : option N :=
  match hex_value a, hex_value b, hex_value c, hex_value d with
  | Some x, Some y, Some z, Some w => Some (((x * 16 + y) * 16 + z) * 16 + w)%N
  | _, _, _, _ => None
  end.

Definition is_high_surrogate (u : N) : bool := ((0xd800 <=? u) && (u <=? 0xdbff))%N.
Definition is_low_surrogate (u : N) : bool := ((0xdc00 <=? u) && (u <=? 0xdfff))%N.

Definition join_surrogates (hi lo : N) : N :=
  (0x10000 + ((hi - 0xd800) * 0x400 + (lo - 0xdc00)))%N.

(** The one-character escapes after a backslash. *)
Definition unescape (c : codepoint) : option codepoint :=
  if (c =? QUOTE)%N then Some QUOTE
  else if (c =? BACKSLASH)%N then Some BACKSLASH
  else if (c =? chr "/")%N then Some (chr "/")
  else if (c =? chr "b")%N then Some 0x08%N
  else if (c =? chr "f")%N then Some 0x0c%N
  else if (c =? chr "n")%N then Some 0x0a%N
  else if (c =? chr "r")%N then Some 0x0d%N
  else if (c =? chr "t")%N then Some 0x09%N
  else None.

(** [scanstring], after the opening quote: the decoded string and the
    input after the closing quote.  [acc] holds the characters decoded so
    far, last first; [hi] tells that the last of them is a high surrogate
    written as a [\u] escape, with which a [\u] escape of a low surrogate
    that comes next is joined into one character. *)
Fixpoint scanstring (hi : bool) (acc : pystr) (s : pystr)
  : option (pystr * pystr) :=
  match s with
  | [] => None
  | c :: r =>
      if (c =? QUOTE)%N then Some (rev acc, r)
      else if (c =? BACKSLASH)%N then
        match r with
        | [] => None
        | e :: r1 =>
            if (e =? chr "u")%N then
              match r1 with
              | h1 :: h2 :: h3 :: h4 :: r2 =>
                  match hex4 h1 h2 h3 h4 with
                  | None => None
                  | Some u =>
                      if hi && is_low_surrogate u
                      then scanstring false
                             (join_surrogates (hd 0%N acc) u :: tl acc) r2
                      else scanstring (is_high_surrogate u) (u :: acc) r2
                  end
              | _ => None
              end
            else
              match unescape e with
              | Some c' => scanstring false (c' :: acc) r1
              | None => None
              end
        end
      else if (c <=? 0x1f)%N then None
      else scanstring false (c :: acc) r
  end.

(** The longest prefix of digits, and what follows it. *)
Fixpoint span_digits (s : pystr) : pystr * pystr :=
  match s with
  | c :: r =>
      if is_digit c then let (ds, rest) := span_digits r in (c :: ds, rest)
      else ([], s)
  | [] => ([], [])
  end.

(** [int(s)] on a run of decimal digits. *)
Definition int_of_digits (ds : pystr) : Z :=
  fold_left (fun acc c => (acc * 10 + (Z.of_N c - 0x30))%Z) ds 0%Z.

Definition float_of_lexeme (lexeme : pystr) : pyfloat :=
  match double_of_str lexeme with
  | Some x => FFinite x
  | None => FInf (str_startswith (py "-") lexeme)
  end.

(** The integer part of a number: [0], or a non-zero digit and digits. *)
Definition match_int_part (s : pystr) : option (pystr * pystr) :=
  match s with
  | [] => None
  | d :: r =>
      if ((0x31 <=? d) && (d <=? 0x39))%N then
        let (ds, rest) := span_digits r in Some (d :: ds, rest)
      else if (d =? 0x30)%N then Some ([d], r)
      else None
  end.

(** The optional fraction: a dot and at least one digit. *)
Definition match_frac (s : pystr) : pystr * pystr :=
  match s with
  | dot :: d :: r =>
      if ((dot =? chr ".") && is_digit d)%N then
        let (ds, rest) := span_digits r in (dot :: d :: ds, rest)
      else ([], s)
  | _ => ([], s)
  end.

(** The optional exponent: [e] or [E], an optional sign, at least one
    digit. *)
Definition match_exp (s : pystr) : pystr * pystr :=
  match s with
  | e :: r =>
      if ((e =? chr "e") || (e =? chr "E"))%N then
        match r with
        | sg :: r' =>
            if ((sg =? chr "-") || (sg =? chr "+"))%N then
              match span_digits r' with
              | ([], _) => ([], s)
              | (ds, rest) => (e :: sg :: ds, rest)
              end
            else
              match span_digits r with
              | ([], _) => ([], s)
              | (ds, rest) => (e :: ds, rest)
              end
        | [] => ([], s)
        end
      else ([], s)
  | [] => ([], s)
  end.

(** [_match_number]: a number with a fraction or an exponent is a
    [float], any other an [int]. *)
Definition match_sign (s : pystr) : pystr * pystr :=
  match s with
  | c :: r => if (c =? chr "-")%N then ([c], r) else ([], s)
  | [] => ([], s)
  end.

Definition match_number (s : pystr) : option (value * pystr) :=
  let (sign, s1) := match_sign s in
  match match_int_part s1 with
  | None => None
  | Some (ip, r1) =>
      let (frac, r2) := match_frac r1 in
      let (ex, r3) := match_exp r2 in
      match frac, ex with
      | [], [] =>
          let n := int_of_digits ip in
          Some (PyInt (match sign with [] => n | _ => - n end)%Z, r3)
      | _, _ => Some (PyFloat (float_of_lexeme (sign ++ ip ++ frac ++ ex)), r3)
      end
  end.

Definition lit_null := py "null".
Definition lit_true := py "true".
Definition lit_false := py "false".
Definition lit_nan := py "NaN".
Definition lit_inf := py "Infinity".
Definition lit_neginf := py "-Infinity".

(** [scan_once], with the loops of [_parse_array] and [_parse_object].
    [fuel] bounds the number of calls. *)
Fixpoint scan_once (fuel : nat) (s : pystr) : outcome (value * pystr) :=
  match fuel with
  | O => NoFuel
  | S f =>
      match s with
      | [] => DecodeError
      | c :: r =>
          if (c =? QUOTE)%N then
            match scanstring false [] r with
            | Some (str, rest) => Done (PyStr str, rest)
            | None => DecodeError
            end
          else if (c =? chr "{")%N then
            match skip_ws r with
            | c' :: r' =>
                if (c' =? chr "}")%N then Done (PyDict [], r')
                else object_items f [] (c' :: r')
            | [] => DecodeError
            end
          else if (c =? chr "[")%N then
            match skip_ws r with
            | c' :: r' =>
                if (c' =? chr "]")%N then Done (PyList [], r')
                else array_items f [] (c' :: r')
            | [] => DecodeError
            end
          else if str_startswith lit_null s then Done (PyNone, skipn 4 s)
          else if str_startswith lit_true s then Done (PyBool true, skipn 4 s)
          else if str_startswith lit_false s then Done (PyBool false, skipn 5 s)
          else if str_startswith lit_nan s then Done (PyFloat FNaN, skipn 3 s)
          else if str_startswith lit_inf s then Done (PyFloat (FInf false), skipn 8 s)
          else if str_startswith lit_neginf s then Done (PyFloat (FInf true), skipn 9 s)
          else
            match match_number s with
            | Some r => Done r
            | None => DecodeError
            end
      end
  end

with array_items (fuel : nat) (acc : list value) (s : pystr)
  : outcome (value * pystr) :=
  match fuel with
  | O => NoFuel
  | S f =>
      match scan_once f s with
      | Done (v, r) =>
          match skip_ws r with
          | c :: r' =>
              if (c =? chr "]")%N then Done (PyList (rev (v :: acc)), r')
              else if (c =? chr ",")%N then array_items f (v :: acc) (skip_ws r')
              else DecodeError
          | [] => DecodeError
          end
      | DecodeError => DecodeError
      | NoFuel => NoFuel
      end
  end

with object_items (fuel : nat) (d : pydict) (s : pystr)
  : outcome (value * pystr) :=
  match fuel with
  | O => NoFuel
  | S f =>
      match s with
      | q :: r =>
          if (q =? QUOTE)%N then
            match scanstring false [] r with
            | Some (key, r1) =>
                match skip_ws r1 with
                | colon :: r2 =>
                    if (colon =? chr ":")%N then
                      match scan_once f (skip_ws r2) with
                      | Done (v, r3) =>
                          let d' := dict_set d key v in
                          match skip_ws r3 with
                          | c :: r4 =>
                              if (c =? chr "}")%N then Done (PyDict d', r4)
                              else if (c =? chr ",")%N
                              then object_items f d' (skip_ws r4)
                              else DecodeError
                          | [] => DecodeError
                          end
                      | DecodeError => DecodeError
                      | NoFuel => NoFuel
                      end
                    else DecodeError
                | [] => DecodeError
                end
            | None => DecodeError
            end
          else DecodeError
      | [] => DecodeError
      end
  end.

(** Fuel that is enough for an input: see [scan_once_fuel]. *)
Definition fuel_for (s : pystr) : nat := 2 * List.length s + 1.

Definition BOM : codepoint := 0xfeff%N.

(** [json.loads(s)]: an input starting with a byte order mark is
    refused; whitespace around the one value is skipped; anything after is
    "Extra data". *)
Definition json_loads (s : pystr) : option value :=
  match s with
  | c :: _ => if (c =? BOM)%N then None else
      match scan_once (fuel_for s) (skip_ws s) with
      | Done (v, rest) =>
          match skip_ws rest with [] => Some v | _ :: _ => None end
      | _ => None
      end
  | [] => None
  end.

(** A character that could continue a number lexeme. *)
Definition number_extender (c : codepoint) : bool :=
  (is_digit c || (c =? chr ".") || (c =? chr "e") || (c =? chr "E"))%N.

(** What may follow a value without changing how it is read. *)
Definition safe_tail (t : pystr) : bool :=
  match t with
  | [] => true
  | c :: _ => negb (number_extender c)
  end.

(** [t] is empty or starts with a character that [P] rejects. *)
Definition not_starting (P : codepoint -> bool) (t : pystr) : Prop :=
  match t with
  | [] => True
  | c :: _ => P c = false
  end.

Definition nonzero_digit (d : codepoint) : bool := ((0x31 <=? d) && (d <=? 0x39))%N.
Definition is_e (c : codepoint) : bool := ((c =? chr "e") || (c =? chr "E"))%N.
Definition is_sign (c : codepoint) : bool := ((c =? chr "-") || (c =? chr "+"))%N.
Definition is_dot (c : codepoint) : bool := (c =? chr ".")%N.
Definition is_minus (c : codepoint) : bool := (c =? chr "-")%N.

(** The grammar of a number lexeme, part by part. *)
Definition sign_shape (sg : pystr) : Prop := sg = [] \/ sg = [chr "-"].

Definition int_shape (ip : pystr) : Prop :=
  ip = [chr "0"] \/
  exists d ds, ip = d :: ds /\ nonzero_digit d = true /\ forallb is_digit ds = true.

Definition frac_shape (fr : pystr) : Prop :=
  fr = [] \/
  exists d ds, fr = chr "." :: d :: ds /\ is_digit d = true /\ forallb is_digit ds = true.

Definition exp_shape (ex : pystr) : Prop :=
  ex = [] \/
  exists e d ds, is_e e = true /\ is_digit d = true /\ forallb is_digit ds = true
    /\ (ex = e :: d :: ds \/ exists sg, is_sign sg = true /\ ex = e :: sg :: d :: ds).

(** The value of a number lexeme. *)
Definition number_value (sg ip fr ex : pystr) : value :=
  match fr, ex with
  | [], [] =>
      let n := int_of_digits ip in
      PyInt (match sg with [] => n | _ => - n end)%Z
  | _, _ => PyFloat (float_of_lexeme (sg ++ ip ++ fr ++ ex))
  end.

(** The characters a JSON value can start with. *)
Definition value_start (c : codepoint) : bool :=
  ((c =? QUOTE) || (c =? chr "{") || (c =? chr "[") || (c =? chr "n")
   || (c =? chr "t") || (c =? chr "f") || (c =? chr "N") || (c =? chr "I")
   || (c =? chr "-") || is_digit c)%N.

(** The text of a value: it starts with a [value_start] character and
    does not end with a space. *)
Definition token_ends (pre : pystr) : Prop :=
  (exists c r, pre = c :: r /\ value_start c = true)
  /\ (exists p d, pre = p ++ [d] /\ str_isspace d = false).

(** [parse] reads [v] from a prefix of [s] and leaves [rest]; it reads
    the same from that prefix followed by any [safe_tail]. *)
Definition reads (parse : pystr -> outcome (value * pystr))
  (s : pystr) (v : value) (rest : pystr) : Prop :=
  exists pre, s = pre ++ rest /\ token_ends pre
    /\ forall t, safe_tail t = true -> parse (pre ++ t) = Done (v, t).

(** The same for the loops of arrays and objects, which end at [close]. *)
Definition reads_to (close : codepoint) (parse : pystr -> outcome (value * pystr))
  (s : pystr) (v : value) (rest : pystr) : Prop :=
  exists pre, s = pre ++ close :: rest
    /\ forall t, parse (pre ++ close :: t) = Done (v, t).

(** Lines 80-87: the content of the reply, stripped, without its fence,
    parsed as JSON. *)
Definition parse_response (content : pystr) : option value :=
  json_loads (fence_stripped content).

(** ** json.dumps(obj, indent=2)

    The encoder of CPython's [json] module with [indent=2] and the other
    defaults ([ensure_ascii=True], [allow_nan=True], separators [","]
    and [": "]), on the values [json.loads] returns. *)

Definition hex_digit (n : N) : codepoint :=
  (if n <? 10 then 0x30 + n else 0x61 + (n - 10))%N.

(** [\uXXXX] with four lower-case hexadecimal digits. *)
Definition u_escape (n : N) : pystr :=
  [BACKSLASH; chr "u"; hex_digit (n / 0x1000); hex_digit ((n / 0x100) mod 16);
   hex_digit ((n / 0x10) mod 16); hex_digit (n mod 16)]%N.

(** One character of [encode_basestring_ascii]: the short escapes, the
    printable ASCII characters as they are, [\uXXXX] for the others, as a
    surrogate pair above the basic plane. *)
Definition escape_char (c : codepoint) : pystr :=
  if (c =? QUOTE)%N then [BACKSLASH; QUOTE]
  else if (c =? BACKSLASH)%N then [BACKSLASH; BACKSLASH]
  else if (c =? 0x0a)%N then [BACKSLASH; chr "n"]
  else if (c =? 0x0d)%N then [BACKSLASH; chr "r"]
  else if (c =? 0x09)%N then [BACKSLASH; chr "t"]
  else if (c =? 0x08)%N then [BACKSLASH; chr "b"]
  else if (c =? 0x0c)%N then [BACKSLASH; chr "f"]
  else if ((0x20 <=? c) && (c <=? 0x7e))%N then [c]
  else if (c <? 0x10000)%N then u_escape c
  else
    let n := (c - 0x10000)%N in
    u_escape (0xd800 + n / 0x400)%N ++ u_escape (0xdc00 + n mod 0x400)%N.

Definition encode_basestring_ascii (s : pystr) : pystr :=
  QUOTE :: flat_map escape_char s ++ [QUOTE].

(** The decimal digits of [n]; [fuel] bounds their number. *)
Fixpoint digits_fuel (fuel : nat) (n : N) : pystr :=
  match fuel with
  | O => []
  | S f =>
      (if (n <? 10)%N then [] else digits_fuel f (n / 10)%N)
        ++ [(0x30 + n mod 10)%N]
  end.

Definition digits_of (n : N) : pystr := digits_fuel (S (N.to_nat (N.log2 n))) n.

(** [int.__repr__] *)
Definition int_repr (z : Z) : pystr :=
  if (z <? 0)%Z then chr "-" :: digits_of (Z.abs_N z) else digits_of (Z.abs_N z).

(** [floatstr]: the three special values by name, [float.__repr__]
    otherwise. *)
Definition float_repr (f : pyfloat) : pystr :=
  match f with
  | FNaN => lit_nan
  | FInf false => lit_inf
  | FInf true => lit_neginf
  | FFinite x => double_repr x
  end.

(** A newline and the indentation of a nesting level. *)
Definition newline_indent (level : nat) : pystr :=
  0x0a%N :: repeat 0x20%N (2 * level).

Fixpoint join (sep : pystr) (parts : list pystr) : pystr :=
  match parts with
  | [] => []
  | [p] => p
  | p :: ps => p ++ sep ++ join sep ps
  end.

(** [_iterencode] at a nesting level. *)
Fixpoint encode (level : nat) (v : value) : pystr :=
  match v with
  | PyNone => lit_null
  | PyBool true => lit_true
  | PyBool false => lit_false
  | PyInt z => int_repr z
  | PyFloat f => float_repr f
  | PyStr s => encode_basestring_ascii s
  | PyList [] => py "[]"
  | PyList items =>
      py "[" ++ newline_indent (S level)
        ++ join (py "," ++ newline_indent (S level))
             (map (encode (S level)) items)
        ++ newline_indent level ++ py "]"
  | PyDict [] => py "{}"
  | PyDict entries =>
      py "{" ++ newline_indent (S level)
        ++ join (py "," ++ newline_indent (S level))
             (map (fun kv => encode_basestring_ascii (fst kv) ++ py ": "
                             ++ encode (S level) (snd kv)) entries)
        ++ newline_indent level ++ py "}"
  end.

(** [json.dumps(v, indent=2)] *)
Definition json_dumps (v : value) : pystr := encode 0 v.

Definition NL : codepoint := 0x0a%N.

(** A JSON text inside a fence tagged [json], inside a bare fence. *)
Definition fenced_json (J : pystr) : pystr := py "```json" ++ NL :: J ++ NL :: py "```".
Definition fenced_bare (J : pystr) : pystr := py "```" ++ NL :: J ++ NL :: py "```".

(** [pre] is the text of the value [v]: [scan_once] reads [v] from it,
    whatever follows that cannot continue a number. *)
Definition json_text (pre : pystr) (v : value) : Prop :=
  token_ends pre
  /\ forall f t, 2 * List.length (pre ++ t) < f -> safe_tail t = true ->
       scan_once f (pre ++ t) = Done (v, t).

(** ** Exceptions, Streamlit calls, and the monad of a script run *)

Inductive exn : Type :=
| JSONDecodeError
| AttributeError
| TypeError
| IndexError
| KeyError
| APIError (message : pystr)   (* raised by the OpenAI client *)
| ImageError                    (* raised by PIL *)
| SecretsError                  (* raised by st.secrets without a secrets file *)
| MetricError                   (* raised by st.metric on a value it refuses *)
| FrameError.                   (* raised by pd.DataFrame on a value it refuses *)

Inductive result (A : Type) : Type :=
| Ok (a : A)
| Raise (e : exn).
Arguments Ok {A} a.
Arguments Raise {A} e.

(** PIL images: the bitmap type, [Image.open] on the bytes of a file and
    [image.save(buffer, format="PNG")] are parameters; [None] is a raised
    exception. *)
Variable bitmap : Type.
Variable Image_open : list Byte.byte -> option bitmap.
Variable Image_save_png : bitmap -> option (list Byte.byte).

(** The parts of an f-string: literal text, [{v}] for a value (formatted
    by [str(v)]), [{str(e)}] for an exception. *)
Inductive fpart : Type :=
| FLit (s : pystr)
| FVal (v : value)
| FExn (e : exn).

Definition fstring := list fpart.

(** The value argument of [st.metric]: an object as it is, or an
    f-string. *)
Inductive widget_value : Type :=
| Raw (v : value)
| Formatted (f : fstring).

(** The data of a download button: a text, or
    [pd.DataFrame(items).to_csv(index=False)]. *)
Inductive download : Type :=
| JsonText (s : pystr)
| LineItemsCsv (items : value).

(** The calls of a run that reach the outside: Streamlit elements, in the
    order the script makes them, and the call of
    [client.chat.completions.create], with the key of its client (what
    the client sends for one call, its retries included, is its own).
    [StDataframe items] is [st.dataframe(pd.DataFrame(items))]. *)
Inductive event : Type :=
| StSetPageConfig (page_title page_icon layout : pystr)
| StTitle (s : pystr)
| StMarkdown (s : pystr)
| StHeader (s : pystr)
| StSubheader (s : pystr)
| StTextInput (label help : pystr)
| StFileUploader (label help : pystr)
| StSuccess (s : pystr)
| StWarning (s : pystr)
| StError (f : fstring)
| StImage (image : bitmap) (caption : pystr)
| StButton (label : pystr)
| StSpinner (s : pystr)
| StColumns (n : nat)
| StMetric (label : pystr) (v : widget_value)
| StWrite (f : fstring)
| StDataframe (items : value)
| StDownloadButton (label : pystr) (data : download) (file_name mime : pystr)
| StExpander (label : pystr)
| StJson (v : value)
| ChatCompletionsCreate (api_key model prompt image_url : pystr) (max_tokens : Z).

(** A computation emits events and returns or raises. *)
Definition M (A : Type) : Type := (list event * result A)%type.

Definition ret {A} (a : A) : M A := ([], Ok a).

Definition bind {A B} (m : M A) (k : A -> M B) : M B :=
  match m with
  | (ev, Ok a) => let (ev', r) := k a in (ev ++ ev', r)
  | (ev, Raise e) => (ev, Raise e)
  end.

Definition emit (e : event) : M unit := ([e], Ok tt).

Definition raise {A} (e : exn) : M A := ([], Raise e).

Definition lift {A} (r : result A) : M A := ([], r).

(** [try: m except Exception as e: handler e] *)
Definition try_except {A} (m : M A) (handler : exn -> M A) : M A :=
  match m with
  | (ev, Ok a) => (ev, Ok a)
  | (ev, Raise e) => let (ev', r) := handler e in (ev ++ ev', r)
  end.

Notation "x <- m ;; k" := (bind m (fun x => k))
  (at level 61, m at next level, right associativity).
Notation "m ;; k" := (bind m (fun _ => k))
  (at level 61, right associativity).

(** ** encode_image (lines 17-21) *)

Definition b64_char (n : N) : codepoint :=
  (if n <? 26 then 0x41 + n
   else if n <? 52 then 0x61 + (n - 26)
   else if n <? 62 then 0x30 + (n - 52)
   else if n =? 62 then chr "+" else chr "/")%N.

Definition PAD : codepoint := chr "=".

(** [base64.b64encode(bs).decode()]: three bytes give four characters of
    the alphabet, a last group of one or two bytes is padded. *)
Fixpoint b64encode (bs : list Byte.byte) : pystr :=
  match bs with
  | [] => []
  | [a] =>
      let x := Byte.to_N a in
      [b64_char (x / 4); b64_char (x mod 4 * 16); PAD; PAD]%N
  | [a; b] =>
      let x := Byte.to_N a in
      let y := Byte.to_N b in
      [b64_char (x / 4); b64_char (x mod 4 * 16 + y / 16);
       b64_char (y mod 16 * 4); PAD]%N
  | a :: b :: c :: rest =>
      let x := Byte.to_N a in
      let y := Byte.to_N b in
      let z := Byte.to_N c in
      [b64_char (x / 4); b64_char (x mod 4 * 16 + y / 16);
       b64_char (y mod 16 * 4 + z / 64); b64_char (z mod 64)]%N
        ++ b64encode rest
  end.

Definition encode_image (image : bitmap) : result pystr :=
  match Image_save_png image with
  | Some buffered => Ok (b64encode buffered)
  | None => Raise ImageError
  end.

(** Modelled from the spec: base64 decoding, which the claim on the
    round trip of the intake names and the source does not call.  The
    decoder of RFC 4648 on canonical input: groups of four characters of
    the alphabet, padding in the last group only. *)
Definition b64_index (c : codepoint) : option N :=
  (if (0x41 <=? c) && (c <=? 0x5a) then Some (c - 0x41)
   else if (0x61 <=? c) && (c <=? 0x7a) then Some (c - 0x61 + 26)
   else if (0x30 <=? c) && (c <=? 0x39) then Some (c - 0x30 + 52)
   else if c =? chr "+" then Some 62
   else if c =? chr "/" then Some 63
   else None)%N.



(** ** extract_invoice_data (lines 23-91) *)

(** A literal in which an apostrophe stands for a double quote. *)
Definition pyq (s : string) : pystr :=
  map (fun c => if (c =? chr "'")%N then QUOTE else c) (py s).

(** The prompt of lines 30-58. *)
Definition PROMPT : pystr := pyq "
        Analyze this invoice image and extract the following information in JSON format:
        
        {
            'invoice_number': '',
            'invoice_date': '',
            'due_date': '',
            'vendor_name': '',
            'vendor_address': '',
            'vendor_tax_id': '',
            'customer_name': '',
            'customer_address': '',
            'line_items': [
                {
                    'description': '',
                    'quantity': '',
                    'unit_price': '',
                    'total_price': ''
                }
            ],
            'subtotal': '',
            'tax_amount': '',
            'total_amount': '',
            'currency': ''
        }
        
        If any field is not found, use 'N/A' as the value.
        Return only the JSON object, no additional text.
        ".

(** What [client.chat.completions.create] does: it raises, or returns a
    response whose choices each carry the content of a message, which may
    be [None]. *)
Inductive reply : Type :=
| ApiRaises (message : pystr)
| ApiReturns (choices : list (option pystr)).

Definition KEY_NAME : pystr := py "OPENAI_API_KEY".

(** [st.secrets] is a read-only mapping over the secrets file.  Without
    a secrets file every read raises; with one, the entry of
    [OPENAI_API_KEY] is there or not, and is taken to be a string. *)
Inductive secrets : Type :=
| NoSecretsFile
| SecretsFile (entry : option pystr).

(** [st.secrets["OPENAI_API_KEY"]] *)
Definition secrets_item (store : secrets) : result pystr :=
  match store with
  | NoSecretsFile => Raise SecretsError
  | SecretsFile None => Raise KeyError
  | SecretsFile (Some key) => Ok key
  end.

(** [st.secrets.get("OPENAI_API_KEY")]: [Mapping.get] turns a [KeyError]
    into [None] and lets any other exception through. *)
Definition secrets_get (store : secrets) : result (option pystr) :=
  match store with
  | NoSecretsFile => Raise SecretsError
  | SecretsFile entry => Ok entry
  end.

(** [st.secrets["OPENAI_API_KEY"] = value]: the mapping has no item
    assignment. *)
Definition secrets_setitem (value : pystr) : result unit := Raise TypeError.

(** [init_openai] (lines 13-15), when its body runs. *)
Definition init_openai (store : secrets) : result pystr := secrets_item store.

(** Lines 80-87, with the exceptions of each step. *)
Definition response_content (r : reply) : result pystr :=
  match r with
  | ApiRaises message => Raise (APIError message)
  | ApiReturns [] => Raise IndexError
  | ApiReturns (None :: _) => Raise AttributeError
  | ApiReturns (Some content :: _) => Ok content
  end.

Definition loads_or_raise (text : pystr) : result value :=
  match json_loads text with
  | Some v => Ok v
  | None => Raise JSONDecodeError
  end.

Definition MODEL : pystr := py "gpt-4-vision-preview".

Definition extract_invoice_data (store : secrets) (r : reply) (image : bitmap)
  : M (option value) :=
  try_except
    (client <- lift (init_openai store) ;;
     base64_image <- lift (encode_image image) ;;
     emit (ChatCompletionsCreate client MODEL PROMPT
             (py "data:image/png;base64," ++ base64_image) 1000) ;;
     content <- lift (response_content r) ;;
     v <- lift (loads_or_raise (fence_stripped content)) ;;
     ret (Some v))
    (fun e =>
       emit (StError [FLit (py "Error extracting data: "); FExn e]) ;;
       ret None).

(** ** display_extracted_data (lines 93-138) *)

(** [d.get(key, default)] on a [dict]. *)
Definition field_or (d : pydict) (key : string) (default : value) : value :=
  match dict_get d (py key) with
  | Some v => v
  | None => default
  end.

(** [data.get(key, default)]: only a [dict] has the method. *)
Definition get_or (data : value) (key : string) (default : value) : result value :=
  match data with
  | PyDict d => Ok (field_or d key default)
  | _ => Raise AttributeError
  end.

(** [len(v)] *)
Definition py_len (v : value) : result nat :=
  match v with
  | PyStr s => Ok (List.length s)
  | PyList l => Ok (List.length l)
  | PyDict d => Ok (List.length d)
  | _ => Raise TypeError
  end.

Definition NA : value := PyStr (py "N/A").

(** The values [st.metric] takes: [None], an [int] (a [bool] is one), a
    [float] or a [str]; it raises on any other. *)
Definition metric_accepts (v : value) : bool :=
  match v with
  | PyList _ | PyDict _ => false
  | _ => true
  end.

(** [st.metric(label, v)] *)
Definition st_metric (label : pystr) (v : widget_value) : M unit :=
  match v with
  | Raw x => if metric_accepts x then emit (StMetric label v) else raise MetricError
  | Formatted _ => emit (StMetric label v)
  end.

(** A metric whose value is [data.get(key, "N/A")]. *)
Definition metric_field (data : value) (label key : string) : M unit :=
  v <- lift (get_or data key NA) ;;
  st_metric (py label) (Raw v).

(** [st.write(f"**Label:** {data.get(key, 'N/A')}")] *)
Definition write_field (data : value) (label key : string) : M unit :=
  v <- lift (get_or data key NA) ;;
  emit (StWrite [FLit (py label); FVal v]).

(** A metric whose value is
    [f"{data.get('currency', '')} {data.get(key, 'N/A')}"]. *)
Definition metric_amount (data : value) (label key : string) : M unit :=
  currency <- lift (get_or data "currency" (PyStr [])) ;;
  v <- lift (get_or data key NA) ;;
  st_metric (py label) (Formatted [FVal currency; FLit (py " "); FVal v]).

Definition NO_LINE_ITEMS : pystr := py "No line items found".

(** The sequences of mappings from text to text, which are the line items
    the prompt asks for. *)
Definition text_record := list (pystr * pystr).

Fixpoint as_text_record (d : pydict) : option text_record :=
  match d with
  | [] => Some []
  | (k, PyStr s) :: d' =>
      match as_text_record d' with
      | Some r => Some ((k, s) :: r)
      | None => None
      end
  | _ => None
  end.

Fixpoint as_text_records (items : list value) : option (list text_record) :=
  match items with
  | [] => Some []
  | PyDict d :: items' =>
      match as_text_record d, as_text_records items' with
      | Some r, Some rs => Some (r :: rs)
      | _, _ => None
      end
  | _ => None
  end.

(** What [pd.DataFrame] does, on a list or a mapping that is not a
    sequence of such records, is a parameter: [false] is a raised
    exception. *)
Variable DataFrame_accepts : value -> bool.

(** [pd.DataFrame(items)]: a sequence of mappings from text to text makes
    a frame; a string or a number is refused ("DataFrame constructor not
    properly called!"). *)
Definition pd_DataFrame (items : value) : result unit :=
  match items with
  | PyList l =>
      match as_text_records l with
      | Some _ => Ok tt
      | None => if DataFrame_accepts items then Ok tt else Raise FrameError
      end
  | PyDict _ => if DataFrame_accepts items then Ok tt else Raise FrameError
  | _ => Raise FrameError
  end.

(** Lines 122-127. *)
Definition display_line_items (data : value) : M unit :=
  emit (StSubheader (0x1F4E6%N :: py " Line Items")) ;;
  items <- lift (get_or data "line_items" PyNone) ;;
  shown <- (if truthy items
            then n <- lift (py_len items) ;; ret (0 <? n)
            else ret false) ;;
  if shown : bool then
    lift (pd_DataFrame items) ;;
    emit (StDataframe items)
  else emit (StWrite [FLit NO_LINE_ITEMS]).

Definition display_extracted_data (data : value) : M unit :=
  emit (StSubheader (0x1F4CB%N :: py " Invoice Information")) ;;
  emit (StColumns 3) ;;
  metric_field data "Invoice Number" "invoice_number" ;;
  metric_field data "Invoice Date" "invoice_date" ;;
  metric_field data "Due Date" "due_date" ;;
  emit (StColumns 2) ;;
  emit (StSubheader (0x1F3E2%N :: py " Vendor Information")) ;;
  write_field data "**Name:** " "vendor_name" ;;
  write_field data "**Address:** " "vendor_address" ;;
  write_field data "**Tax ID:** " "vendor_tax_id" ;;
  emit (StSubheader (0x1F464%N :: py " Customer Information")) ;;
  write_field data "**Name:** " "customer_name" ;;
  write_field data "**Address:** " "customer_address" ;;
  display_line_items data ;;
  emit (StSubheader (0x1F4B0%N :: py " Totals")) ;;
  emit (StColumns 3) ;;
  metric_amount data "Subtotal" "subtotal" ;;
  metric_amount data "Tax Amount" "tax_amount" ;;
  metric_amount data "Total Amount" "total_amount".

(** ** The script (lines 9-11 and 140-226) *)

(** What a run of the script is given. *)
Record session : Type := {
  typed_key : pystr;                      (* the text input of the sidebar *)
  stored_key : secrets;                   (* the secrets of the run *)
  uploaded_file : option (list Byte.byte);
  extract_clicked : bool;                 (* what [st.button] returns *)
  api_reply : reply
}.

(** [bool(s)] on a string. *)
Definition nonempty (s : pystr) : bool :=
  match s with [] => false | _ :: _ => true end.

(** [bool(entry)] on what [st.secrets.get] returns. *)
Definition key_truthy (entry : option pystr) : bool :=
  match entry with
  | Some key => nonempty key
  | None => false
  end.

(** The secrets hold a key that is not empty: [st.secrets.get] returns,
    and what it returns is truthy. *)
Definition has_key (store : secrets) : bool :=
  match store with
  | SecretsFile entry => key_truthy entry
  | NoSecretsFile => false
  end.

(** Lines 145-159.  The assignment of line 150 raises, outside any
    [try]: with a key typed in, the run ends there. *)
Definition sidebar (w : session) : M unit :=
  emit (StHeader (0x1F511%N :: py " Setup")) ;;
  emit (StTextInput (py "OpenAI API Key") (py "Enter your OpenAI API key")) ;;
  (if nonempty (typed_key w)
   then lift (secrets_setitem (typed_key w)) ;;
        emit (StSuccess (py "API key configured!"))
   else ret tt) ;;
  emit (StHeader (0x1F4CA%N :: py " Instructions")) ;;
  emit (StMarkdown (py "
    1. Enter your OpenAI API key
    2. Upload an invoice image
    3. Click 'Extract Invoice Data'
    4. View and download results
    ")).

Definition WARNING_NO_KEY : pystr :=
  py "Please enter your OpenAI API key in the sidebar to proceed.".

Definition JSON_LABEL : pystr := 0x1F4C4%N :: py " Download JSON".
Definition CSV_LABEL : pystr := 0x1F4CA%N :: py " Download Line Items CSV".
Definition BUTTON_LABEL : pystr := 0x1F50D%N :: py " Extract Invoice Data".
Definition SUCCESS_EXTRACTED : pystr := py "Data extracted successfully!".

(** Lines 186-219: what a truthy result is given. *)
Definition present (data : value) : M unit :=
  emit (StSuccess SUCCESS_EXTRACTED) ;;
  display_extracted_data data ;;
  emit (StSubheader (0x1F4E5%N :: py " Download Options")) ;;
  emit (StColumns 2) ;;
  emit (StDownloadButton JSON_LABEL (JsonText (json_dumps data))
          (py "invoice_data.json") (py "application/json")) ;;
  items <- lift (get_or data "line_items" PyNone) ;;
  (if truthy items
   then lift (pd_DataFrame items) ;;
        emit (StDownloadButton CSV_LABEL (LineItemsCsv items)
                (py "invoice_line_items.csv") (py "text/csv"))
   else ret tt) ;;
  emit (StExpander (0x1F50D%N :: py " View Raw JSON Data")) ;;
  emit (StJson data).

(** Lines 183-219: [if extracted_data:]. *)
Definition present_if_truthy (extracted_data : option value) : M unit :=
  match extracted_data with
  | Some data => if truthy data then present data else ret tt
  | None => ret tt
  end.

(** Lines 168-222. *)
Definition process_upload (w : session) (store : secrets) (file : list Byte.byte)
  : M unit :=
  emit (StSubheader (0x1F4F8%N :: py " Uploaded Invoice")) ;;
  try_except
    (image <- lift (match Image_open file with
                    | Some image => Ok image
                    | None => Raise ImageError
                    end) ;;
     emit (StImage image (py "Uploaded Invoice")) ;;
     entry <- lift (secrets_get store) ;;
     if negb (key_truthy entry) then emit (StWarning WARNING_NO_KEY)
     else
       emit (StButton BUTTON_LABEL) ;;
       if extract_clicked w then
         emit (StSpinner (py "Analyzing invoice...")) ;;
         extracted_data <- extract_invoice_data store (api_reply w) image ;;
         present_if_truthy extracted_data
       else ret tt)
    (fun e => emit (StError [FLit (py "Error processing image: "); FExn e])).

(** Lines 9-11 and 140-166: the page, the sidebar and the uploader. *)
Definition preamble (w : session) : M unit :=
  emit (StSetPageConfig (py "Invoice Analyzer") [0x1F4C4%N] (py "wide")) ;;
  emit (StTitle (0x1F4C4%N :: py " Invoice Data Extractor")) ;;
  emit (StMarkdown
          (py "Upload an invoice image and extract structured data automatically!")) ;;
  sidebar w ;;
  emit (StFileUploader (py "Choose an invoice image...")
          (py "Upload PNG, JPG, or JPEG files")).

(** Lines 224-226. *)
Definition footer : M unit :=
  emit (StMarkdown (py "---")) ;;
  emit (StMarkdown (py "Built with " ++ [0x2764; 0xFE0F]%N
                      ++ py " using Streamlit and OpenAI Vision API")).

Definition script (w : session) : M unit :=
  preamble w ;;
  match uploaded_file w with
  | Some file => process_upload w (stored_key w) file
  | None => ret tt
  end ;;
  footer.

(** What a run shows and sends. *)
Definition run (w : session) : list event := fst (script w).

(** The secrets when the sidebar is done: the sidebar cannot change
    them. *)
Definition store_after (w : session) : secrets := stored_key w.

(** ** What the claims speak of *)

(** The element of lines 123-127 for a mapping: the table for a truthy
    [line_items], the note otherwise. *)
Definition line_items_event (d : pydict) : event :=
  if truthy (field_or d "line_items" PyNone)
  then StDataframe (field_or d "line_items" PyNone)
  else StWrite [FLit NO_LINE_ITEMS].

(** The elements [display_extracted_data] makes for a mapping, with the
    value of each field in its place. *)
Definition display_events (d : pydict) : list event :=
  [ StSubheader (0x1F4CB%N :: py " Invoice Information");
    StColumns 3;
    StMetric (py "Invoice Number") (Raw (field_or d "invoice_number" NA));
    StMetric (py "Invoice Date") (Raw (field_or d "invoice_date" NA));
    StMetric (py "Due Date") (Raw (field_or d "due_date" NA));
    StColumns 2;
    StSubheader (0x1F3E2%N :: py " Vendor Information");
    StWrite [FLit (py "**Name:** "); FVal (field_or d "vendor_name" NA)];
    StWrite [FLit (py "**Address:** "); FVal (field_or d "vendor_address" NA)];
    StWrite [FLit (py "**Tax ID:** "); FVal (field_or d "vendor_tax_id" NA)];
    StSubheader (0x1F464%N :: py " Customer Information");
    StWrite [FLit (py "**Name:** "); FVal (field_or d "customer_name" NA)];
    StWrite [FLit (py "**Address:** "); FVal (field_or d "customer_address" NA)];
    StSubheader (0x1F4E6%N :: py " Line Items");
    line_items_event d;
    StSubheader (0x1F4B0%N :: py " Totals");
    StColumns 3;
    StMetric (py "Subtotal")
      (Formatted [FVal (field_or d "currency" (PyStr [])); FLit (py " ");
                  FVal (field_or d "subtotal" NA)]);
    StMetric (py "Tax Amount")
      (Formatted [FVal (field_or d "currency" (PyStr [])); FLit (py " ");
                  FVal (field_or d "tax_amount" NA)]);
    StMetric (py "Total Amount")
      (Formatted [FVal (field_or d "currency" (PyStr [])); FLit (py " ");
                  FVal (field_or d "total_amount" NA)]) ].

(** [st.metric] accepts the three values that lines 101-105 give it as
    they are. *)
Definition metrics_accepted (d : pydict) : bool :=
  metric_accepts (field_or d "invoice_number" NA)
  && metric_accepts (field_or d "invoice_date" NA)
  && metric_accepts (field_or d "due_date" NA).

(** [pd.DataFrame] returns. *)
Definition frame_ok (items : value) : bool :=
  match pd_DataFrame items with
  | Ok _ => true
  | Raise _ => false
  end.

(** [line_items] is missing or falsy, or a value [pd.DataFrame]
    accepts. *)
Definition line_items_accepted (d : pydict) : bool :=
  negb (truthy (field_or d "line_items" PyNone))
  || frame_ok (field_or d "line_items" PyNone).

(** The values an element shows in the place of a field. *)
Definition fstring_values (f : fstring) : list value :=
  flat_map (fun p => match p with FVal v => [v] | _ => [] end) f.

Definition shown_values (e : event) : list value :=
  match e with
  | StMetric _ (Raw v) => [v]
  | StMetric _ (Formatted f) => fstring_values f
  | StWrite f => fstring_values f
  | _ => []
  end.

(** The elements that present a result: the success message, what
    [display_extracted_data] shows, the downloads and the raw view. *)
Definition presents (e : event) : bool :=
  match e with
  | StSuccess s => str_eqb s SUCCESS_EXTRACTED
  | StMetric _ _ | StWrite _ | StDataframe _ | StColumns _
  | StDownloadButton _ _ _ _ | StExpander _ | StJson _ => true
  | _ => false
  end.

(** A Python string holds code points up to U+10FFFF. *)
Definition valid_str (s : pystr) : bool := forallb (fun c => c <=? 0x10FFFF)%N s.

(** A high surrogate immediately followed by a low surrogate. *)
Fixpoint has_surrogate_pair (s : pystr) : bool :=
  match s with
  | c :: r =>
      match r with
      | d :: _ => is_high_surrogate c && is_low_surrogate d
      | [] => false
      end || has_surrogate_pair r
  | [] => false
  end.

(** No string of the value, key or not, holds such a pair. *)
Fixpoint no_surrogate_pairs (v : value) : bool :=
  match v with
  | PyStr s => negb (has_surrogate_pair s)
  | PyList items => forallb no_surrogate_pairs items
  | PyDict entries =>
      forallb (fun kv => negb (has_surrogate_pair (fst kv))
                         && no_surrogate_pairs (snd kv)) entries
  | _ => true
  end.

(** What every value read from a Python string satisfies: its strings are
    Python strings, and the keys of a mapping differ. *)
Inductive valid_value : value -> Prop :=
| valid_none : valid_value PyNone
| valid_bool b : valid_value (PyBool b)
| valid_int z : valid_value (PyInt z)
| valid_float f : valid_value (PyFloat f)
| valid_pystr s : valid_str s = true -> valid_value (PyStr s)
| valid_list items : Forall valid_value items -> valid_value (PyList items)
| valid_dict entries :
    NoDup (map fst entries) ->
    Forall (fun kv => valid_str (fst kv) = true /\ valid_value (snd kv)) entries ->
    valid_value (PyDict entries).

(** The line items of the spec's CSV example. *)
Definition example_line_items : value :=
  PyList [PyDict [(py "description", PyStr (py "A"));
                  (py "quantity", PyStr (py "2"));
                  (py "unit_price", PyStr (py "5"));
                  (py "total_price", PyStr (py "10"))]].


Definition is_request (e : event) : bool :=
  match e with
  | ChatCompletionsCreate _ _ _ _ _ => true
  | _ => false
  end.

Definition is_trigger (e : event) : bool :=
  match e with
  | StButton _ => true
  | _ => false
  end.

(** ** The CSV of the line items

    [pd.DataFrame(items).to_csv(index=False)] belongs to pandas.  It is
    modelled on the sequences of mappings from text to text with at least
    one key and no carriage return in a field, where the columns are the
    keys in the order they first appear, a missing cell is empty, and the
    rows are written by [csv.writer] with its default dialect and a line
    feed at the end of each row.  [None] stands for an input outside
    this fragment, not for an exception. *)

Definition str_mem (k : pystr) (l : list pystr) : bool := existsb (str_eqb k) l.

(** The keys of the records, each once, in the order of first appearance. *)
Definition add_keys (columns : list pystr) (r : text_record) : list pystr :=
  fold_left (fun cols kv => if str_mem (fst kv) cols then cols else cols ++ [fst kv])
    r columns.

Definition frame_columns (rs : list text_record) : list pystr :=
  fold_left add_keys rs [].

Fixpoint record_get (r : text_record) (k : pystr) : pystr :=
  match r with
  | [] => []
  | (k', s) :: r' => if str_eqb k' k then s else record_get r' k
  end.

Definition CR : codepoint := 0x0d%N.

(** A field is quoted when it holds the delimiter, the quote character or
    a line feed; a quote inside is written twice. *)
Definition needs_quotes (s : pystr) : bool :=
  existsb (fun c => (c =? chr ",") || (c =? QUOTE) || (c =? NL))%N s.

Definition csv_field (s : pystr) : pystr :=
  if needs_quotes s
  then QUOTE :: flat_map (fun c => if (c =? QUOTE)%N then [QUOTE; QUOTE] else [c]) s
             ++ [QUOTE]
  else s.

(** A row; a row of one empty field is written as two quotes. *)
Definition csv_row (fields : list pystr) : pystr :=
  match fields with
  | [[]] => [QUOTE; QUOTE; NL]
  | _ => join (py ",") (map csv_field fields) ++ [NL]
  end.

Definition csv_rows (rs : list text_record) : list (list pystr) :=
  let columns := frame_columns rs in
  columns :: map (fun r => map (record_get r) columns) rs.

Definition to_csv (items : value) : option pystr :=
  match items with
  | PyList l =>
      match as_text_records l with
      | Some rs =>
          let rows := csv_rows rs in
          if existsb (existsb (existsb (N.eqb CR))) rows then None
          else match frame_columns rs with
               | [] => None
               | _ :: _ => Some (flat_map csv_row rows)
               end
      | None => None
      end
  | _ => None
  end.

(** The text [encode] writes for [v] reads back as [v]. *)
Definition readable (level : nat) (v : value) : Prop :=
  token_ends (encode level v)
  /\ forall t, safe_tail t = true ->
       exists f, scan_once f (encode level v ++ t) = Done (v, t).

(** A key that [encode_basestring_ascii] and [scanstring] round-trip. *)
Definition key_ok (k : pystr) : Prop :=
  valid_str k = true /\ has_surrogate_pair k = false.

(** One entry of a mapping, as [encode] writes it. *)
Definition encode_entry (level : nat) (kv : pystr * value) : pystr :=
  encode_basestring_ascii (fst kv) ++ py ": " ++ encode level (snd kv).

(** The mapping [_parse_object] builds from the entries it reads. *)
Definition dict_of (entries : list (pystr * value)) (d : pydict) : pydict :=
  fold_left (fun acc kv => dict_set acc (fst kv) (snd kv)) entries d.

(** ** The client cache (line 13)

    [st.cache_resource] keeps what the first call of [init_openai] that
    returns has returned, and gives it to every later call, in this run
    and in the runs that follow, without running the body again; a call
    that raises leaves the cache empty.  The kept client is modelled by
    its key.  [extract_invoice_data] and the script are written again
    below with the cache passed from step to step; [run] above is a run
    on an empty cache. *)

Definition client_cache := option pystr.

(** A computation that reads and fills the cache. *)
Definition MC (A : Type) : Type := client_cache -> M A * client_cache.

Definition ret_c {A} (a : A) : MC A := fun cache => (ret a, cache).

Definition bind_c {A B} (m : MC A) (k : A -> MC B) : MC B :=
  fun cache =>
    match m cache with
    | ((ev, Ok a), cache') =>
        match k a cache' with
        | ((ev', r), cache'') => ((ev ++ ev', r), cache'')
        end
    | ((ev, Raise e), cache') => ((ev, Raise e), cache')
    end.

(** A computation that does not touch the cache. *)
Definition plain {A} (m : M A) : MC A := fun cache => (m, cache).

(** [try: m except Exception as e: handler e]; what [m] has put in the
    cache stays there. *)
Definition try_except_c {A} (m : MC A) (handler : exn -> MC A) : MC A :=
  fun cache =>
    match m cache with
    | ((ev, Ok a), cache') => ((ev, Ok a), cache')
    | ((ev, Raise e), cache') =>
        match handler e cache' with
        | ((ev', r), cache'') => ((ev ++ ev', r), cache'')
        end
    end.

Notation "x <~ m ;; k" := (bind_c m (fun x => k))
  (at level 61, m at next level, right associativity).

(** [init_openai()] as the script calls it (lines 13-15 and 27). *)
Definition init_openai_cached (store : secrets) : MC pystr :=
  fun cache =>
    match cache with
    | Some client => (ret client, cache)
    | None =>
        match init_openai store with
        | Ok client => (ret client, Some client)
        | Raise e => (raise e, None)
        end
    end.

(** Lines 23-91. *)
Definition extract_invoice_data_cached (store : secrets) (r : reply) (image : bitmap)
  : MC (option value) :=
  try_except_c
    (client <~ init_openai_cached store ;;
     plain (base64_image <- lift (encode_image image) ;;
            emit (ChatCompletionsCreate client MODEL PROMPT
                    (py "data:image/png;base64," ++ base64_image) 1000) ;;
            content <- lift (response_content r) ;;
            v <- lift (loads_or_raise (fence_stripped content)) ;;
            ret (Some v)))
    (fun e =>
       plain (emit (StError [FLit (py "Error extracting data: "); FExn e]) ;;
              ret None)).

(** Lines 168-222. *)
Definition process_upload_cached (w : session) (store : secrets)
  (file : list Byte.byte) : MC unit :=
  _ <~ plain (emit (StSubheader (0x1F4F8%N :: py " Uploaded Invoice"))) ;;
  try_except_c
    (image <~ plain (image <- lift (match Image_open file with
                                    | Some image => Ok image
                                    | None => Raise ImageError
                                    end) ;;
                     emit (StImage image (py "Uploaded Invoice")) ;;
                     ret image) ;;
     entry <~ plain (lift (secrets_get store)) ;;
     if negb (key_truthy entry) then plain (emit (StWarning WARNING_NO_KEY))
     else
       _ <~ plain (emit (StButton BUTTON_LABEL)) ;;
       if extract_clicked w then
         _ <~ plain (emit (StSpinner (py "Analyzing invoice..."))) ;;
         extracted_data <~ extract_invoice_data_cached store (api_reply w) image ;;
         plain (present_if_truthy extracted_data)
       else ret_c tt)
    (fun e => plain (emit (StError [FLit (py "Error processing image: "); FExn e]))).

Definition script_cached (w : session) : MC unit :=
  _ <~ plain (preamble w) ;;
  _ <~ match uploaded_file w with
       | Some file => process_upload_cached w (stored_key w) file
       | None => ret_c tt
       end ;;
  plain footer.

(** What a run shows and sends from a cache, and the cache it leaves. *)
Definition run_cached (cache : client_cache) (w : session)
  : list event * client_cache :=
  (fst (fst (script_cached w cache)), snd (script_cached w cache)).

(** The runs of one server process, one after the other. *)
Fixpoint runs_cached (cache : client_cache) (ws : list session) : list event :=
  match ws with
  | [] => []
  | w :: ws' =>
      fst (run_cached cache w) ++ runs_cached (snd (run_cached cache w)) ws'
  end.

(** The run calls [init_openai]: nothing is typed in the sidebar, a file
    is uploaded that [Image.open] reads, the secrets hold a key, and the
    button is clicked. *)
Definition reaches_client (w : session) : bool :=
  negb (nonempty (typed_key w))
  && match uploaded_file w with
     | Some file =>
         match Image_open file with
         | Some _ => has_key (stored_key w) && extract_clicked w
         | None => false
         end
     | None => false
     end.

(** The key of the client a call is made with. *)
Definition request_key (e : event) : option pystr :=
  match e with
  | ChatCompletionsCreate api_key _ _ _ _ => Some api_key
  | _ => None
  end.

(** The secrets that would give the client [init_openai] returns: those
    of the cached client if there is one. *)
Definition client_store (cache : client_cache) (store : secrets) : secrets :=
  match cache with
  | Some client => SecretsFile (Some client)
  | None => store
  end.

(** The cache after a call of [init_openai]. *)
Definition cache_after (cache : client_cache) (store : secrets) : client_cache :=
  match cache with
  | Some client => Some client
  | None =>
      match init_openai store with
      | Ok client => Some client
      | Raise _ => None
      end
  end.

(** ** Inputs on which the properties are run *)

(** A reply that is a JSON object. *)
Definition sample_json : pystr :=
  pyq "{'invoice_number': 'INV-1', 'subtotal': '100', 'line_items': []}".

Definition sample_mapping : pydict :=
  [(py "invoice_number", PyStr (py "INV-1"));
   (py "subtotal", PyStr (py "100"));
   (py "line_items", PyList [])].

(** A reply in prose. *)
Definition sample_prose : pystr := py "Sorry, I cannot read this invoice.".

(** A reply whose one string holds the two surrogates of U+1F600 as two
    characters. *)
Definition surrogates_json : pystr :=
  pyq "{'a': '" ++ [0xD83D; 0xDE00]%N ++ pyq "'}".

Definition sample_file : list Byte.byte :=
  [Byte.x89; Byte.x50; Byte.x4e; Byte.x47].

(** A secrets file without the key, no upload. *)
Definition idle_session : session :=
  {| typed_key := []; stored_key := SecretsFile None; uploaded_file := None;
     extract_clicked := false; api_reply := ApiReturns [] |}.

(** A secrets file without the key, an upload. *)
Definition keyless_session : session :=
  {| typed_key := []; stored_key := SecretsFile None;
     uploaded_file := Some sample_file;
     extract_clicked := false; api_reply := ApiReturns [] |}.

(** No secrets file, an upload. *)
Definition no_secrets_session : session :=
  {| typed_key := []; stored_key := NoSecretsFile;
     uploaded_file := Some sample_file;
     extract_clicked := false; api_reply := ApiReturns [] |}.

(** A key in the secrets, an upload, a click, and the empty object for a
    reply. *)
Definition empty_object_session : session :=
  {| typed_key := []; stored_key := SecretsFile (Some (py "sk-test"));
     uploaded_file := Some sample_file; extract_clicked := true;
     api_reply := ApiReturns [Some (py "{}")] |}.

(** A key typed in the sidebar, an upload and a click. *)
Definition typed_session : session :=
  {| typed_key := py "sk-test"; stored_key := SecretsFile None;
     uploaded_file := Some sample_file; extract_clicked := true;
     api_reply := ApiReturns [Some (py "{}")] |}.

(** A mapping whose invoice number is a list, with no line items. *)
Definition listed_number_mapping : pydict :=
  [(py "invoice_number", PyList [PyStr (py "x")]);
   (py "line_items", PyList [])].

(** ** What the further properties speak of *)

(** The call of lines 60-77, for a key and the base64 text of an
    image. *)
Definition request_of (key base64_image : pystr) : event :=
  ChatCompletionsCreate key MODEL PROMPT
    (py "data:image/png;base64," ++ base64_image) 1000.

(** The messages of the two handlers (lines 90 and 222). *)
Definition extract_error (e : exn) : event :=
  StError [FLit (py "Error extracting data: "); FExn e].

Definition upload_error (e : exn) : event :=
  StError [FLit (py "Error processing image: "); FExn e].

Definition is_error (e : event) : bool :=
  match e with
  | StError _ => true
  | _ => false
  end.

(** The Python value [extract_invoice_data] returns: the [None] of its
    handler and the [None] that [json.loads] gives for [null] are one
    value. *)
Definition returned (out : option value) : value :=
  match out with
  | Some v => v
  | None => PyNone
  end.

(** How many of the events satisfy [P]. *)
Definition count_events (P : event -> bool) (l : list event) : nat :=
  List.length (filter P l).

(** The two download buttons (lines 198-203 and 210-215). *)
Definition json_button (data : value) : event :=
  StDownloadButton JSON_LABEL (JsonText (json_dumps data))
    (py "invoice_data.json") (py "application/json").

Definition csv_button (items : value) : event :=
  StDownloadButton CSV_LABEL (LineItemsCsv items)
    (py "invoice_line_items.csv") (py "text/csv").

(** The keys [display_extracted_data] reads. *)
Definition DISPLAYED_FIELDS : list string :=
  ["invoice_number"; "invoice_date"; "due_date"; "vendor_name";
   "vendor_address"; "vendor_tax_id"; "customer_name"; "customer_address";
   "line_items"; "currency"; "subtotal"; "tax_amount"; "total_amount"]%string.

(** A printable ASCII character, or a line feed. *)
Definition printable (c : codepoint) : bool :=
  ((c =? 0x0a) || (0x20 <=? c) && (c <=? 0x7e))%N.

(** A character of a base64 text: one of the alphabet, or the padding. *)
Definition b64_symbol (c : codepoint) : bool :=
  match b64_index c with
  | Some _ => true
  | None => (c =? PAD)%N
  end.

(** What [display_extracted_data] shows of a mapping before the test of
    line 123, and after it. *)
Definition display_head (d : pydict) : list event :=
  [ StSubheader (0x1F4CB%N :: py " Invoice Information");
    StColumns 3;
    StMetric (py "Invoice Number") (Raw (field_or d "invoice_number" NA));
    StMetric (py "Invoice Date") (Raw (field_or d "invoice_date" NA));
    StMetric (py "Due Date") (Raw (field_or d "due_date" NA));
    StColumns 2;
    StSubheader (0x1F3E2%N :: py " Vendor Information");
    StWrite [FLit (py "**Name:** "); FVal (field_or d "vendor_name" NA)];
    StWrite [FLit (py "**Address:** "); FVal (field_or d "vendor_address" NA)];
    StWrite [FLit (py "**Tax ID:** "); FVal (field_or d "vendor_tax_id" NA)];
    StSubheader (0x1F464%N :: py " Customer Information");
    StWrite [FLit (py "**Name:** "); FVal (field_or d "customer_name" NA)];
    StWrite [FLit (py "**Address:** "); FVal (field_or d "customer_address" NA)];
    StSubheader (0x1F4E6%N :: py " Line Items") ].

Definition display_totals (d : pydict) : list event :=
  [ StSubheader (0x1F4B0%N :: py " Totals");
    StColumns 3;
    StMetric (py "Subtotal")
      (Formatted [FVal (field_or d "currency" (PyStr [])); FLit (py " ");
                  FVal (field_or d "subtotal" NA)]);
    StMetric (py "Tax Amount")
      (Formatted [FVal (field_or d "currency" (PyStr [])); FLit (py " ");
                  FVal (field_or d "tax_amount" NA)]);
    StMetric (py "Total Amount")
      (Formatted [FVal (field_or d "currency" (PyStr [])); FLit (py " ");
                  FVal (field_or d "total_amount" NA)]) ].

(** What the page shows down to the text input of the sidebar, and from
    there to the uploader. *)
Definition page_top : list event :=
  [ StSetPageConfig (py "Invoice Analyzer") [0x1F4C4%N] (py "wide");
    StTitle (0x1F4C4%N :: py " Invoice Data Extractor");
    StMarkdown
      (py "Upload an invoice image and extract structured data automatically!");
    StHeader (0x1F511%N :: py " Setup");
    StTextInput (py "OpenAI API Key") (py "Enter your OpenAI API key") ].

Definition page_rest : list event :=
  [ StHeader (0x1F4CA%N :: py " Instructions");
    StMarkdown (py "
    1. Enter your OpenAI API key
    2. Upload an invoice image
    3. Click 'Extract Invoice Data'
    4. View and download results
    ");
    StFileUploader (py "Choose an invoice image...")
      (py "Upload PNG, JPG, or JPEG files") ].

(** An ASCII letter. *)
Definition is_letter (c : codepoint) : bool :=
  ((0x41 <=? c) && (c <=? 0x5a) || (0x61 <=? c) && (c <=? 0x7a))%N.

(** What the upload flow shows up to the call, on an image and with a
    key. *)
Definition upload_head (image : bitmap) : list event :=
  [ StSubheader (0x1F4F8%N :: py " Uploaded Invoice");
    StImage image (py "Uploaded Invoice");
    StButton BUTTON_LABEL;
    StSpinner (py "Analyzing invoice...") ].

(** What follows the display of a result (lines 192-219), for the value
    of [line_items]. *)
Definition downloads (data : value) (items : value) : list event :=
  [ StSubheader (0x1F4E5%N :: py " Download Options");
    StColumns 2;
    json_button data ]
  ++ (if truthy items then [csv_button items] else [])
  ++ [ StExpander (0x1F50D%N :: py " View Raw JSON Data");
       StJson data ].

(** An element of the totals. *)
Definition is_total (e : event) : bool :=
  match e with
  | StMetric _ (Formatted _) => true
  | _ => false
  end.

(** Every string of the value, key or not, is a Python string. *)
Fixpoint strings_valid (v : value) : bool :=
  match v with
  | PyStr s => valid_str s
  | PyList items => forallb strings_valid items
  | PyDict entries =>
      forallb (fun kv => valid_str (fst kv) && strings_valid (snd kv)) entries
  | _ => true
  end.

(** The confirmation of line 151. *)
Definition KEY_CONFIGURED : pystr := py "API key configured!".

Definition is_key_configured (e : event) : bool :=
  match e with
  | StSuccess s => str_eqb s KEY_CONFIGURED
  | _ => false
  end.

Definition is_warning (e : event) : bool :=
  match e with
  | StWarning _ => true
  | _ => false
  end.

(** A key in the secrets, an upload, a click, and [content] for a
    reply. *)
Definition session_with_reply (content : pystr) : session :=
  {| typed_key := []; stored_key := SecretsFile (Some (py "sk-test"));
     uploaded_file := Some sample_file; extract_clicked := true;
     api_reply := ApiReturns [Some content] |}.

(** The same after the key of the secrets file has been changed. *)
Definition rekeyed_session (content : pystr) : session :=
  {| typed_key := []; stored_key := SecretsFile (Some (py "sk-other"));
     uploaded_file := Some sample_file; extract_clicked := true;
     api_reply := ApiReturns [Some content] |}.

(** An upload that is not an image. *)
Definition broken_session : session :=
  {| typed_key := []; stored_key := SecretsFile None;
     uploaded_file := Some [Byte.x00];
     extract_clicked := false; api_reply := ApiReturns [] |}.



(** A reply with keys the display does not read. *)
Definition annotated_mapping : pydict :=
  sample_mapping ++ [(py "confidence", PyStr (py "high"))].

(** A mapping whose strings hold a quote, an accented letter and a
    character above the basic plane. *)
Definition unicode_mapping : pydict :=
  [(py "vendor_name", PyStr (py "Caf" ++ [0xe9; QUOTE; 0x1F600]%N))].

(* ===== Properties ===== *)

(** ** Strings and slices *)

Lemma str_startswith_length p s :
  str_startswith p s = true -> List.length p <= List.length s.
Proof.
  revert s; induction p as [|x p IH]; intros [|y s]; simpl; try lia; try discriminate.
  intros H. apply andb_true_iff in H as [_ H]. apply IH in H. lia.
Qed.

Lemma str_startswith_app p s : str_startswith p (p ++ s) = true.
Proof. induction p; simpl; auto. rewrite N.eqb_refl. auto. Qed.

Lemma str_lstrip_visible c s :
  str_isspace c = false -> str_lstrip (c :: s) = c :: s.
Proof. intros H. simpl. rewrite H. reflexivity. Qed.

Lemma str_rstrip_visible s c :
  str_isspace c = false -> str_rstrip (s ++ [c]) = s ++ [c].
Proof.
  intros H. unfold str_rstrip. rewrite rev_app_distr. simpl. rewrite H.
  simpl. rewrite rev_involutive. reflexivity.
Qed.

Lemma str_strip_visible c s d :
  str_isspace c = false -> str_isspace d = false ->
  str_strip (c :: s ++ [d]) = c :: s ++ [d].
Proof.
  intros Hc Hd. unfold str_strip. rewrite str_lstrip_visible by assumption.
  change (c :: s ++ [d]) with ((c :: s) ++ [d]).
  apply str_rstrip_visible; assumption.
Qed.

Lemma slice_index_nat len k : k <= len -> slice_index len (Z.of_nat k) = k.
Proof.
  intros H. unfold slice_index.
  destruct (Z.ltb_spec (Z.of_nat k) 0); lia.
Qed.

Lemma slice_index_minus3 len : slice_index len (-3) = len - 3.
Proof. unfold slice_index. change (-3 <? 0)%Z with true. cbv iota. lia. Qed.

Lemma py_slice_drop {A} (s : list A) (k : nat) :
  k <= List.length s ->
  py_slice s (Z.of_nat k) (-3) = remove_first_and_last k s.
Proof.
  intros Hk. unfold py_slice, remove_first_and_last, drop_last.
  rewrite slice_index_nat, slice_index_minus3 by assumption.
  rewrite length_skipn, firstn_skipn_comm.
  destruct (Nat.le_gt_cases (k + 3) (List.length s)).
  - replace (k + (List.length s - k - 3)) with (List.length s - 3) by lia.
    reflexivity.
  - replace (List.length s - k - 3) with 0 by lia. rewrite Nat.add_0_r.
    rewrite !skipn_all2; auto; rewrite length_firstn; lia.
Qed.

Lemma remove_first_and_last_split {A} (s : list A) (k : nat) :
  k + 3 <= List.length s ->
  exists pre suf, s = pre ++ remove_first_and_last k s ++ suf
                  /\ List.length pre = k /\ List.length suf = 3.
Proof.
  intros H. unfold remove_first_and_last, drop_last.
  exists (firstn k s), (skipn (List.length (skipn k s) - 3) (skipn k s)).
  rewrite firstn_skipn, firstn_skipn. rewrite length_firstn, !length_skipn.
  repeat split; lia.
Qed.

Lemma remove_first_and_last_short {A} (s : list A) (k : nat) :
  List.length s <= k + 3 -> remove_first_and_last k s = [].
Proof.
  intros H. unfold remove_first_and_last, drop_last. rewrite length_skipn.
  replace (List.length s - k - 3) with 0 by lia. reflexivity.
Qed.

Lemma remove_first_and_last_app {A} (pre mid suf : list A) :
  List.length suf = 3 ->
  remove_first_and_last (List.length pre) (pre ++ mid ++ suf) = mid.
Proof.
  intros H. unfold remove_first_and_last, drop_last.
  rewrite skipn_app, skipn_all, Nat.sub_diag. simpl.
  rewrite length_app, H. replace (List.length mid + 3 - 3) with (List.length mid) by lia.
  rewrite firstn_app, firstn_all, Nat.sub_diag. simpl. apply app_nil_r.
Qed.

(** C3: on a stripped body that starts with the tagged fence the code
    removes the first 7 and the last 3 characters, on one that starts with
    the bare fence the first 3 and the last 3, whatever the body ends
    with: the slice is the body minus these characters when it is long
    enough, and empty otherwise. *)
Theorem strip_fence_fixed_offsets (content : pystr) (k : nat) :
  let body := str_strip content in
  (k = 7 /\ str_startswith FENCE_JSON body = true) \/
  (k = 3 /\ str_startswith FENCE body = true
         /\ str_startswith FENCE_JSON body = false) ->
  fence_stripped content = remove_first_and_last k body
  /\ (k + 3 <= List.length body ->
      exists pre suf, body = pre ++ fence_stripped content ++ suf
                      /\ List.length pre = k /\ List.length suf = 3)
  /\ (List.length body <= k + 3 -> fence_stripped content = []).
Proof.
  intros body H.
  assert (E : fence_stripped content = remove_first_and_last k body).
  { unfold fence_stripped, strip_fence. fold body.
    destruct H as [[-> H]|[-> [H H']]].
    - rewrite H. apply (py_slice_drop body 7).
      apply str_startswith_length in H. exact H.
    - rewrite H', H. apply (py_slice_drop body 3).
      apply str_startswith_length in H. exact H. }
  rewrite E. split; [reflexivity|]. split.
  - apply remove_first_and_last_split.
  - apply remove_first_and_last_short.
Qed.

(** ** The decoder reads a prefix of its input *)

Lemma skip_ws_split s :
  exists ws, s = ws ++ skip_ws s /\ forallb json_ws ws = true.
Proof.
  induction s as [|c s [ws [E F]]]; simpl.
  - exists []. auto.
  - destruct (json_ws c) eqn:W.
    + exists (c :: ws). simpl. rewrite W, F. split; [congruence|reflexivity].
    + exists []. auto.
Qed.

Lemma skip_ws_head s c r : skip_ws s = c :: r -> json_ws c = false.
Proof.
  induction s as [|a s IH]; simpl; [discriminate|].
  destruct (json_ws a) eqn:W; auto. intros E; inversion E; subst; auto.
Qed.

Lemma skip_ws_app ws s : forallb json_ws ws = true -> skip_ws (ws ++ s) = skip_ws s.
Proof.
  induction ws as [|a ws IH]; simpl; auto.
  intros H. apply andb_true_iff in H as [Ha Hw]. rewrite Ha. auto.
Qed.

Lemma skip_ws_visible c s : json_ws c = false -> skip_ws (c :: s) = c :: s.
Proof. intros H. simpl. rewrite H. reflexivity. Qed.

Lemma skip_ws_length s : List.length (skip_ws s) <= List.length s.
Proof. induction s as [|a s IH]; simpl; auto. destruct (json_ws a); simpl; lia. Qed.

Lemma skip_ws_nil s : skip_ws s = [] -> forallb json_ws s = true.
Proof.
  induction s as [|a s IH]; simpl; auto.
  destruct (json_ws a); [auto|discriminate].
Qed.

Lemma skip_ws_all s : forallb json_ws s = true -> skip_ws s = [].
Proof.
  intros H. rewrite <- (app_nil_r s). rewrite skip_ws_app; auto.
Qed.

Lemma skip_ws_tail r c r' :
  skip_ws r = c :: r' ->
  exists ws, r = ws ++ c :: r' /\ forallb json_ws ws = true /\ json_ws c = false.
Proof.
  intros H. destruct (skip_ws_split r) as [ws [E F]]. rewrite H in E.
  exists ws. split; [exact E|]. split; [exact F|]. eapply skip_ws_head; eauto.
Qed.

Lemma scanstring_stable n :
  forall s, List.length s <= n ->
  forall hi acc str rest, scanstring hi acc s = Some (str, rest) ->
  exists pre, s = pre ++ QUOTE :: rest
              /\ forall t, scanstring hi acc (pre ++ QUOTE :: t) = Some (str, t).
Proof.
  induction n as [|n IH]; intros s Hlen hi acc str rest H.
  - destruct s; [discriminate|simpl in Hlen; lia].
  - destruct s as [|c r]; [discriminate|]. cbn [scanstring] in H.
    destruct (c =? QUOTE)%N eqn:Eq.
    { inversion H; subst. apply N.eqb_eq in Eq; subst c. exists []. split; auto. }
    destruct (c =? BACKSLASH)%N eqn:Eb.
    + destruct r as [|e r1]; [discriminate|].
      destruct (e =? chr "u")%N eqn:Eu.
      * destruct r1 as [|h1 [|h2 [|h3 [|h4 r2]]]]; try discriminate.
        destruct (hex4 h1 h2 h3 h4) as [u|] eqn:Eh; [|discriminate].
        destruct (hi && is_low_surrogate u) eqn:Ej;
          (apply IH in H; [|simpl in Hlen |- *; lia]);
          destruct H as [pre [-> Hst]];
          exists (c :: e :: h1 :: h2 :: h3 :: h4 :: pre);
          (split; [reflexivity|]); intros t;
          cbn [scanstring app]; rewrite Eq, Eb, Eu, Eh, Ej; apply Hst.
      * destruct (unescape e) as [c'|] eqn:Ee; [|discriminate].
        apply IH in H; [|simpl in Hlen |- *; lia].
        destruct H as [pre [-> Hst]]. exists (c :: e :: pre).
        split; [reflexivity|]. intros t.
        cbn [scanstring app]. rewrite Eq, Eb, Eu, Ee. apply Hst.
    + destruct (c <=? 31)%N eqn:Ec; [discriminate|].
      apply IH in H; [|simpl in Hlen |- *; lia].
      destruct H as [pre [-> Hst]]. exists (c :: pre).
      split; [reflexivity|]. intros t.
      cbn [scanstring app]. rewrite Eq, Eb, Ec. apply Hst.
Qed.

(** ** Number lexemes *)

Lemma span_digits_spec s ds rest :
  span_digits s = (ds, rest) ->
  s = ds ++ rest /\ forallb is_digit ds = true /\ not_starting is_digit rest.
Proof.
  revert ds rest. induction s as [|c s IH]; intros ds rest; simpl.
  - intros E; inversion E; subst; simpl; auto.
  - destruct (is_digit c) eqn:D.
    + destruct (span_digits s) as [ds' rest'] eqn:E'. intros E; inversion E; subst.
      destruct (IH _ _ eq_refl) as [-> [F N]]. simpl. rewrite D, F. auto.
    + intros E; inversion E; subst. simpl. auto.
Qed.

Lemma span_digits_app ds t :
  forallb is_digit ds = true -> not_starting is_digit t ->
  span_digits (ds ++ t) = (ds, t).
Proof.
  intros F N. induction ds as [|d ds IH]; simpl in *.
  - destruct t as [|c t]; simpl in *; [reflexivity|]. rewrite N. reflexivity.
  - apply andb_true_iff in F as [D F]. rewrite D, IH by assumption. reflexivity.
Qed.

Lemma nonzero_digit_is_digit d : nonzero_digit d = true -> is_digit d = true.
Proof.
  unfold nonzero_digit, is_digit. intros H. apply andb_true_iff in H as [A B].
  apply N.leb_le in A. rewrite B, andb_true_r. apply N.leb_le. lia.
Qed.

Lemma digit_not_zero_char d : nonzero_digit d = true -> (d =? 0x30)%N = false.
Proof.
  unfold nonzero_digit. intros H. apply andb_true_iff in H as [A B].
  apply N.leb_le in A. apply N.eqb_neq. lia.
Qed.

Lemma match_int_part_sound s ip rest :
  match_int_part s = Some (ip, rest) -> s = ip ++ rest /\ int_shape ip.
Proof.
  unfold match_int_part. destruct s as [|d r]; [discriminate|].
  fold (nonzero_digit d). destruct (nonzero_digit d) eqn:D.
  - destruct (span_digits r) as [ds rest'] eqn:E. intros H; inversion H; subst.
    apply span_digits_spec in E as [-> [F _]]. split; [reflexivity|].
    right. exists d, ds. auto.
  - destruct (d =? 48)%N eqn:Z; [|discriminate]. intros H; inversion H; subst.
    apply N.eqb_eq in Z; subst. split; [reflexivity|]. left. reflexivity.
Qed.

Lemma match_int_part_complete ip t :
  int_shape ip -> not_starting is_digit t ->
  match_int_part (ip ++ t) = Some (ip, t).
Proof.
  intros [->|[d [ds [-> [D F]]]]] N.
  - reflexivity.
  - cbn [app match_int_part]. fold (nonzero_digit d). rewrite D.
    rewrite span_digits_app by assumption. reflexivity.
Qed.

Lemma match_frac_sound s fr rest :
  match_frac s = (fr, rest) -> s = fr ++ rest /\ frac_shape fr.
Proof.
  unfold match_frac. destruct s as [|dot [|d r]];
    try (intros H; inversion H; subst; split; [reflexivity|left; reflexivity]).
  destruct ((dot =? chr ".")%N && is_digit d) eqn:C.
  - destruct (span_digits r) as [ds rest'] eqn:E. intros H; inversion H; subst.
    apply andb_true_iff in C as [C1 C2]. apply N.eqb_eq in C1; subst.
    apply span_digits_spec in E as [-> [F _]]. split; [reflexivity|].
    right. exists d, ds. auto.
  - intros H; inversion H; subst; split; [reflexivity|left; reflexivity].
Qed.

Lemma match_frac_none t : not_starting is_dot t -> match_frac t = ([], t).
Proof.
  unfold match_frac, not_starting, is_dot. destruct t as [|dot [|d r]]; auto.
  intros ->. reflexivity.
Qed.

Lemma match_frac_complete fr t :
  frac_shape fr -> not_starting is_digit t -> not_starting is_dot t ->
  match_frac (fr ++ t) = (fr, t).
Proof.
  intros [->|[d [ds [-> [D F]]]]] N1 N2.
  - apply match_frac_none. assumption.
  - cbn [app match_frac]. rewrite N.eqb_refl, D. cbn [andb].
    rewrite span_digits_app by assumption. reflexivity.
Qed.

Lemma is_digit_not_sign d : is_digit d = true -> is_sign d = false.
Proof.
  unfold is_digit, is_sign. intros H. apply andb_true_iff in H as [A B].
  apply N.leb_le in A. apply orb_false_iff. split; apply N.eqb_neq; cbn; lia.
Qed.

Lemma match_exp_sound s ex rest :
  match_exp s = (ex, rest) -> s = ex ++ rest /\ exp_shape ex.
Proof.
  assert (K : forall s0 : pystr, ([], s0) = (ex, rest) ->
              s0 = ex ++ rest /\ exp_shape ex).
  { intros s0 H; inversion H; subst; split; [reflexivity|left; reflexivity]. }
  unfold match_exp. destruct s as [|e r]; [apply K|].
  fold (is_e e). destruct (is_e e) eqn:E; [|apply K].
  destruct r as [|sg r']; [apply K|].
  fold (is_sign sg). destruct (is_sign sg) eqn:S.
  - destruct (span_digits r') as [ds rest'] eqn:D.
    destruct ds as [|d ds]; [apply K|]. intros H; inversion H; subst.
    apply span_digits_spec in D as [-> [F _]]. split; [reflexivity|].
    simpl in F. apply andb_true_iff in F as [F1 F2].
    right. exists e, d, ds. repeat split; auto. right. exists sg. auto.
  - destruct (span_digits (sg :: r')) as [ds rest'] eqn:D.
    destruct ds as [|d ds]; [apply K|]. intros H; inversion H; subst.
    apply span_digits_spec in D as [D0 [F _]]. rewrite D0. split; [reflexivity|].
    simpl in F. apply andb_true_iff in F as [F1 F2].
    right. exists e, d, ds. repeat split; auto.
Qed.

Lemma match_exp_none t : not_starting is_e t -> match_exp t = ([], t).
Proof.
  unfold match_exp, not_starting. destruct t as [|e r]; auto.
  fold (is_e e). intros ->. reflexivity.
Qed.

Lemma match_exp_complete ex t :
  exp_shape ex -> not_starting is_digit t -> not_starting is_e t ->
  match_exp (ex ++ t) = (ex, t).
Proof.
  intros [->|[e [d [ds [E [D [F [->|[sg [S ->]]]]]]]]]] N1 N2.
  - apply match_exp_none. assumption.
  - cbn [app match_exp]. fold (is_e e) (is_sign d).
    rewrite E, (is_digit_not_sign d D).
    change (d :: ds ++ t) with ((d :: ds) ++ t).
    rewrite span_digits_app; [reflexivity| |assumption].
    simpl. rewrite D, F. reflexivity.
  - cbn [app match_exp]. fold (is_e e) (is_sign sg). rewrite E, S.
    change (d :: ds ++ t) with ((d :: ds) ++ t).
    rewrite span_digits_app; [reflexivity| |assumption].
    simpl. rewrite D, F. reflexivity.
Qed.

Lemma safe_tail_spec t :
  safe_tail t = true ->
  not_starting is_digit t /\ not_starting is_dot t /\ not_starting is_e t.
Proof.
  destruct t as [|c t]; simpl; auto. unfold number_extender, is_dot, is_e.
  intros H. apply negb_true_iff in H.
  repeat (apply orb_false_iff in H as [H ?]). rewrite orb_false_iff. auto.
Qed.

Lemma is_e_not_digit e : is_e e = true -> is_digit e = false.
Proof.
  unfold is_e, is_digit. intros H. apply orb_true_iff in H as [H|H];
    apply N.eqb_eq in H; subst; reflexivity.
Qed.

Lemma exp_tail_digit ex t :
  exp_shape ex -> not_starting is_digit t -> not_starting is_digit (ex ++ t).
Proof.
  intros [->|[e [d [ds [E [_ [_ [->|[sg [_ ->]]]]]]]]]] N; auto;
    simpl; apply is_e_not_digit; assumption.
Qed.

Lemma exp_tail_dot ex t :
  exp_shape ex -> not_starting is_dot t -> not_starting is_dot (ex ++ t).
Proof.
  intros [->|[e [d [ds [E [_ [_ [->|[sg [_ ->]]]]]]]]]] N; auto;
    simpl; unfold is_e, is_dot in *; apply orb_true_iff in E as [E|E];
    apply N.eqb_eq in E; subst; reflexivity.
Qed.

Lemma frac_tail_digit fr t :
  frac_shape fr -> not_starting is_digit t -> not_starting is_digit (fr ++ t).
Proof. intros [->|[d [ds [-> _]]]] N; auto. reflexivity. Qed.

Lemma int_shape_head ip :
  int_shape ip -> exists c r, ip = c :: r /\ is_digit c = true.
Proof.
  intros [->|[d [ds [-> [D _]]]]].
  - exists (chr "0"), []. auto.
  - exists d, ds. split; auto. apply nonzero_digit_is_digit. assumption.
Qed.

Lemma is_digit_not_minus c : is_digit c = true -> (c =? chr "-")%N = false.
Proof.
  unfold is_digit. intros H. apply andb_true_iff in H as [A _].
  apply N.leb_le in A. apply N.eqb_neq. cbn. lia.
Qed.

(** A number that [match_number] accepts is a lexeme of the grammar. *)
Lemma match_number_sound s v rest :
  match_number s = Some (v, rest) ->
  exists sg ip fr ex,
    sign_shape sg /\ int_shape ip /\ frac_shape fr /\ exp_shape ex
    /\ s = sg ++ ip ++ fr ++ ex ++ rest /\ v = number_value sg ip fr ex.
Proof.
  unfold match_number.
  assert (P : sign_shape (fst (match_sign s))
              /\ s = fst (match_sign s) ++ snd (match_sign s)).
  { unfold match_sign. destruct s as [|c r]; [split; [left|]; reflexivity|].
    destruct (c =? chr "-")%N eqn:E; [|split; [left|]; reflexivity].
    apply N.eqb_eq in E; subst. split; [right|]; reflexivity. }
  destruct (match_sign s) as [sg s1].
  simpl in P. destruct P as [Sg ->].
  destruct (match_int_part s1) as [[ip r1]|] eqn:I; [|discriminate].
  destruct (match_frac r1) as [fr r2] eqn:F.
  destruct (match_exp r2) as [ex r3] eqn:X.
  apply match_int_part_sound in I as [-> Ip].
  apply match_frac_sound in F as [-> Fr].
  apply match_exp_sound in X as [-> Ex].
  intros H. exists sg, ip, fr, ex. repeat split; auto.
  - destruct fr, ex; inversion H; reflexivity.
  - unfold number_value. destruct fr, ex; inversion H; reflexivity.
Qed.

(** A lexeme of the grammar is read whole, whatever follows it, as long
    as what follows cannot continue a number. *)
Lemma match_number_complete sg ip fr ex t :
  sign_shape sg -> int_shape ip -> frac_shape fr -> exp_shape ex ->
  safe_tail t = true ->
  match_number (sg ++ ip ++ fr ++ ex ++ t) = Some (number_value sg ip fr ex, t).
Proof.
  intros Sg Ip Fr Ex T. apply safe_tail_spec in T as [T1 [T2 T3]].
  unfold match_number.
  assert (P : match_sign (sg ++ ip ++ fr ++ ex ++ t) = (sg, ip ++ fr ++ ex ++ t)).
  { destruct Sg as [->| ->]; [|reflexivity].
    destruct (int_shape_head ip Ip) as [c [r [-> D]]]. cbn [app match_sign].
    rewrite (is_digit_not_minus c D). reflexivity. }
  rewrite P.
  rewrite match_int_part_complete;
    [|assumption|apply frac_tail_digit, exp_tail_digit; assumption].
  rewrite match_frac_complete;
    [|assumption|apply exp_tail_digit; assumption|apply exp_tail_dot; assumption].
  rewrite match_exp_complete by assumption.
  unfold number_value. destruct fr, ex; reflexivity.
Qed.

Lemma number_lexeme_nonempty sg ip fr ex :
  int_shape ip -> sg ++ ip ++ fr ++ ex <> [].
Proof.
  intros Ip E. apply app_eq_nil in E as [_ E]. apply app_eq_nil in E as [E _].
  destruct (int_shape_head ip Ip) as [c [r [-> _]]]. discriminate.
Qed.

(** ** A value is read from a prefix of the input *)

Lemma str_startswith_split p s :
  str_startswith p s = true -> s = p ++ skipn (List.length p) s.
Proof.
  revert s; induction p as [|x p IH]; intros [|y s]; simpl; try discriminate; auto.
  intros H. apply andb_true_iff in H as [E H]. apply N.eqb_eq in E; subst.
  f_equal. auto.
Qed.

Lemma skip_ws_prefix x p c rest t :
  skip_ws x = p ++ c :: rest -> json_ws c = false ->
  skip_ws (p ++ c :: t) = p ++ c :: t.
Proof.
  intros H Hc. destruct p as [|a p]; simpl in *.
  - rewrite Hc. reflexivity.
  - apply skip_ws_head in H. rewrite H. reflexivity.
Qed.

Lemma json_ws_not_extender c : json_ws c = true -> number_extender c = false.
Proof.
  unfold json_ws. intros H.
  repeat (apply orb_true_iff in H as [H|H]); apply N.eqb_eq in H; subst; reflexivity.
Qed.

Lemma safe_tail_ws ws c t :
  forallb json_ws ws = true -> number_extender c = false ->
  safe_tail (ws ++ c :: t) = true.
Proof.
  intros F H. destruct ws as [|w ws]; simpl in *.
  - rewrite H. reflexivity.
  - apply andb_true_iff in F as [W _]. rewrite (json_ws_not_extender w W). reflexivity.
Qed.

Lemma safe_tail_all_ws ws t :
  forallb json_ws ws = true -> safe_tail t = true -> safe_tail (ws ++ t) = true.
Proof.
  intros F H. destruct ws as [|w ws]; simpl in *; auto.
  apply andb_true_iff in F as [W _]. rewrite (json_ws_not_extender w W). reflexivity.
Qed.

Lemma digits_last ds d :
  forallb is_digit (d :: ds) = true ->
  exists p e, d :: ds = p ++ [e] /\ is_digit e = true.
Proof.
  intros F. destruct (exists_last (l := d :: ds)) as [p [e E]]; [discriminate|].
  exists p, e. split; [exact E|]. rewrite E in F. rewrite forallb_app in F.
  apply andb_true_iff in F as [_ F]. simpl in F. rewrite andb_true_r in F. exact F.
Qed.

Lemma number_lexeme_last sg ip fr ex :
  int_shape ip -> frac_shape fr -> exp_shape ex ->
  exists p d, sg ++ ip ++ fr ++ ex = p ++ [d] /\ is_digit d = true.
Proof.
  intros Ip Fr Ex.
  assert (K : forall a ds d0, forallb is_digit (d0 :: ds) = true ->
            exists p d, a ++ d0 :: ds = p ++ [d] /\ is_digit d = true).
  { intros a ds d0 F. destruct (digits_last ds d0 F) as [p [e [E D]]].
    exists (a ++ p), e. rewrite E, app_assoc. auto. }
  destruct Ex as [->|[e [d [ds [_ [D [F Ex]]]]]]].
  - rewrite app_nil_r. destruct Fr as [->|[d [ds [-> [D F]]]]].
    + rewrite app_nil_r. destruct Ip as [->|[d [ds [-> [D F]]]]].
      * apply K. reflexivity.
      * apply K. simpl. rewrite (nonzero_digit_is_digit d D), F. reflexivity.
    + replace (sg ++ ip ++ chr "." :: d :: ds)
        with ((sg ++ ip ++ [chr "."]) ++ d :: ds)
        by (rewrite <- !app_assoc; reflexivity).
      apply K. simpl. rewrite D, F. reflexivity.
  - destruct Ex as [->|[s0 [_ ->]]].
    + replace (sg ++ ip ++ fr ++ e :: d :: ds)
        with ((sg ++ ip ++ fr ++ [e]) ++ d :: ds)
        by (rewrite <- !app_assoc; reflexivity).
      apply K. simpl. rewrite D, F. reflexivity.
    + replace (sg ++ ip ++ fr ++ e :: s0 :: d :: ds)
        with ((sg ++ ip ++ fr ++ [e; s0]) ++ d :: ds)
        by (rewrite <- !app_assoc; reflexivity).
      apply K. simpl. rewrite D, F. reflexivity.
Qed.

Lemma is_digit_visible d : is_digit d = true -> str_isspace d = false.
Proof.
  unfold is_digit, str_isspace. intros H. apply andb_true_iff in H as [A B].
  apply N.leb_le in A. apply N.leb_le in B.
  repeat match goal with
  | |- context [(?x <=? ?y)%N] => destruct (N.leb_spec x y); try lia
  | |- context [(?x =? ?y)%N] => destruct (N.eqb_spec x y); try lia
  end; reflexivity.
Qed.

Lemma is_digit_value_start d : is_digit d = true -> value_start d = true.
Proof. unfold value_start. intros ->. apply orb_true_r. Qed.

(** The text of a number starts like a value, ends with a digit, and is
    none of the literals. *)
Lemma number_lexeme_head sg ip fr ex t :
  sign_shape sg -> int_shape ip ->
  exists c r, sg ++ ip ++ fr ++ ex ++ t = c :: r
    /\ (c = chr "-" \/ is_digit c = true)
    /\ (c = chr "-" -> exists d r', r = d :: r' /\ is_digit d = true).
Proof.
  intros Sg Ip. destruct (int_shape_head ip Ip) as [d [r [-> D]]].
  destruct Sg as [->| ->]; cbn [app].
  - exists d, (r ++ fr ++ ex ++ t). split; [reflexivity|]. split; [auto|].
    intros ->. discriminate.
  - exists (chr "-"), (d :: r ++ fr ++ ex ++ t). split; [reflexivity|].
    split; [auto|]. intros _. eauto.
Qed.

Lemma eqb_digit_false k d :
  is_digit d = true -> is_digit k = false -> (k =? d)%N = false /\ (d =? k)%N = false.
Proof.
  intros D K. split; apply N.eqb_neq; intros E; subst; congruence.
Qed.

Lemma startswith_head_false k p c r :
  (k =? c)%N = false -> str_startswith (k :: p) (c :: r) = false.
Proof. intros E. cbn [str_startswith]. rewrite E. reflexivity. Qed.

(** What [scan_once] does on an input that starts none of the other
    values. *)
Lemma scan_once_other f c r :
  (c =? QUOTE)%N = false -> (c =? chr "{")%N = false -> (c =? chr "[")%N = false ->
  str_startswith lit_null (c :: r) = false ->
  str_startswith lit_true (c :: r) = false ->
  str_startswith lit_false (c :: r) = false ->
  str_startswith lit_nan (c :: r) = false ->
  str_startswith lit_inf (c :: r) = false ->
  str_startswith lit_neginf (c :: r) = false ->
  scan_once (S f) (c :: r) =
  match match_number (c :: r) with
  | Some x => Done x
  | None => DecodeError
  end.
Proof.
  intros E1 E2 E3 E4 E5 E6 E7 E8 E9. cbn [scan_once].
  rewrite E1, E2, E3, E4, E5, E6, E7, E8, E9. reflexivity.
Qed.

Lemma scan_once_number f sg ip fr ex t :
  sign_shape sg -> int_shape ip ->
  scan_once (S f) (sg ++ ip ++ fr ++ ex ++ t) =
  match match_number (sg ++ ip ++ fr ++ ex ++ t) with
  | Some r => Done r
  | None => DecodeError
  end.
Proof.
  intros Sg Ip.
  destruct (number_lexeme_head sg ip fr ex t Sg Ip) as [c [r [-> [Hc Hr]]]].
  destruct Hc as [->|D].
  - destruct (Hr eq_refl) as [d [r' [-> D]]].
    apply scan_once_other; try reflexivity.
    change lit_neginf with (chr "-" :: chr "I" :: py "nfinity").
    cbn [str_startswith]. rewrite N.eqb_refl. cbn [andb].
    apply startswith_head_false. apply (eqb_digit_false _ d D). reflexivity.
  - apply scan_once_other;
      try (apply (eqb_digit_false _ c D); reflexivity);
      apply startswith_head_false; apply (eqb_digit_false _ c D); reflexivity.
Qed.

Lemma scan_once_string f r :
  scan_once (S f) (QUOTE :: r) =
  match scanstring false [] r with
  | Some (str, rest) => Done (PyStr str, rest)
  | None => DecodeError
  end.
Proof. reflexivity. Qed.

Lemma scan_once_object f r :
  scan_once (S f) (chr "{" :: r) =
  match skip_ws r with
  | c' :: r' =>
      if (c' =? chr "}")%N then Done (PyDict [], r')
      else object_items f [] (c' :: r')
  | [] => DecodeError
  end.
Proof. reflexivity. Qed.

Lemma scan_once_array f r :
  scan_once (S f) (chr "[" :: r) =
  match skip_ws r with
  | c' :: r' =>
      if (c' =? chr "]")%N then Done (PyList [], r')
      else array_items f [] (c' :: r')
  | [] => DecodeError
  end.
Proof. reflexivity. Qed.

Lemma token_ends_intro c mid d :
  value_start c = true -> str_isspace d = false -> token_ends (c :: mid ++ [d]).
Proof.
  intros C D. split.
  - exists c, (mid ++ [d]). auto.
  - exists (c :: mid), d. auto.
Qed.

Lemma value_start_not_ws c : value_start c = true -> json_ws c = false.
Proof.
  unfold value_start, json_ws. intros H.
  repeat (apply orb_true_iff in H as [H|H]);
    try (apply N.eqb_eq in H; subst; reflexivity).
  unfold is_digit in H. apply andb_true_iff in H as [A B].
  apply N.leb_le in A. apply N.leb_le in B.
  repeat (apply orb_false_iff; split); apply N.eqb_neq; lia.
Qed.

Lemma skip_ws_token pre t : token_ends pre -> skip_ws (pre ++ t) = pre ++ t.
Proof.
  intros [[c [r [-> C]]] _]. cbn [app]. apply skip_ws_visible.
  apply value_start_not_ws. assumption.
Qed.

Ltac norm_app := repeat (rewrite <- app_assoc || rewrite <- app_comm_cons).

(** What [scan_once] returns depends on the text of the value alone: the
    input is that text followed by the rest, and the same text followed by
    anything else that cannot continue a number gives the same value. *)
Lemma scan_stable fuel :
  (forall s v rest, scan_once fuel s = Done (v, rest) ->
     reads (scan_once fuel) s v rest)
  /\ (forall acc s v rest, array_items fuel acc s = Done (v, rest) ->
        reads_to (chr "]") (array_items fuel acc) s v rest)
  /\ (forall d s v rest, object_items fuel d s = Done (v, rest) ->
        reads_to (chr "}") (object_items fuel d) s v rest).
Proof.
  induction fuel as [|f [IH1 [IH2 IH3]]].
  { repeat split; intros; discriminate. }
  split; [|split].
  - intros s v rest H. destruct s as [|c r]; [discriminate|].
    cbn [scan_once] in H.
    destruct (c =? QUOTE)%N eqn:Eq.
    { destruct (scanstring false [] r) as [[str rest']|] eqn:Es; [|discriminate].
      inversion H; subst. apply N.eqb_eq in Eq; subst c.
      destruct (scanstring_stable _ r (le_n _) _ _ _ _ Es) as [pre [-> Hst]].
      exists (QUOTE :: pre ++ [QUOTE]). split; [norm_app; reflexivity|].
      split; [apply token_ends_intro; reflexivity|].
      intros t _. norm_app. cbn [app]. rewrite scan_once_string, Hst. reflexivity. }
    destruct (c =? chr "{")%N eqn:Eo.
    { apply N.eqb_eq in Eo; subst c.
      destruct (skip_ws r) as [|c' r'] eqn:Ew; [discriminate|].
      destruct (skip_ws_tail _ _ _ Ew) as [ws [-> [Fw Wc]]].
      destruct (c' =? chr "}")%N eqn:Ec.
      - inversion H; subst. apply N.eqb_eq in Ec; subst c'.
        exists (chr "{" :: ws ++ [chr "}"]). split; [norm_app; reflexivity|].
        split; [apply token_ends_intro; reflexivity|].
        intros t _. norm_app. cbn [app].
        rewrite scan_once_object, skip_ws_app, skip_ws_visible by assumption.
        rewrite N.eqb_refl. reflexivity.
      - destruct (IH3 _ _ _ _ H) as [pre [E Hst]].
        destruct pre as [|c0 pre].
        { inversion E; subst. discriminate. }
        inversion E; subst c0 r'.
        exists (chr "{" :: (ws ++ c' :: pre) ++ [chr "}"]).
        split; [norm_app; reflexivity|].
        split; [apply token_ends_intro; reflexivity|].
        intros t _. norm_app. cbn [app].
        rewrite scan_once_object, skip_ws_app, skip_ws_visible by assumption.
        rewrite Ec. apply (Hst t). }
    destruct (c =? chr "[")%N eqn:Ea.
    { apply N.eqb_eq in Ea; subst c.
      destruct (skip_ws r) as [|c' r'] eqn:Ew; [discriminate|].
      destruct (skip_ws_tail _ _ _ Ew) as [ws [-> [Fw Wc]]].
      destruct (c' =? chr "]")%N eqn:Ec.
      - inversion H; subst. apply N.eqb_eq in Ec; subst c'.
        exists (chr "[" :: ws ++ [chr "]"]). split; [norm_app; reflexivity|].
        split; [apply token_ends_intro; reflexivity|].
        intros t _. norm_app. cbn [app].
        rewrite scan_once_array, skip_ws_app, skip_ws_visible by assumption.
        rewrite N.eqb_refl. reflexivity.
      - destruct (IH2 _ _ _ _ H) as [pre [E Hst]].
        destruct pre as [|c0 pre].
        { inversion E; subst. discriminate. }
        inversion E; subst c0 r'.
        exists (chr "[" :: (ws ++ c' :: pre) ++ [chr "]"]).
        split; [norm_app; reflexivity|].
        split; [apply token_ends_intro; reflexivity|].
        intros t _. norm_app. cbn [app].
        rewrite scan_once_array, skip_ws_app, skip_ws_visible by assumption.
        rewrite Ec. apply (Hst t). }
    destruct (str_startswith lit_null (c :: r)) eqn:L1.
    { inversion H; subst. apply str_startswith_split in L1.
      exists lit_null. split; [exact L1|].
      split; [apply (token_ends_intro _ (py "ul")); reflexivity|].
      intros t _. reflexivity. }
    destruct (str_startswith lit_true (c :: r)) eqn:L2.
    { inversion H; subst. apply str_startswith_split in L2.
      exists lit_true. split; [exact L2|].
      split; [apply (token_ends_intro _ (py "ru")); reflexivity|].
      intros t _. reflexivity. }
    destruct (str_startswith lit_false (c :: r)) eqn:L3.
    { inversion H; subst. apply str_startswith_split in L3.
      exists lit_false. split; [exact L3|].
      split; [apply (token_ends_intro _ (py "als")); reflexivity|].
      intros t _. reflexivity. }
    destruct (str_startswith lit_nan (c :: r)) eqn:L4.
    { inversion H; subst. apply str_startswith_split in L4.
      exists lit_nan. split; [exact L4|].
      split; [apply (token_ends_intro _ (py "a")); reflexivity|].
      intros t _. reflexivity. }
    destruct (str_startswith lit_inf (c :: r)) eqn:L5.
    { inversion H; subst. apply str_startswith_split in L5.
      exists lit_inf. split; [exact L5|].
      split; [apply (token_ends_intro _ (py "nfinit")); reflexivity|].
      intros t _. reflexivity. }
    destruct (str_startswith lit_neginf (c :: r)) eqn:L6.
    { inversion H; subst. apply str_startswith_split in L6.
      exists lit_neginf. split; [exact L6|].
      split; [apply (token_ends_intro _ (py "Infinit")); reflexivity|].
      intros t _. reflexivity. }
    destruct (match_number (c :: r)) as [[v' rest']|] eqn:M; [|discriminate].
    inversion H; subst v' rest'.
    destruct (match_number_sound _ _ _ M) as [sg [ip [fr [ex [Sg [Ip [Fr [Ex [E ->]]]]]]]]].
    exists (sg ++ ip ++ fr ++ ex). split; [rewrite E; norm_app; reflexivity|].
    split.
    + split.
      * destruct (number_lexeme_head sg ip fr ex [] Sg Ip) as [c0 [r0 [E0 [Hc _]]]].
        rewrite app_nil_r in E0. exists c0, r0. split; [exact E0|].
        destruct Hc as [->|D]; [reflexivity|apply is_digit_value_start; assumption].
      * destruct (number_lexeme_last sg ip fr ex Ip Fr Ex) as [p [d [E0 D]]].
        exists p, d. split; [exact E0|apply is_digit_visible; assumption].
    + intros t T. norm_app.
      rewrite scan_once_number, match_number_complete by assumption. reflexivity.
  - intros acc s v rest H. cbn [array_items] in H.
    destruct (scan_once f s) as [[v1 r1]| |] eqn:E1; try discriminate.
    destruct (IH1 _ _ _ E1) as [pre1 [-> [_ Hst1]]].
    destruct (skip_ws r1) as [|c r'] eqn:Ew; [discriminate|].
    destruct (skip_ws_tail _ _ _ Ew) as [ws [-> [Fw Wc]]].
    destruct (c =? chr "]")%N eqn:Ec.
    { inversion H; subst. apply N.eqb_eq in Ec; subst c.
      exists (pre1 ++ ws). split; [norm_app; reflexivity|].
      intros t. norm_app. cbn [array_items].
      rewrite Hst1 by (apply safe_tail_ws; [assumption|reflexivity]).
      rewrite skip_ws_app, skip_ws_visible by assumption.
      rewrite N.eqb_refl. reflexivity. }
    destruct (c =? chr ",")%N eqn:Ecm; [|discriminate].
    apply N.eqb_eq in Ecm; subst c.
    destruct (IH2 _ _ _ _ H) as [pre2 [E2 Hst2]].
    destruct (skip_ws_split r') as [ws2 [Er F2]].
    exists (pre1 ++ ws ++ chr "," :: ws2 ++ pre2). split.
    { rewrite Er at 1. rewrite E2. norm_app. reflexivity. }
    intros t. norm_app. cbn [array_items].
    rewrite Hst1 by (apply safe_tail_ws; [assumption|reflexivity]).
    rewrite skip_ws_app, skip_ws_visible by assumption.
    rewrite Ec, N.eqb_refl. rewrite skip_ws_app by assumption.
    rewrite (skip_ws_prefix r' pre2 (chr "]") rest t E2 eq_refl). apply Hst2.
  - intros d s v rest H. destruct s as [|q r]; [discriminate|].
    cbn [object_items] in H.
    destruct (q =? QUOTE)%N eqn:Eq; [|discriminate]. apply N.eqb_eq in Eq; subst q.
    destruct (scanstring false [] r) as [[key r1]|] eqn:Es; [|discriminate].
    destruct (scanstring_stable _ r (le_n _) _ _ _ _ Es) as [pk [-> Hk]].
    destruct (skip_ws r1) as [|colon r2] eqn:Ew1; [discriminate|].
    destruct (skip_ws_tail _ _ _ Ew1) as [ws1 [-> [F1 W1]]].
    destruct (colon =? chr ":")%N eqn:Ecol; [|discriminate].
    apply N.eqb_eq in Ecol; subst colon.
    destruct (scan_once f (skip_ws r2)) as [[v1 r3]| |] eqn:E1; try discriminate.
    destruct (IH1 _ _ _ E1) as [pv [Ev [Tv Hv]]].
    destruct (skip_ws_split r2) as [ws2 [Er2 F2]].
    destruct (skip_ws r3) as [|c r4] eqn:Ew3; [discriminate|].
    destruct (skip_ws_tail _ _ _ Ew3) as [ws3 [-> [F3 W3]]].
    destruct (c =? chr "}")%N eqn:Ec.
    { inversion H; subst v rest. apply N.eqb_eq in Ec; subst c.
      exists (QUOTE :: pk ++ QUOTE :: ws1 ++ chr ":" :: ws2 ++ pv ++ ws3). split.
      { rewrite Er2 at 1. rewrite Ev. norm_app. reflexivity. }
      intros t. norm_app. cbn [object_items].
      rewrite N.eqb_refl, Hk. rewrite skip_ws_app, skip_ws_visible by assumption.
      rewrite N.eqb_refl. rewrite skip_ws_app, skip_ws_token by assumption.
      rewrite Hv by (apply safe_tail_ws; [assumption|reflexivity]).
      rewrite skip_ws_app, skip_ws_visible by assumption.
      rewrite N.eqb_refl. reflexivity. }
    destruct (c =? chr ",")%N eqn:Ecm; [|discriminate].
    apply N.eqb_eq in Ecm; subst c.
    destruct (IH3 _ _ _ _ H) as [pre2 [E2 Hst2]].
    destruct (skip_ws_split r4) as [ws4 [Er4 F4]].
    exists (QUOTE :: pk ++ QUOTE :: ws1 ++ chr ":" :: ws2 ++ pv ++ ws3
              ++ chr "," :: ws4 ++ pre2). split.
    { rewrite Er2 at 1. rewrite Ev. rewrite Er4 at 1. rewrite E2.
      norm_app. reflexivity. }
    intros t. norm_app. cbn [object_items].
    rewrite N.eqb_refl, Hk. rewrite skip_ws_app, skip_ws_visible by assumption.
    rewrite N.eqb_refl. rewrite skip_ws_app, skip_ws_token by assumption.
    rewrite Hv by (apply safe_tail_ws; [assumption|reflexivity]).
    rewrite skip_ws_app, skip_ws_visible by assumption.
    rewrite Ec, N.eqb_refl. rewrite skip_ws_app by assumption.
    rewrite (skip_ws_prefix r4 pre2 (chr "}") rest t E2 eq_refl). apply Hst2.
Qed.

(** ** Fuel *)

Lemma reads_shorter parse s v rest :
  reads parse s v rest -> List.length rest < List.length s.
Proof.
  intros [pre [-> [[[c [r [-> _]]] _] _]]]. rewrite length_app. simpl. lia.
Qed.

Lemma scanstring_shorter hi acc s str rest :
  scanstring hi acc s = Some (str, rest) -> List.length rest < List.length s.
Proof.
  intros H. destruct (scanstring_stable _ s (le_n _) _ _ _ _ H) as [pre [-> _]].
  rewrite length_app. simpl. lia.
Qed.

Lemma scan_once_S f s :
  scan_once (S f) s =
      match s with
      | [] => DecodeError
      | c :: r =>
          if (c =? QUOTE)%N then
            match scanstring false [] r with
            | Some (str, rest) => Done (PyStr str, rest)
            | None => DecodeError
            end
          else if (c =? chr "{")%N then
            match skip_ws r with
            | c' :: r' =>
                if (c' =? chr "}")%N then Done (PyDict [], r')
                else object_items f [] (c' :: r')
            | [] => DecodeError
            end
          else if (c =? chr "[")%N then
            match skip_ws r with
            | c' :: r' =>
                if (c' =? chr "]")%N then Done (PyList [], r')
                else array_items f [] (c' :: r')
            | [] => DecodeError
            end
          else if str_startswith lit_null s then Done (PyNone, skipn 4 s)
          else if str_startswith lit_true s then Done (PyBool true, skipn 4 s)
          else if str_startswith lit_false s then Done (PyBool false, skipn 5 s)
          else if str_startswith lit_nan s then Done (PyFloat FNaN, skipn 3 s)
          else if str_startswith lit_inf s then Done (PyFloat (FInf false), skipn 8 s)
          else if str_startswith lit_neginf s then Done (PyFloat (FInf true), skipn 9 s)
          else
            match match_number s with
            | Some r => Done r
            | None => DecodeError
            end
      end.
Proof. reflexivity. Qed.

Lemma array_items_S f acc s :
  array_items (S f) acc s =
      match scan_once f s with
      | Done (v, r) =>
          match skip_ws r with
          | c :: r' =>
              if (c =? chr "]")%N then Done (PyList (rev (v :: acc)), r')
              else if (c =? chr ",")%N then array_items f (v :: acc) (skip_ws r')
              else DecodeError
          | [] => DecodeError
          end
      | DecodeError => DecodeError
      | NoFuel => NoFuel
      end.
Proof. reflexivity. Qed.

Lemma object_items_S f d s :
  object_items (S f) d s =
      match s with
      | q :: r =>
          if (q =? QUOTE)%N then
            match scanstring false [] r with
            | Some (key, r1) =>
                match skip_ws r1 with
                | colon :: r2 =>
                    if (colon =? chr ":")%N then
                      match scan_once f (skip_ws r2) with
                      | Done (v, r3) =>
                          let d' := dict_set d key v in
                          match skip_ws r3 with
                          | c :: r4 =>
                              if (c =? chr "}")%N then Done (PyDict d', r4)
                              else if (c =? chr ",")%N
                              then object_items f d' (skip_ws r4)
                              else DecodeError
                          | [] => DecodeError
                          end
                      | DecodeError => DecodeError
                      | NoFuel => NoFuel
                      end
                    else DecodeError
                | [] => DecodeError
                end
            | None => DecodeError
            end
          else DecodeError
      | [] => DecodeError
      end.
Proof. reflexivity. Qed.

(** More fuel does not change an answer. *)
Lemma fuel_step f :
  (forall s, scan_once f s <> NoFuel -> scan_once (S f) s = scan_once f s)
  /\ (forall acc s, array_items f acc s <> NoFuel ->
        array_items (S f) acc s = array_items f acc s)
  /\ (forall d s, object_items f d s <> NoFuel ->
        object_items (S f) d s = object_items f d s).
Proof.
  induction f as [|f [IH1 [IH2 IH3]]].
  { repeat split; intros; cbn in *; congruence. }
  split; [|split].
  - intros s H. destruct s as [|c r]; [reflexivity|].
    rewrite scan_once_S in H. rewrite (scan_once_S (S f)), (scan_once_S f).
    destruct (c =? QUOTE)%N; [reflexivity|].
    destruct (c =? chr "{")%N.
    { destruct (skip_ws r) as [|c' r']; [reflexivity|].
      destruct (c' =? chr "}")%N; [reflexivity|]. apply IH3. exact H. }
    destruct (c =? chr "[")%N.
    { destruct (skip_ws r) as [|c' r']; [reflexivity|].
      destruct (c' =? chr "]")%N; [reflexivity|]. apply IH2. exact H. }
    reflexivity.
  - intros acc s H. rewrite array_items_S in H. rewrite (array_items_S (S f)), (array_items_S f).
    destruct (scan_once f s) as [[v r]| |] eqn:E1.
    + rewrite IH1 by congruence. rewrite E1.
      destruct (skip_ws r) as [|c r']; [reflexivity|].
      destruct (c =? chr "]")%N; [reflexivity|].
      destruct (c =? chr ",")%N; [|reflexivity]. apply IH2. exact H.
    + rewrite IH1 by congruence. rewrite E1. reflexivity.
    + congruence.
  - intros d s H. rewrite object_items_S in H. rewrite (object_items_S (S f)), (object_items_S f).
    destruct s as [|q r]; [reflexivity|].
    destruct (q =? QUOTE)%N; [|reflexivity].
    destruct (scanstring false [] r) as [[key r1]|]; [|reflexivity].
    destruct (skip_ws r1) as [|colon r2]; [reflexivity|].
    destruct (colon =? chr ":")%N; [|reflexivity].
    destruct (scan_once f (skip_ws r2)) as [[v r3]| |] eqn:E1.
    + rewrite IH1 by congruence. rewrite E1.
      destruct (skip_ws r3) as [|c r4]; [reflexivity|].
      destruct (c =? chr "}")%N; [reflexivity|].
      destruct (c =? chr ",")%N; [|reflexivity]. apply IH3. exact H.
    + rewrite IH1 by congruence. rewrite E1. reflexivity.
    + congruence.
Qed.

Lemma scan_once_more_fuel f f' s :
  f <= f' -> scan_once f s <> NoFuel -> scan_once f' s = scan_once f s.
Proof.
  induction 1 as [|f' Hle IH]; [reflexivity|]. intros H.
  rewrite <- (IH H). apply fuel_step. rewrite (IH H). exact H.
Qed.

(** Twice the length of the input is enough fuel. *)
Lemma fuel_enough f :
  (forall s, 2 * List.length s < f -> scan_once f s <> NoFuel)
  /\ (forall acc s, 2 * List.length s + 1 < f -> array_items f acc s <> NoFuel)
  /\ (forall d s, 2 * List.length s + 1 < f -> object_items f d s <> NoFuel).
Proof.
  induction f as [|f [IH1 [IH2 IH3]]].
  { repeat split; intros; lia. }
  split; [|split].
  - intros s L. destruct s as [|c r]; [discriminate|]. cbn [scan_once].
    simpl in L.
    destruct (c =? QUOTE)%N.
    { destruct (scanstring false [] r) as [[? ?]|]; discriminate. }
    destruct (c =? chr "{")%N.
    { destruct (skip_ws r) as [|c' r'] eqn:Ew; [discriminate|].
      destruct (c' =? chr "}")%N; [discriminate|]. apply IH3.
      pose proof (skip_ws_length r) as K. rewrite Ew in K. lia. }
    destruct (c =? chr "[")%N.
    { destruct (skip_ws r) as [|c' r'] eqn:Ew; [discriminate|].
      destruct (c' =? chr "]")%N; [discriminate|]. apply IH2.
      pose proof (skip_ws_length r) as K. rewrite Ew in K. lia. }
    repeat match goal with
    | |- (if ?b then _ else _) <> _ => destruct b; [discriminate|]
    end.
    destruct (match_number (c :: r)) as [[? ?]|]; discriminate.
  - intros acc s L. cbn [array_items].
    destruct (scan_once f s) as [[v r]| |] eqn:E1.
    + pose proof (reads_shorter _ _ _ _ (proj1 (scan_stable f) _ _ _ E1)) as K1.
      destruct (skip_ws r) as [|c r'] eqn:Ew; [discriminate|].
      destruct (c =? chr "]")%N; [discriminate|].
      destruct (c =? chr ",")%N; [|discriminate]. apply IH2.
      pose proof (skip_ws_length r) as K2. rewrite Ew in K2. simpl in K2.
      pose proof (skip_ws_length r') as K3. lia.
    + discriminate.
    + exfalso. revert E1. apply IH1. lia.
  - intros d s L. cbn [object_items].
    destruct s as [|q r]; [discriminate|]. simpl in L.
    destruct (q =? QUOTE)%N; [|discriminate].
    destruct (scanstring false [] r) as [[key r1]|] eqn:Es; [|discriminate].
    apply scanstring_shorter in Es.
    destruct (skip_ws r1) as [|colon r2] eqn:Ew1; [discriminate|].
    pose proof (skip_ws_length r1) as K1. rewrite Ew1 in K1. simpl in K1.
    destruct (colon =? chr ":")%N; [|discriminate].
    pose proof (skip_ws_length r2) as K2.
    destruct (scan_once f (skip_ws r2)) as [[v r3]| |] eqn:E1.
    + pose proof (reads_shorter _ _ _ _ (proj1 (scan_stable f) _ _ _ E1)) as K3.
      destruct (skip_ws r3) as [|c r4] eqn:Ew3; [discriminate|].
      pose proof (skip_ws_length r3) as K4. rewrite Ew3 in K4. simpl in K4.
      destruct (c =? chr "}")%N; [discriminate|].
      destruct (c =? chr ",")%N; [|discriminate]. apply IH3.
      pose proof (skip_ws_length r4) as K5. lia.
    + discriminate.
    + exfalso. revert E1. apply IH1. lia.
Qed.

(** [scan_once] answers alike on any two amounts of fuel above twice the
    length of the input: [fuel_for] is enough, and [json_loads] never fails
    for lack of fuel. *)
Lemma scan_once_fuel f f' s :
  2 * List.length s < f -> 2 * List.length s < f' ->
  scan_once f s = scan_once f' s.
Proof.
  intros L L'. destruct (Nat.le_ge_cases f f') as [H|H].
  - symmetry. apply scan_once_more_fuel; [exact H|]. apply fuel_enough. exact L.
  - apply scan_once_more_fuel; [exact H|]. apply fuel_enough. exact L'.
Qed.

Lemma scan_once_fuel_done f s x :
  scan_once f s = Done x -> forall f', 2 * List.length s < f' -> scan_once f' s = Done x.
Proof.
  intros H f' L. destruct (Nat.le_ge_cases f f') as [K|K].
  - rewrite (scan_once_more_fuel f f' s K); [exact H|]. rewrite H. discriminate.
  - rewrite <- H. symmetry. apply scan_once_more_fuel; [exact K|].
    apply fuel_enough. exact L.
Qed.

(** ** json.loads and the whitespace around a value *)

Lemma not_bom c : json_ws c = true \/ value_start c = true -> (c =? BOM)%N = false.
Proof.
  intros [H|H].
  - unfold json_ws in H. repeat (apply orb_true_iff in H as [H|H]);
      apply N.eqb_eq in H; subst; reflexivity.
  - unfold value_start in H.
    repeat (apply orb_true_iff in H as [H|H]);
      try (apply N.eqb_eq in H; subst; reflexivity).
    unfold is_digit in H. apply andb_true_iff in H as [_ B].
    apply N.leb_le in B. apply N.eqb_neq. unfold BOM. lia.
Qed.

Lemma json_loads_inv J v :
  json_loads J = Some v ->
  exists ws pre rest, J = ws ++ pre ++ rest
    /\ forallb json_ws ws = true /\ forallb json_ws rest = true
    /\ json_text pre v.
Proof.
  unfold json_loads. destruct J as [|c J']; [discriminate|].
  destruct (c =? BOM)%N; [discriminate|].
  destruct (scan_once (fuel_for (c :: J')) (skip_ws (c :: J')))
    as [[v' rest]| |] eqn:E; try discriminate.
  destruct (skip_ws rest) eqn:R; [|discriminate]. intros H; inversion H; subst v'.
  destruct (proj1 (scan_stable _) _ _ _ E) as [pre [Ep [T Hst]]].
  destruct (skip_ws_split (c :: J')) as [ws [Ew F]].
  exists ws, pre, rest. split; [rewrite Ew at 1; rewrite Ep; reflexivity|].
  split; [exact F|]. split; [apply skip_ws_nil; exact R|].
  split; [exact T|]. intros f t L S.
  apply (scan_once_fuel_done _ _ _ (Hst t S)). exact L.
Qed.

Lemma json_loads_intro ws pre rest v :
  json_text pre v -> forallb json_ws ws = true -> forallb json_ws rest = true ->
  json_loads (ws ++ pre ++ rest) = Some v.
Proof.
  intros [T Hst] Fw Fr. unfold json_loads.
  destruct (ws ++ pre ++ rest) as [|c X] eqn:E.
  { destruct T as [[c [r [-> _]]] _]. destruct ws; discriminate. }
  assert (B : (c =? BOM)%N = false).
  { apply not_bom. destruct ws as [|w ws].
    - destruct T as [[c0 [r [-> C]]] _]. inversion E; subst. auto.
    - inversion E; subst. simpl in Fw. apply andb_true_iff in Fw as [W _]. auto. }
  rewrite B, <- E. rewrite skip_ws_app, skip_ws_token by assumption.
  rewrite Hst.
  - rewrite skip_ws_all by assumption. reflexivity.
  - unfold fuel_for. rewrite !length_app. lia.
  - rewrite <- (app_nil_r rest). apply safe_tail_all_ws; auto.
Qed.

Lemma json_ws_isspace c : json_ws c = true -> str_isspace c = true.
Proof.
  unfold json_ws. intros H. repeat (apply orb_true_iff in H as [H|H]);
    apply N.eqb_eq in H; subst; reflexivity.
Qed.

Lemma value_start_visible c : value_start c = true -> str_isspace c = false.
Proof.
  unfold value_start. intros H.
  repeat (apply orb_true_iff in H as [H|H]);
    try (apply N.eqb_eq in H; subst; reflexivity).
  apply is_digit_visible. exact H.
Qed.

Lemma str_lstrip_app ws s :
  forallb json_ws ws = true -> str_lstrip (ws ++ s) = str_lstrip s.
Proof.
  induction ws as [|w ws IH]; simpl; auto. intros H.
  apply andb_true_iff in H as [W F]. rewrite (json_ws_isspace w W). auto.
Qed.

Lemma forallb_rev {A} (P : A -> bool) l : forallb P (rev l) = forallb P l.
Proof.
  induction l as [|a l IH]; simpl; auto.
  rewrite forallb_app, IH. simpl. rewrite andb_true_r. apply andb_comm.
Qed.

(** [str.strip] takes the whitespace of the JSON grammar off the two ends
    of a JSON text. *)
Lemma str_strip_token ws pre rest :
  token_ends pre -> forallb json_ws ws = true -> forallb json_ws rest = true ->
  str_strip (ws ++ pre ++ rest) = pre.
Proof.
  intros [[c [r [E C]]] [p [d [E' D]]]] Fw Fr. unfold str_strip.
  rewrite str_lstrip_app by assumption.
  assert (L : str_lstrip (pre ++ rest) = pre ++ rest).
  { rewrite E. cbn [app]. apply str_lstrip_visible, value_start_visible, C. }
  rewrite L. unfold str_rstrip. rewrite rev_app_distr.
  rewrite str_lstrip_app by (rewrite forallb_rev; assumption).
  rewrite E', rev_app_distr. cbn [rev app]. rewrite str_lstrip_visible by assumption.
  change (d :: rev p) with (rev [d] ++ rev p). rewrite <- rev_app_distr.
  apply rev_involutive.
Qed.

Lemma token_not_fenced pre : token_ends pre -> strip_fence pre = pre.
Proof.
  intros [[c [r [-> C]]] _]. unfold strip_fence.
  change FENCE_JSON with (chr "`" :: py "``json").
  change FENCE with (chr "`" :: py "``").
  assert (B : (chr "`" =? c)%N = false).
  { apply N.eqb_neq. intros <-. discriminate. }
  rewrite !startswith_head_false by exact B. reflexivity.
Qed.

Lemma json_text_loads pre v : json_text pre v -> json_loads pre = Some v.
Proof.
  intros T. rewrite <- (app_nil_r pre). apply (json_loads_intro [] pre []); auto.
Qed.

(** A JSON text parses to the same value with a newline before and after,
    and stripped. *)
Lemma parse_response_plain J v :
  json_loads J = Some v -> parse_response J = Some v.
Proof.
  intros H. destruct (json_loads_inv J v H) as [ws [pre [rest [-> [Fw [Fr T]]]]]].
  unfold parse_response, fence_stripped.
  rewrite str_strip_token by (assumption || apply T).
  rewrite token_not_fenced by apply T. apply json_text_loads. exact T.
Qed.

Lemma json_loads_between_newlines J v :
  json_loads J = Some v -> json_loads (NL :: J ++ [NL]) = Some v.
Proof.
  intros H. destruct (json_loads_inv J v H) as [ws [pre [rest [-> [Fw [Fr T]]]]]].
  replace (NL :: (ws ++ pre ++ rest) ++ [NL])
    with ((NL :: ws) ++ pre ++ (rest ++ [NL])) by (norm_app; reflexivity).
  apply json_loads_intro; [exact T| |].
  - simpl. exact Fw.
  - rewrite forallb_app, Fr. reflexivity.
Qed.

Lemma fence_stripped_fenced_json J :
  fence_stripped (fenced_json J) = NL :: J ++ [NL].
Proof.
  unfold fence_stripped, fenced_json.
  assert (S : str_strip (py "```json" ++ NL :: J ++ NL :: py "```")
              = FENCE_JSON ++ (NL :: J ++ [NL]) ++ py "```").
  { replace (py "```json" ++ NL :: J ++ NL :: py "```")
      with (chr "`" :: (py "``json" ++ NL :: J ++ NL :: py "``") ++ [chr "`"]).
    - rewrite str_strip_visible by reflexivity.
      unfold FENCE_JSON. cbn [py map list_ascii_of_string app]. norm_app. reflexivity.
    - cbn [py map list_ascii_of_string app]. norm_app. reflexivity. }
  rewrite S. unfold strip_fence. rewrite str_startswith_app.
  rewrite (py_slice_drop _ 7) by (rewrite length_app; simpl; lia).
  apply (remove_first_and_last_app FENCE_JSON). reflexivity.
Qed.

Lemma fence_stripped_fenced_bare J :
  fence_stripped (fenced_bare J) = NL :: J ++ [NL].
Proof.
  unfold fence_stripped, fenced_bare.
  assert (S : str_strip (py "```" ++ NL :: J ++ NL :: py "```")
              = FENCE ++ (NL :: J ++ [NL]) ++ py "```").
  { replace (py "```" ++ NL :: J ++ NL :: py "```")
      with (chr "`" :: (py "``" ++ NL :: J ++ NL :: py "``") ++ [chr "`"]).
    - rewrite str_strip_visible by reflexivity.
      unfold FENCE. cbn [py map list_ascii_of_string app]. norm_app. reflexivity.
    - cbn [py map list_ascii_of_string app]. norm_app. reflexivity. }
  rewrite S. unfold strip_fence.
  assert (F : str_startswith FENCE_JSON (FENCE ++ (NL :: J ++ [NL]) ++ py "```") = false)
    by reflexivity.
  rewrite F, str_startswith_app.
  rewrite (py_slice_drop _ 3) by (rewrite length_app; simpl; lia).
  apply (remove_first_and_last_app FENCE). reflexivity.
Qed.

(** C1: a JSON object text inside a fence tagged [json], inside a bare
    fence, and without a fence, parses to the same mapping in the three
    cases: the one [json.loads] gives for the text itself. *)
Theorem fenced_bodies_parse_alike (J : pystr) (m : pydict) :
  json_loads J = Some (PyDict m) ->
  parse_response (fenced_json J) = Some (PyDict m)
  /\ parse_response (fenced_bare J) = Some (PyDict m)
  /\ parse_response J = Some (PyDict m).
Proof.
  intros H. unfold parse_response at 1 2.
  rewrite fence_stripped_fenced_json, fence_stripped_fenced_bare.
  repeat split.
  - apply json_loads_between_newlines. exact H.
  - apply json_loads_between_newlines. exact H.
  - apply parse_response_plain. exact H.
Qed.

(** ** The monad of a run *)

Lemma fst_bind {A B} (m : M A) (k : A -> M B) :
  fst (bind m k)
  = fst m ++ match snd m with Ok a => fst (k a) | Raise _ => [] end.
Proof.
  destruct m as [ev [a|e]]; cbn [bind fst snd].
  - destruct (k a); reflexivity.
  - rewrite app_nil_r. reflexivity.
Qed.

Lemma snd_bind {A B} (m : M A) (k : A -> M B) :
  snd (bind m k) = match snd m with Ok a => snd (k a) | Raise e => Raise e end.
Proof.
  destruct m as [ev [a|e]]; cbn [bind fst snd]; [destruct (k a)|]; reflexivity.
Qed.

Lemma fst_try_except {A} (m : M A) (h : exn -> M A) :
  fst (try_except m h)
  = fst m ++ match snd m with Ok _ => [] | Raise e => fst (h e) end.
Proof.
  destruct m as [ev [a|e]]; cbn [try_except fst snd].
  - rewrite app_nil_r. reflexivity.
  - destruct (h e); reflexivity.
Qed.

Lemma snd_try_except {A} (m : M A) (h : exn -> M A) :
  snd (try_except m h) = match snd m with Ok a => Ok a | Raise e => snd (h e) end.
Proof.
  destruct m as [ev [a|e]]; cbn [try_except fst snd]; [|destruct (h e)]; reflexivity.
Qed.

(** ** Extraction *)

(** C2: when the content of the reply, stripped and without its fence,
    is not JSON, [extract_invoice_data] catches the error, reports it with
    [st.error], and returns [None] without raising. *)
Theorem extract_reports_parse_failure
  (store : secrets) (key : pystr) (image : bitmap) (base64_image : pystr)
  (content : pystr) (others : list (option pystr)) :
  init_openai store = Ok key ->
  encode_image image = Ok base64_image ->
  json_loads (fence_stripped content) = None ->
  extract_invoice_data store (ApiReturns (Some content :: others)) image
  = ([ChatCompletionsCreate key MODEL PROMPT
        (py "data:image/png;base64," ++ base64_image) 1000;
      StError [FLit (py "Error extracting data: "); FExn JSONDecodeError]],
     Ok None).
Proof.
  intros K E P. unfold extract_invoice_data.
  rewrite K, E. cbn [lift bind emit response_content app].
  unfold loads_or_raise. rewrite P. reflexivity.
Qed.

(** The result of [extract_invoice_data] is [None] or the whole value
    [json.loads] gave: no part of a reply that fails to parse is kept. *)
Lemma extract_result_complete store r image :
  snd (extract_invoice_data store r image) = Ok None
  \/ exists content others v,
       r = ApiReturns (Some content :: others)
       /\ json_loads (fence_stripped content) = Some v
       /\ snd (extract_invoice_data store r image) = Ok (Some v).
Proof.
  unfold extract_invoice_data, loads_or_raise.
  destruct (init_openai store) as [key|e]; [|left; reflexivity].
  destruct (encode_image image) as [b|e]; [|left; reflexivity].
  destruct r as [m|[|[content|] others]]; try (left; reflexivity).
  destruct (json_loads (fence_stripped content)) as [v|] eqn:P;
    [|left; cbn; rewrite P; reflexivity].
  right. exists content, others, v. split; [reflexivity|]. split; [exact P|].
  cbn. rewrite P. reflexivity.
Qed.

(** [extract_invoice_data], case by case. *)
Lemma extract_invoice_data_eq store r image :
  extract_invoice_data store r image
  = match init_openai store with
    | Raise e => ([extract_error e], Ok None)
    | Ok key =>
        match encode_image image with
        | Raise e => ([extract_error e], Ok None)
        | Ok base64_image =>
            match response_content r with
            | Raise e => ([request_of key base64_image; extract_error e], Ok None)
            | Ok content =>
                match json_loads (fence_stripped content) with
                | None => ([request_of key base64_image;
                            extract_error JSONDecodeError], Ok None)
                | Some v => ([request_of key base64_image], Ok (Some v))
                end
            end
        end
    end.
Proof.
  unfold extract_invoice_data, loads_or_raise.
  destruct (init_openai store) as [key|e]; [|reflexivity].
  destruct (encode_image image) as [b|e]; [|reflexivity].
  destruct (response_content r) as [content|e]; [|reflexivity].
  cbn [lift bind emit app].
  destruct (json_loads (fence_stripped content)); reflexivity.
Qed.

(** ** Display *)

Lemma field_or_present d key default v :
  dict_get d (py key) = Some v -> field_or d key default = v.
Proof. unfold field_or. intros ->. reflexivity. Qed.

Lemma field_or_missing d key default :
  dict_get d (py key) = None -> field_or d key default = default.
Proof. unfold field_or. intros ->. reflexivity. Qed.

(** A truthy value that has a length is not empty: the second test of
    line 123 is true whenever it is reached and does not raise. *)
Lemma truthy_sized_nonempty v n : truthy v = true -> py_len v = Ok n -> 0 < n.
Proof.
  destruct v as [| | | |[|c s]|[|x l]|[|kv d]]; cbn [truthy py_len];
    intros T L; try discriminate T; try discriminate L;
    inversion L; cbn [List.length]; lia.
Qed.

Lemma py_len_raises v e : py_len v = Raise e -> e = TypeError.
Proof. destruct v; cbn [py_len]; intros H; inversion H; reflexivity. Qed.

(** What [pd.DataFrame] accepts has a length, and what it raises is its
    own exception. *)
Lemma pd_DataFrame_sized items :
  pd_DataFrame items = Ok tt -> exists n, py_len items = Ok n.
Proof.
  destruct items; cbn [pd_DataFrame py_len]; try discriminate; eauto.
Qed.

Lemma pd_DataFrame_raises items e : pd_DataFrame items = Raise e -> e = FrameError.
Proof.
  destruct items as [| | | | |l|d]; cbn [pd_DataFrame]; intros H;
    try (inversion H; reflexivity).
  - destruct (as_text_records l); [discriminate H|].
    destruct (DataFrame_accepts (PyList l)); [discriminate H|].
    inversion H; reflexivity.
  - destruct (DataFrame_accepts (PyDict d)); [discriminate H|].
    inversion H; reflexivity.
Qed.

Lemma frame_ok_spec items : frame_ok items = true <-> pd_DataFrame items = Ok tt.
Proof.
  unfold frame_ok. destruct (pd_DataFrame items) as [[]|e]; split;
    try discriminate; reflexivity.
Qed.

Lemma display_line_items_eq d :
  display_line_items (PyDict d)
  = if truthy (field_or d "line_items" PyNone) then
      match py_len (field_or d "line_items" PyNone) with
      | Ok _ =>
          match pd_DataFrame (field_or d "line_items" PyNone) with
          | Ok _ => ([StSubheader (0x1F4E6%N :: py " Line Items");
                      StDataframe (field_or d "line_items" PyNone)], Ok tt)
          | Raise e => ([StSubheader (0x1F4E6%N :: py " Line Items")], Raise e)
          end
      | Raise e => ([StSubheader (0x1F4E6%N :: py " Line Items")], Raise e)
      end
    else ([StSubheader (0x1F4E6%N :: py " Line Items");
           StWrite [FLit NO_LINE_ITEMS]], Ok tt).
Proof.
  unfold display_line_items, get_or. cbn [lift bind emit app].
  destruct (truthy (field_or d "line_items" PyNone)) eqn:T; [|reflexivity].
  destruct (py_len (field_or d "line_items" PyNone)) as [n|e] eqn:L; [|reflexivity].
  pose proof (truthy_sized_nonempty _ _ T L) as N.
  cbn [lift bind ret app]. destruct n; [lia|]. cbn [Nat.ltb Nat.leb].
  destruct (pd_DataFrame (field_or d "line_items" PyNone)) as [[]|e]; reflexivity.
Qed.

(** The display of a mapping, case by case: [st.metric] refuses one of
    the first three values, [len] or [pd.DataFrame] refuses the line
    items, or every element is shown. *)
Lemma display_extracted_data_eq d :
  display_extracted_data (PyDict d)
  = if metric_accepts (field_or d "invoice_number" NA) then
      if metric_accepts (field_or d "invoice_date" NA) then
        if metric_accepts (field_or d "due_date" NA) then
          if truthy (field_or d "line_items" PyNone) then
            match py_len (field_or d "line_items" PyNone) with
            | Ok _ =>
                match pd_DataFrame (field_or d "line_items" PyNone) with
                | Ok _ =>
                    (display_head d
                     ++ StDataframe (field_or d "line_items" PyNone)
                        :: display_totals d, Ok tt)
                | Raise e => (display_head d, Raise e)
                end
            | Raise e => (display_head d, Raise e)
            end
          else (display_head d ++ StWrite [FLit NO_LINE_ITEMS] :: display_totals d,
                Ok tt)
        else (firstn 4 (display_head d), Raise MetricError)
      else (firstn 3 (display_head d), Raise MetricError)
    else (firstn 2 (display_head d), Raise MetricError).
Proof.
  unfold display_extracted_data. rewrite display_line_items_eq.
  unfold metric_field, write_field, metric_amount, st_metric, get_or.
  cbn [lift bind emit app].
  destruct (metric_accepts (field_or d "invoice_number" NA)); [|reflexivity].
  cbn [lift bind emit app].
  destruct (metric_accepts (field_or d "invoice_date" NA)); [|reflexivity].
  cbn [lift bind emit app].
  destruct (metric_accepts (field_or d "due_date" NA)); [|reflexivity].
  cbn [lift bind emit app].
  destruct (truthy (field_or d "line_items" PyNone)); [|reflexivity].
  destruct (py_len (field_or d "line_items" PyNone)); [|reflexivity].
  destruct (pd_DataFrame (field_or d "line_items" PyNone)) as [[]|e]; reflexivity.
Qed.

Lemma display_events_split d :
  display_events d = display_head d ++ line_items_event d :: display_totals d.
Proof. reflexivity. Qed.

(** When [st.metric] and [pd.DataFrame] accept what they are given, every
    element is shown. *)
Lemma display_extracted_data_events d :
  metrics_accepted d = true -> line_items_accepted d = true ->
  display_extracted_data (PyDict d) = (display_events d, Ok tt).
Proof.
  unfold metrics_accepted, line_items_accepted. intros Hm Hl.
  apply andb_true_iff in Hm as [Hm M3]. apply andb_true_iff in Hm as [M1 M2].
  rewrite display_extracted_data_eq, M1, M2, M3, display_events_split.
  unfold line_items_event.
  destruct (truthy (field_or d "line_items" PyNone)) eqn:T; [|reflexivity].
  cbn [negb orb] in Hl. apply frame_ok_spec in Hl.
  destruct (pd_DataFrame_sized _ Hl) as [n L]. rewrite L, Hl. reflexivity.
Qed.

(** The display completes exactly then. *)
Lemma display_completes_iff d :
  snd (display_extracted_data (PyDict d)) = Ok tt
  <-> metrics_accepted d = true /\ line_items_accepted d = true.
Proof.
  split.
  - rewrite display_extracted_data_eq. unfold metrics_accepted, line_items_accepted.
    destruct (metric_accepts (field_or d "invoice_number" NA)); [|discriminate].
    destruct (metric_accepts (field_or d "invoice_date" NA)); [|discriminate].
    destruct (metric_accepts (field_or d "due_date" NA)); [|discriminate].
    destruct (truthy (field_or d "line_items" PyNone)); [|auto].
    destruct (py_len (field_or d "line_items" PyNone)); [|discriminate].
    unfold frame_ok.
    destruct (pd_DataFrame (field_or d "line_items" PyNone)); [auto|discriminate].
  - intros [Hm Hl]. rewrite (display_extracted_data_events d Hm Hl). reflexivity.
Qed.

(** C4, amended: [display_extracted_data] completes on a mapping exactly
    when [st.metric] accepts the invoice number, the invoice date and the
    due date (none is a list or a mapping) and [line_items] is missing,
    falsy, or accepted by [pd.DataFrame].  It then makes the elements of
    [display_events], where a field that is present is shown with its value
    as it is, and a field that is missing with "N/A", but for [currency],
    which is then shown as the empty string. *)
Theorem display_defaults_missing_fields (d : pydict) :
  (snd (display_extracted_data (PyDict d)) = Ok tt
   <-> metrics_accepted d = true /\ line_items_accepted d = true)
  /\ (metrics_accepted d = true -> line_items_accepted d = true ->
      display_extracted_data (PyDict d) = (display_events d, Ok tt))
  /\ (forall key default v,
        dict_get d (py key) = Some v -> field_or d key default = v)
  /\ (forall key,
        dict_get d (py key) = None ->
        field_or d key NA = PyStr (py "N/A")
        /\ field_or d key (PyStr []) = PyStr []).
Proof.
  split; [apply display_completes_iff|].
  split; [apply display_extracted_data_events|]. split.
  - intros key default v. apply field_or_present.
  - intros key K. rewrite !field_or_missing by exact K. split; reflexivity.
Qed.

Lemma falsy_line_items d :
  dict_get d (py "line_items") = None
  \/ (exists v, dict_get d (py "line_items") = Some v /\ truthy v = false) ->
  truthy (field_or d "line_items" PyNone) = false.
Proof.
  unfold field_or. intros [H|[v [H T]]]; rewrite H; [reflexivity|exact T].
Qed.

(** C5, amended: when [line_items] is absent, the empty list or another
    falsy value, and [st.metric] accepts the invoice number, the invoice
    date and the due date, the display completes, shows "No line items
    found" and makes no table. *)
Theorem display_empty_line_items (d : pydict) :
  metrics_accepted d = true ->
  dict_get d (py "line_items") = None
  \/ (exists v, dict_get d (py "line_items") = Some v /\ truthy v = false) ->
  snd (display_extracted_data (PyDict d)) = Ok tt
  /\ In (StWrite [FLit NO_LINE_ITEMS]) (fst (display_extracted_data (PyDict d)))
  /\ forall items, ~ In (StDataframe items) (fst (display_extracted_data (PyDict d))).
Proof.
  intros Hm H. pose proof (falsy_line_items d H) as T.
  assert (Hl : line_items_accepted d = true).
  { unfold line_items_accepted. rewrite T. reflexivity. }
  rewrite (display_extracted_data_events d Hm Hl).
  assert (L : line_items_event d = StWrite [FLit NO_LINE_ITEMS]).
  { unfold line_items_event. rewrite T. reflexivity. }
  unfold display_events. rewrite L. cbn [fst snd]. split; [reflexivity|]. split.
  - cbn [In]. do 14 right. left. reflexivity.
  - intros items K. cbn [In] in K.
    repeat (destruct K as [K|K]; [discriminate|]). exact K.
Qed.

(** ** Export *)

(** C7: the CSV of the spec's line items is the header row
    [description,quantity,unit_price,total_price] followed by the row
    [A,2,5,10], and it is what the CSV download of a result with these
    line items is made of. *)
Theorem csv_of_example_line_items :
  to_csv example_line_items
  = Some (py "description,quantity,unit_price,total_price" ++ [NL]
          ++ py "A,2,5,10" ++ [NL])
  /\ In (StDownloadButton CSV_LABEL (LineItemsCsv example_line_items)
           (py "invoice_line_items.csv") (py "text/csv"))
        (fst (present (PyDict [(py "line_items", example_line_items)]))).
Proof.
  split; [reflexivity|]. cbn. do 24 right. left. reflexivity.
Qed.

(** ** The script *)

(** The page and the sidebar: with a key typed in, the run ends at line
    150. *)
Lemma preamble_eq w :
  preamble w
  = if nonempty (typed_key w) then (page_top, Raise TypeError)
    else (page_top ++ page_rest, Ok tt).
Proof.
  unfold preamble, sidebar, secrets_setitem.
  destruct (nonempty (typed_key w)); reflexivity.
Qed.

Lemma secrets_get_truthy store entry :
  secrets_get store = Ok entry -> key_truthy entry = has_key store.
Proof. destruct store; cbn; intros H; inversion H; reflexivity. Qed.

(** What the upload flow shows, step by step. *)
Lemma process_upload_eq w store file :
  fst (process_upload w store file)
  = StSubheader (0x1F4F8%N :: py " Uploaded Invoice")
    :: match Image_open file with
       | None => [upload_error ImageError]
       | Some image =>
           StImage image (py "Uploaded Invoice")
           :: match store with
              | NoSecretsFile => [upload_error SecretsError]
              | SecretsFile _ =>
                  if has_key store then
                    StButton BUTTON_LABEL
                    :: if extract_clicked w then
                         StSpinner (py "Analyzing invoice...")
                         :: fst (extract_invoice_data store (api_reply w) image)
                         ++ match snd (extract_invoice_data store (api_reply w)
                                         image) with
                            | Ok out =>
                                fst (present_if_truthy out)
                                ++ match snd (present_if_truthy out) with
                                   | Ok _ => []
                                   | Raise e => [upload_error e]
                                   end
                            | Raise e => [upload_error e]
                            end
                       else []
                  else [StWarning WARNING_NO_KEY]
              end
       end.
Proof.
  unfold process_upload. rewrite fst_bind. cbn [emit fst snd app]. f_equal.
  destruct (Image_open file) as [image|]; [|reflexivity].
  destruct store as [|entry]; [reflexivity|].
  cbn [secrets_get has_key lift bind emit app].
  destruct (key_truthy entry); [|reflexivity].
  destruct (extract_clicked w); [|reflexivity].
  cbn [lift bind emit negb app].
  destruct (extract_invoice_data (SecretsFile entry) (api_reply w) image)
    as [ev [out|e]]; cbn [bind fst snd].
  - destruct (present_if_truthy out) as [ev' [[]|e']];
      cbn [try_except emit fst snd app]; rewrite ?app_nil_r;
      repeat rewrite <- app_assoc; reflexivity.
  - reflexivity.
Qed.

Lemma process_upload_ok w store file : snd (process_upload w store file) = Ok tt.
Proof.
  unfold process_upload. cbn [bind emit].
  match goal with
  | |- snd (let (_, _) := try_except ?m ?h in _) = _ => destruct m as [ev [[]|e]]
  end; reflexivity.
Qed.

(** A run ends at the sidebar when a key is typed in; otherwise it is the
    page, what the upload gives, and the footer. *)
Lemma script_eq w :
  script w
  = if nonempty (typed_key w) then (page_top, Raise TypeError)
    else (page_top ++ page_rest
          ++ match uploaded_file w with
             | Some file => fst (process_upload w (stored_key w) file)
             | None => []
             end
          ++ fst footer, Ok tt).
Proof.
  unfold script. rewrite preamble_eq.
  destruct (nonempty (typed_key w)); [reflexivity|]. cbn [bind].
  destruct (uploaded_file w) as [file|].
  - pose proof (process_upload_ok w (stored_key w) file) as K.
    destruct (process_upload w (stored_key w) file) as [ev' r'].
    cbn [snd fst] in K |- *. subst r'. cbn [bind footer emit app].
    repeat rewrite <- app_assoc. reflexivity.
  - reflexivity.
Qed.

Lemma run_eq w :
  run w
  = if nonempty (typed_key w) then page_top
    else page_top ++ page_rest
         ++ match uploaded_file w with
            | Some file => fst (process_upload w (stored_key w) file)
            | None => []
            end
         ++ fst footer.
Proof.
  unfold run. rewrite script_eq. destruct (nonempty (typed_key w)); reflexivity.
Qed.

Lemma nonempty_nil s : s = [] -> nonempty s = false.
Proof. intros ->. reflexivity. Qed.


Lemma extract_success store key image base64_image content others v :
  init_openai store = Ok key ->
  encode_image image = Ok base64_image ->
  json_loads (fence_stripped content) = Some v ->
  extract_invoice_data store (ApiReturns (Some content :: others)) image
  = ([ChatCompletionsCreate key MODEL PROMPT
        (py "data:image/png;base64," ++ base64_image) 1000],
     Ok (Some v)).
Proof.
  intros K E P. unfold extract_invoice_data.
  rewrite K, E. cbn [lift bind emit response_content app].
  unfold loads_or_raise. rewrite P. reflexivity.
Qed.

Lemma has_key_some store :
  has_key store = true -> exists key, store = SecretsFile (Some key) /\ key <> [].
Proof.
  destruct store as [|[[|c key]|]]; try discriminate. intros _.
  exists (c :: key). split; [reflexivity|discriminate].
Qed.

Lemma has_key_init store :
  has_key store = true -> exists key, init_openai store = Ok key.
Proof.
  intros H. destruct (has_key_some _ H) as [key [-> _]]. exists key. reflexivity.
Qed.

(** C10: a reply that parses to a falsy value is given what a failed
    extraction is given: the run shows no success message, none of the
    elements of the display, no download and no raw view; any of these
    needs a truthy value. *)
Theorem falsy_result_not_presented
  (w : session) (file : list Byte.byte) (image : bitmap)
  (base64_image content : pystr) (others : list (option pystr)) (v : value) :
  uploaded_file w = Some file -> Image_open file = Some image ->
  has_key (store_after w) = true -> extract_clicked w = true ->
  encode_image image = Ok base64_image ->
  api_reply w = ApiReturns (Some content :: others) ->
  json_loads (fence_stripped content) = Some v ->
  truthy v = false ->
  present_if_truthy (Some v) = present_if_truthy None
  /\ forallb (fun e => negb (presents e)) (run w) = true
  /\ forall extracted_data,
       fst (present_if_truthy extracted_data) <> [] ->
       exists data, extracted_data = Some data /\ truthy data = true.
Proof.
  intros U O K C E R P F. split; [|split].
  - unfold present_if_truthy. rewrite F. reflexivity.
  - unfold store_after in K. destruct (has_key_some _ K) as [key [S _]].
    rewrite run_eq. destruct (nonempty (typed_key w)); [reflexivity|].
    rewrite U, process_upload_eq, O, S. rewrite S in K. rewrite K, C, R.
    rewrite (extract_success (SecretsFile (Some key)) key _ _ _ _ _ eq_refl E P).
    cbn [fst snd]. unfold present_if_truthy. rewrite F. reflexivity.
  - intros [data|] N.
    + unfold present_if_truthy in N. destruct (truthy data) eqn:T.
      * exists data. auto.
      * exfalso. apply N. reflexivity.
    + exfalso. apply N. reflexivity.
Qed.

(** ** The intake: base64 and PNG *)

Ltac ndiv := zify; Z.to_euclidean_division_equations; lia.

Lemma b64_index_char n : (n < 64)%N -> b64_index (b64_char n) = Some n.
Proof.
  intros H. unfold b64_char.
  destruct (N.ltb_spec n 26).
  { unfold b64_index.
    replace ((65 <=? 65 + n) && (65 + n <=? 90))%N with true
      by (symmetry; apply andb_true_iff; split; apply N.leb_le; lia).
    f_equal. lia. }
  destruct (N.ltb_spec n 52).
  { unfold b64_index.
    replace ((65 <=? 97 + (n - 26)) && (97 + (n - 26) <=? 90))%N with false
      by (symmetry; apply andb_false_iff; right; apply N.leb_gt; lia).
    replace ((97 <=? 97 + (n - 26)) && (97 + (n - 26) <=? 122))%N with true
      by (symmetry; apply andb_true_iff; split; apply N.leb_le; lia).
    f_equal. lia. }
  destruct (N.ltb_spec n 62).
  { unfold b64_index.
    replace ((65 <=? 48 + (n - 52)) && (48 + (n - 52) <=? 90))%N with false
      by (symmetry; apply andb_false_iff; left; apply N.leb_gt; lia).
    replace ((97 <=? 48 + (n - 52)) && (48 + (n - 52) <=? 122))%N with false
      by (symmetry; apply andb_false_iff; left; apply N.leb_gt; lia).
    replace ((48 <=? 48 + (n - 52)) && (48 + (n - 52) <=? 57))%N with true
      by (symmetry; apply andb_true_iff; split; apply N.leb_le; lia).
    f_equal. lia. }
  destruct (N.eqb_spec n 62); [subst; reflexivity|].
  assert (n = 63%N) by lia. subst. reflexivity.
Qed.




Lemma list_ind3 {A} (P : list A -> Prop) :
  P [] -> (forall a, P [a]) -> (forall a b, P [a; b]) ->
  (forall a b c l, P l -> P (a :: b :: c :: l)) ->
  forall l, P l.
Proof.
  intros H0 H1 H2 H3.
  fix IH 1. intros [|a [|b [|c l]]].
  - exact H0.
  - apply H1.
  - apply H2.
  - apply H3. apply IH.
Qed.



(** ** json.dumps: numbers *)

Lemma int_of_digits_app xs c :
  int_of_digits (xs ++ [c]) = (int_of_digits xs * 10 + (Z.of_N c - 48))%Z.
Proof. unfold int_of_digits. rewrite fold_left_app. reflexivity. Qed.

Lemma digit_char_is_digit n : (n < 10)%N -> is_digit (48 + n)%N = true.
Proof.
  intros H. unfold is_digit. apply andb_true_iff. split; apply N.leb_le; lia.
Qed.

Lemma digits_fuel_S f n :
  digits_fuel (S f) n
  = (if (n <? 10)%N then [] else digits_fuel f (n / 10)%N) ++ [(48 + n mod 10)%N].
Proof. reflexivity. Qed.

Lemma digits_fuel_spec f :
  forall n, (n < 2 ^ N.of_nat (S f))%N ->
  int_of_digits (digits_fuel (S f) n) = Z.of_N n
  /\ forallb is_digit (digits_fuel (S f) n) = true
  /\ ((n = 0%N /\ digits_fuel (S f) n = [chr "0"])
      \/ (n <> 0%N /\ exists d ds, digits_fuel (S f) n = d :: ds
                                   /\ nonzero_digit d = true)).
Proof.
  induction f as [|f IH]; intros n L; rewrite digits_fuel_S;
    destruct (N.ltb_spec n 10) as [Hs|Hs].
  1, 3: cbn [app]; split; [|split].
  1, 4: unfold int_of_digits; cbn [fold_left]; ndiv.
  1, 3: cbn [forallb]; rewrite digit_char_is_digit by ndiv; reflexivity.
  1, 2: destruct (N.eq_dec n 0) as [->|Z]; [left; auto|right];
        (split; [exact Z|]); exists (48 + n mod 10)%N, [];
        (split; [reflexivity|]);
        unfold nonzero_digit; apply andb_true_iff; split; apply N.leb_le; ndiv.
  - exfalso. change (2 ^ N.of_nat 1)%N with 2%N in L. lia.
  - assert (L' : (n / 10 < 2 ^ N.of_nat (S f))%N).
    { rewrite (Nat2N.inj_succ (S f)), N.pow_succ_r' in L.
      remember (2 ^ N.of_nat (S f))%N as p. clear Heqp IH. ndiv. }
    destruct (IH _ L') as [V [D Sh]].
    split; [|split].
    + rewrite int_of_digits_app, V. ndiv.
    + rewrite forallb_app, D. cbn [forallb].
      rewrite digit_char_is_digit by ndiv. reflexivity.
    + right. split; [lia|].
      destruct Sh as [[Z _]|[_ [d [ds [E Dn]]]]]; [exfalso; ndiv|].
      rewrite E. exists d, (ds ++ [(48 + n mod 10)%N]). auto.
Qed.

Lemma digits_of_spec n :
  int_of_digits (digits_of n) = Z.of_N n /\ int_shape (digits_of n).
Proof.
  unfold digits_of.
  assert (B : (n < 2 ^ N.of_nat (S (N.to_nat (N.log2 n))))%N).
  { destruct (N.eq_dec n 0) as [->|Z]; [reflexivity|].
    rewrite Nat2N.inj_succ, N2Nat.id. apply N.log2_spec. lia. }
  destruct (digits_fuel_spec _ _ B) as [V [D Sh]].
  split; [exact V|].
  destruct Sh as [[_ E]|[_ [d [ds [E Dn]]]]].
  - left. exact E.
  - right. exists d, ds. split; [exact E|]. split; [exact Dn|].
    rewrite E in D. cbn [forallb] in D. apply andb_true_iff in D. apply D.
Qed.

(** ** json.dumps: strings *)

Lemma scanstring_close hi acc r :
  scanstring hi acc (QUOTE :: r) = Some (rev acc, r).
Proof. reflexivity. Qed.

Lemma scanstring_plain hi acc c r :
  (c =? QUOTE)%N = false -> (c =? BACKSLASH)%N = false -> (c <=? 0x1f)%N = false ->
  scanstring hi acc (c :: r) = scanstring false (c :: acc) r.
Proof. intros E1 E2 E3. cbn [scanstring]. rewrite E1, E2, E3. reflexivity. Qed.

Lemma scanstring_short hi acc e c' r :
  (e =? chr "u")%N = false -> unescape e = Some c' ->
  scanstring hi acc (BACKSLASH :: e :: r) = scanstring false (c' :: acc) r.
Proof.
  intros E U. cbn [scanstring].
  change (BACKSLASH =? QUOTE)%N with false.
  change (BACKSLASH =? BACKSLASH)%N with true. cbv iota.
  rewrite E, U. reflexivity.
Qed.

Lemma scanstring_u hi acc h1 h2 h3 h4 u r :
  hex4 h1 h2 h3 h4 = Some u ->
  scanstring hi acc (BACKSLASH :: chr "u" :: h1 :: h2 :: h3 :: h4 :: r)
  = if hi && is_low_surrogate u
    then scanstring false (join_surrogates (hd 0%N acc) u :: tl acc) r
    else scanstring (is_high_surrogate u) (u :: acc) r.
Proof.
  intros H. cbn [scanstring].
  change (BACKSLASH =? QUOTE)%N with false.
  change (BACKSLASH =? BACKSLASH)%N with true.
  change (chr "u" =? chr "u")%N with true. cbv iota.
  rewrite H. reflexivity.
Qed.

Lemma hex_value_digit n : (n < 16)%N -> hex_value (hex_digit n) = Some n.
Proof.
  intros H. unfold hex_digit. destruct (N.ltb_spec n 10).
  - unfold hex_value.
    replace ((48 <=? 48 + n) && (48 + n <=? 57))%N with true
      by (symmetry; apply andb_true_iff; split; apply N.leb_le; lia).
    f_equal. lia.
  - unfold hex_value.
    replace ((48 <=? 97 + (n - 10)) && (97 + (n - 10) <=? 57))%N with false
      by (symmetry; apply andb_false_iff; right; apply N.leb_gt; lia).
    replace ((97 <=? 97 + (n - 10)) && (97 + (n - 10) <=? 102))%N with true
      by (symmetry; apply andb_true_iff; split; apply N.leb_le; lia).
    f_equal. lia.
Qed.

Lemma hex4_u_escape u :
  (u < 0x10000)%N ->
  hex4 (hex_digit (u / 0x1000)) (hex_digit ((u / 0x100) mod 16))
       (hex_digit ((u / 0x10) mod 16)) (hex_digit (u mod 16)) = Some u.
Proof.
  intros H. unfold hex4. rewrite !hex_value_digit by ndiv. f_equal. ndiv.
Qed.

Lemma scanstring_u_escape hi acc u r :
  (u < 0x10000)%N ->
  scanstring hi acc (u_escape u ++ r)
  = if hi && is_low_surrogate u
    then scanstring false (join_surrogates (hd 0%N acc) u :: tl acc) r
    else scanstring (is_high_surrogate u) (u :: acc) r.
Proof.
  intros H. unfold u_escape. cbn [app].
  apply scanstring_u. apply hex4_u_escape. exact H.
Qed.

(** What [s] starts with is no low surrogate. *)
Definition no_low_start (s : pystr) : Prop := not_starting is_low_surrogate s.

Lemma pair_free_tail c s :
  has_surrogate_pair (c :: s) = false ->
  has_surrogate_pair s = false
  /\ (is_high_surrogate c = true -> no_low_start s).
Proof.
  cbn [has_surrogate_pair]. intros H. apply orb_false_iff in H as [H1 H2].
  split; [exact H2|]. intros Hc. destruct s as [|d s]; [exact I|].
  rewrite Hc in H1. exact H1.
Qed.

(** [scanstring] reads back what [encode_basestring_ascii] writes, when
    no high surrogate of the string is followed by a low one. *)
Lemma scanstring_escaped s :
  forall hi acc t,
  valid_str s = true -> has_surrogate_pair s = false ->
  (hi = true -> no_low_start s) ->
  scanstring hi acc (flat_map escape_char s ++ QUOTE :: t) = Some (rev acc ++ s, t).
Proof.
  induction s as [|c s IH]; intros hi acc t V P L.
  - cbn [flat_map app]. rewrite scanstring_close, app_nil_r. reflexivity.
  - cbn [valid_str forallb] in V. apply andb_true_iff in V as [Vc V].
    apply N.leb_le in Vc. destruct (pair_free_tail c s P) as [P' Lc].
    assert (R : forall a : pystr, rev (c :: a) ++ s = rev a ++ c :: s).
    { intros a. cbn [rev]. rewrite <- app_assoc. reflexivity. }
    cbn [flat_map]. rewrite <- app_assoc. unfold escape_char.
    destruct (N.eqb_spec c QUOTE) as [->|N1].
    { cbn [app]. rewrite (scanstring_short _ _ _ QUOTE) by reflexivity.
      rewrite IH by (assumption || discriminate). rewrite R; reflexivity. }
    destruct (N.eqb_spec c BACKSLASH) as [->|N2].
    { cbn [app]. rewrite (scanstring_short _ _ _ BACKSLASH) by reflexivity.
      rewrite IH by (assumption || discriminate). rewrite R; reflexivity. }
    destruct (N.eqb_spec c 10) as [->|N3].
    { cbn [app]. rewrite (scanstring_short _ _ _ 10%N) by reflexivity.
      rewrite IH by (assumption || discriminate). rewrite R; reflexivity. }
    destruct (N.eqb_spec c 13) as [->|N4].
    { cbn [app]. rewrite (scanstring_short _ _ _ 13%N) by reflexivity.
      rewrite IH by (assumption || discriminate). rewrite R; reflexivity. }
    destruct (N.eqb_spec c 9) as [->|N5].
    { cbn [app]. rewrite (scanstring_short _ _ _ 9%N) by reflexivity.
      rewrite IH by (assumption || discriminate). rewrite R; reflexivity. }
    destruct (N.eqb_spec c 8) as [->|N6].
    { cbn [app]. rewrite (scanstring_short _ _ _ 8%N) by reflexivity.
      rewrite IH by (assumption || discriminate). rewrite R; reflexivity. }
    destruct (N.eqb_spec c 12) as [->|N7].
    { cbn [app]. rewrite (scanstring_short _ _ _ 12%N) by reflexivity.
      rewrite IH by (assumption || discriminate). rewrite R; reflexivity. }
    destruct ((32 <=? c) && (c <=? 126))%N eqn:Pr.
    { apply andb_true_iff in Pr as [A B]. apply N.leb_le in A. apply N.leb_le in B.
      cbn [app]. rewrite scanstring_plain;
        [|apply N.eqb_neq; assumption|apply N.eqb_neq; assumption|apply N.leb_gt; lia].
      rewrite IH by (assumption || discriminate). rewrite R; reflexivity. }
    destruct (N.ltb_spec c 65536) as [Lt|Ge].
    { rewrite scanstring_u_escape by exact Lt.
      assert (J : hi && is_low_surrogate c = false).
      { destruct hi; [|reflexivity]. cbn [andb]. apply (L eq_refl). }
      rewrite J. rewrite IH by assumption. rewrite R; reflexivity. }
    set (n := (c - 65536)%N).
    assert (Hn : (n < 0x100000)%N) by (subst n; lia).
    rewrite <- app_assoc.
    rewrite scanstring_u_escape by ndiv.
    assert (J1 : is_low_surrogate (55296 + n / 1024) = false).
    { unfold is_low_surrogate. apply andb_false_iff. left. apply N.leb_gt. ndiv. }
    assert (J2 : is_high_surrogate (55296 + n / 1024) = true).
    { unfold is_high_surrogate. apply andb_true_iff. split; apply N.leb_le; ndiv. }
    rewrite J1, andb_false_r, J2.
    rewrite scanstring_u_escape by ndiv.
    assert (J3 : is_low_surrogate (56320 + n mod 1024) = true).
    { unfold is_low_surrogate. apply andb_true_iff. split; apply N.leb_le; ndiv. }
    rewrite J3. cbn [andb hd tl].
    assert (J4 : join_surrogates (55296 + n / 1024) (56320 + n mod 1024) = c).
    { unfold join_surrogates. subst n. ndiv. }
    rewrite J4. rewrite IH by (assumption || discriminate).
    rewrite R; reflexivity.
Qed.

(** ** json.dumps, then json.loads *)

Lemma array_items_more_fuel f f' acc s :
  f <= f' -> array_items f acc s <> NoFuel ->
  array_items f' acc s = array_items f acc s.
Proof.
  induction 1 as [|f' Hle IH]; [reflexivity|]. intros H.
  rewrite <- (IH H). apply fuel_step. rewrite (IH H). exact H.
Qed.

Lemma object_items_more_fuel f f' d s :
  f <= f' -> object_items f d s <> NoFuel ->
  object_items f' d s = object_items f d s.
Proof.
  induction 1 as [|f' Hle IH]; [reflexivity|]. intros H.
  rewrite <- (IH H). apply fuel_step. rewrite (IH H). exact H.
Qed.

Lemma scan_once_done_more f f' s x :
  scan_once f s = Done x -> f <= f' -> scan_once f' s = Done x.
Proof.
  intros H L. rewrite (scan_once_more_fuel f f' s L); [exact H|].
  rewrite H. discriminate.
Qed.

Lemma array_items_done_more f f' acc s x :
  array_items f acc s = Done x -> f <= f' -> array_items f' acc s = Done x.
Proof.
  intros H L. rewrite (array_items_more_fuel f f' acc s L); [exact H|].
  rewrite H. discriminate.
Qed.

Lemma object_items_done_more f f' d s x :
  object_items f d s = Done x -> f <= f' -> object_items f' d s = Done x.
Proof.
  intros H L. rewrite (object_items_more_fuel f f' d s L); [exact H|].
  rewrite H. discriminate.
Qed.

(** Induction on a value and on the values inside it. *)
Lemma value_nested_ind (P : value -> Prop) :
  P PyNone -> (forall b, P (PyBool b)) -> (forall z, P (PyInt z)) ->
  (forall f, P (PyFloat f)) -> (forall s, P (PyStr s)) ->
  (forall items, Forall P items -> P (PyList items)) ->
  (forall entries, Forall (fun kv => P (snd kv)) entries -> P (PyDict entries)) ->
  forall v, P v.
Proof.
  intros H1 H2 H3 H4 H5 H6 H7.
  fix IH 1. intros [| b | z | f | s | items | entries].
  - exact H1.
  - apply H2.
  - apply H3.
  - apply H4.
  - apply H5.
  - apply H6. induction items as [|x items IHl]; constructor.
    + apply IH.
    + exact IHl.
  - apply H7. induction entries as [|[k x] entries IHl]; constructor.
    + apply IH.
    + exact IHl.
Qed.

Lemma str_eqb_eq a b : str_eqb a b = true <-> a = b.
Proof.
  revert b. induction a as [|x a IH]; intros [|y b]; simpl; split;
    try discriminate; try reflexivity.
  - intros H. apply andb_true_iff in H as [E H]. apply N.eqb_eq in E.
    apply IH in H. congruence.
  - intros H. inversion H; subst. rewrite N.eqb_refl. apply IH. reflexivity.
Qed.

Lemma dict_set_fresh d k v :
  ~ In k (map fst d) -> dict_set d k v = d ++ [(k, v)].
Proof.
  induction d as [|[k' w] d IH]; intros N; [reflexivity|].
  cbn [dict_set]. destruct (str_eqb k' k) eqn:E.
  - exfalso. apply N. left. apply str_eqb_eq. exact E.
  - cbn [app]. f_equal. apply IH. intros K. apply N. right. exact K.
Qed.

Lemma dict_of_fresh entries :
  forall d, NoDup (map fst (d ++ entries)) -> dict_of entries d = d ++ entries.
Proof.
  induction entries as [|[k v] entries IH]; intros d N.
  - cbn. rewrite app_nil_r. reflexivity.
  - cbn [dict_of fold_left fst snd]. fold (dict_of entries (dict_set d k v)).
    rewrite dict_set_fresh.
    + rewrite IH; rewrite <- app_assoc; [reflexivity|exact N].
    + rewrite map_app in N. apply NoDup_remove_2 in N.
      intros K. apply N. apply in_or_app. left. exact K.
Qed.

Lemma newline_indent_ws level : forallb json_ws (newline_indent level) = true.
Proof.
  unfold newline_indent. cbn [forallb]. change (json_ws 10%N) with true.
  cbn [andb]. induction (2 * level) as [|n IH]; [reflexivity|].
  cbn [repeat forallb]. rewrite IH. reflexivity.
Qed.

Lemma join_cons2 sep a b l : join sep (a :: b :: l) = a ++ sep ++ join sep (b :: l).
Proof. reflexivity. Qed.

Lemma join_head sep c r ps : exists r', join sep ((c :: r) :: ps) = c :: r'.
Proof. destruct ps as [|p ps]; cbn [join app]; eauto. Qed.

Lemma skip_ws_join sep p ps X :
  (exists c r, p = c :: r /\ value_start c = true) ->
  skip_ws (join sep (p :: ps) ++ X) = join sep (p :: ps) ++ X.
Proof.
  intros [c [r [-> C]]]. destruct ps as [|q ps]; cbn [join app];
    apply skip_ws_visible, value_start_not_ws, C.
Qed.

Lemma value_start_not_close c :
  value_start c = true -> (c =? chr "]")%N = false /\ (c =? chr "}")%N = false.
Proof.
  unfold value_start. intros H.
  repeat (apply orb_true_iff in H as [H|H]);
    try (apply N.eqb_eq in H; subst; split; reflexivity).
  unfold is_digit in H. apply andb_true_iff in H as [_ B]. apply N.leb_le in B.
  split; apply N.eqb_neq; cbn; lia.
Qed.

(** The loop of [_parse_array] on the items [encode] writes. *)
Lemma array_items_join level items :
  Forall (readable level) items -> items <> [] ->
  forall acc ws t, forallb json_ws ws = true ->
  exists f,
    array_items f acc
      (join (py "," ++ newline_indent level) (map (encode level) items)
       ++ ws ++ chr "]" :: t)
    = Done (PyList (rev acc ++ items), t).
Proof.
  induction 1 as [|x items [Tx Rx] Hrest IH]; intros N acc ws t W; [contradiction|].
  destruct items as [|y items].
  - cbn [map join].
    destruct (Rx (ws ++ chr "]" :: t)) as [f Hf];
      [apply safe_tail_ws; [exact W|reflexivity]|].
    exists (S f). rewrite array_items_S, Hf.
    rewrite skip_ws_app, skip_ws_visible by (exact W || reflexivity).
    rewrite N.eqb_refl. reflexivity.
  - cbn [map]. rewrite join_cons2. rewrite <- !app_assoc.
    set (rest := join (py "," ++ newline_indent level)
                   (encode level y :: map (encode level) items)).
    destruct (Rx ((py "," ++ newline_indent level) ++ rest ++ ws ++ chr "]" :: t))
      as [f1 Hf1]; [reflexivity|].
    destruct (IH ltac:(discriminate) (x :: acc) ws t W) as [f2 Hf2].
    cbn [map] in Hf2. fold rest in Hf2.
    exists (S (Nat.max f1 f2)). rewrite array_items_S.
    rewrite (scan_once_done_more _ _ _ _ Hf1) by lia.
    cbn [py list_ascii_of_string map app skip_ws].
    change (json_ws (chr ",")) with false. cbv iota.
    change (chr "," =? chr "]")%N with false.
    rewrite N.eqb_refl. cbv iota.
    rewrite skip_ws_app by apply newline_indent_ws.
    assert (Sk : skip_ws (rest ++ ws ++ chr "]" :: t) = rest ++ ws ++ chr "]" :: t).
    { inversion Hrest as [|? ? [[Hd _] _] _]; subst.
      subst rest. apply skip_ws_join. exact Hd. }
    rewrite Sk. rewrite (array_items_done_more _ _ _ _ _ Hf2) by lia.
    cbn [rev]. rewrite <- app_assoc. reflexivity.
Qed.

(** The loop of [_parse_object] on the entries [encode] writes. *)
Lemma object_items_join level entries :
  Forall (fun kv => key_ok (fst kv) /\ readable level (snd kv)) entries ->
  entries <> [] ->
  forall d ws t, forallb json_ws ws = true ->
  exists f,
    object_items f d
      (join (py "," ++ newline_indent level) (map (encode_entry level) entries)
       ++ ws ++ chr "}" :: t)
    = Done (PyDict (dict_of entries d), t).
Proof.
  induction 1 as [|[k x] entries [[Vk Pk] [Tx Rx]] Hrest IH];
    intros N d ws t W; [contradiction|].
  cbn [fst snd] in *.
  assert (Key : forall tail,
            scanstring false [] (flat_map escape_char k ++ QUOTE :: tail)
            = Some (k, tail)).
  { intros tail. rewrite scanstring_escaped by (assumption || discriminate).
    reflexivity. }
  assert (Val : forall f tail,
            scan_once f (skip_ws (chr " " :: encode level x ++ tail))
            = scan_once f (encode level x ++ tail)).
  { intros f tail. cbn [skip_ws]. change (json_ws (chr " ")) with true. cbv iota.
    rewrite skip_ws_token by exact Tx. reflexivity. }
  destruct entries as [|e entries].
  - cbn [map join]. unfold encode_entry, encode_basestring_ascii. cbn [fst snd].
    destruct (Rx (ws ++ chr "}" :: t)) as [f Hf];
      [apply safe_tail_ws; [exact W|reflexivity]|].
    exists (S f). rewrite <- !app_assoc. cbn [app].
    rewrite object_items_S. rewrite N.eqb_refl.
    rewrite <- app_assoc. cbn [app]. rewrite Key.
    cbn [py list_ascii_of_string map app skip_ws].
    change (json_ws (chr ":")) with false. cbv iota. rewrite N.eqb_refl.
    rewrite Val, Hf.
    rewrite skip_ws_app, skip_ws_visible by (exact W || reflexivity).
    rewrite N.eqb_refl. reflexivity.
  - cbn [map]. rewrite join_cons2. rewrite <- !app_assoc.
    set (rest := join (py "," ++ newline_indent level)
                   (encode_entry level e :: map (encode_entry level) entries)).
    destruct (Rx ((py "," ++ newline_indent level) ++ rest ++ ws ++ chr "}" :: t))
      as [f1 Hf1]; [reflexivity|].
    destruct (IH ltac:(discriminate) (dict_set d k x) ws t W) as [f2 Hf2].
    cbn [map] in Hf2. fold rest in Hf2.
    exists (S (Nat.max f1 f2)).
    unfold encode_entry at 1, encode_basestring_ascii. cbn [fst snd].
    rewrite <- !app_assoc. cbn [app].
    rewrite object_items_S. rewrite N.eqb_refl.
    rewrite <- app_assoc. cbn [app]. rewrite Key.
    cbn [py list_ascii_of_string map app skip_ws].
    change (json_ws (chr ":")) with false. cbv iota. rewrite N.eqb_refl.
    rewrite Val.
    change (chr "," :: newline_indent level ++ rest ++ ws ++ chr "}" :: t)
      with ((py "," ++ newline_indent level) ++ rest ++ ws ++ chr "}" :: t).
    rewrite (scan_once_done_more _ _ _ _ Hf1) by lia.
    cbn [py list_ascii_of_string map app skip_ws].
    change (json_ws (chr ",")) with false. cbv iota.
    change (chr "," =? chr "}")%N with false.
    rewrite N.eqb_refl. cbv iota.
    rewrite skip_ws_app by apply newline_indent_ws.
    assert (Sk : skip_ws (rest ++ ws ++ chr "}" :: t) = rest ++ ws ++ chr "}" :: t).
    { subst rest. apply skip_ws_join. unfold encode_entry, encode_basestring_ascii.
      eexists QUOTE, _. split; [reflexivity|reflexivity]. }
    rewrite Sk. rewrite (object_items_done_more _ _ _ _ _ Hf2) by lia.
    reflexivity.
Qed.

Lemma encode_list level x xs :
  encode level (PyList (x :: xs))
  = py "[" ++ newline_indent (S level)
      ++ join (py "," ++ newline_indent (S level)) (map (encode (S level)) (x :: xs))
      ++ newline_indent level ++ py "]".
Proof. reflexivity. Qed.

Lemma encode_dict level e es :
  encode level (PyDict (e :: es))
  = py "{" ++ newline_indent (S level)
      ++ join (py "," ++ newline_indent (S level))
           (map (encode_entry (S level)) (e :: es))
      ++ newline_indent level ++ py "}".
Proof. reflexivity. Qed.

(** A number lexeme is the text of its value. *)
Lemma number_readable sg ip fr ex :
  sign_shape sg -> int_shape ip -> frac_shape fr -> exp_shape ex ->
  token_ends (sg ++ ip ++ fr ++ ex)
  /\ forall t, safe_tail t = true ->
       scan_once 1 ((sg ++ ip ++ fr ++ ex) ++ t)
       = Done (number_value sg ip fr ex, t).
Proof.
  intros Sg Ip Fr Ex. split.
  - split.
    + destruct (number_lexeme_head sg ip fr ex [] Sg Ip) as [c0 [r0 [E0 [Hc _]]]].
      rewrite app_nil_r in E0. exists c0, r0. split; [exact E0|].
      destruct Hc as [->|D]; [reflexivity|apply is_digit_value_start; assumption].
    + destruct (number_lexeme_last sg ip fr ex Ip Fr Ex) as [p [d [E0 D]]].
      exists p, d. split; [exact E0|apply is_digit_visible; assumption].
  - intros t T. norm_app.
    rewrite scan_once_number, match_number_complete by assumption. reflexivity.
Qed.

Section RoundTrip.

(** [float.__repr__] of a finite float is a number with a fraction or an
    exponent that [float] reads back as the same float. *)
Hypothesis double_repr_reads :
  forall x, match_number (double_repr x) = Some (PyFloat (FFinite x), []).

Lemma encode_readable v :
  valid_value v -> no_surrogate_pairs v = true -> forall level, readable level v.
Proof.
  induction v as [| b | z | f | s | items IH | entries IH] using value_nested_ind;
    intros V P level; unfold readable.
  - split; [apply (token_ends_intro _ (py "ul")); reflexivity|].
    intros t _. exists 1. reflexivity.
  - destruct b.
    + split; [apply (token_ends_intro _ (py "ru")); reflexivity|].
      intros t _. exists 1. reflexivity.
    + split; [apply (token_ends_intro _ (py "als")); reflexivity|].
      intros t _. exists 1. reflexivity.
  - cbn [encode]. unfold int_repr.
    destruct (digits_of_spec (Z.abs_N z)) as [Vd Sh].
    destruct (Z.ltb_spec z 0) as [Neg|Pos].
    + destruct (number_readable [chr "-"] (digits_of (Z.abs_N z)) [] [])
        as [T R]; [right; reflexivity|exact Sh|left; reflexivity|left; reflexivity|].
      rewrite !app_nil_r in T, R. cbn [app] in T, R. split; [exact T|].
      intros t S. exists 1. cbn [app]. rewrite (R t S). unfold number_value.
      rewrite Vd. do 2 f_equal. f_equal. lia.
    + destruct (number_readable [] (digits_of (Z.abs_N z)) [] [])
        as [T R]; [left; reflexivity|exact Sh|left; reflexivity|left; reflexivity|].
      rewrite !app_nil_r in T, R. cbn [app] in T, R. split; [exact T|].
      intros t S. exists 1. rewrite (R t S). unfold number_value.
      rewrite Vd. do 2 f_equal. f_equal. lia.
  - destruct f as [|[|]|x]; cbn [encode float_repr].
    + split; [apply (token_ends_intro _ (py "a")); reflexivity|].
      intros t _. exists 1. reflexivity.
    + split; [apply (token_ends_intro _ (py "Infinit")); reflexivity|].
      intros t _. exists 1. reflexivity.
    + split; [apply (token_ends_intro _ (py "nfinit")); reflexivity|].
      intros t _. exists 1. reflexivity.
    + destruct (match_number_sound _ _ _ (double_repr_reads x))
        as [sg [ip [fr [ex [Sg [Ip [Fr [Ex [E Ev]]]]]]]]].
      rewrite app_nil_r in E. rewrite !app_assoc in E. rewrite <- !app_assoc in E.
      destruct (number_readable sg ip fr ex Sg Ip Fr Ex) as [T R].
      rewrite E. split; [exact T|]. intros t S. exists 1.
      rewrite (R t S), <- Ev. reflexivity.
  - inversion V as [| | | |s' Vs| |]; subst. cbn [no_surrogate_pairs] in P.
    apply negb_true_iff in P. cbn [encode]. unfold encode_basestring_ascii. split.
    + apply (token_ends_intro QUOTE); reflexivity.
    + intros t _. exists 1. norm_app. cbn [app]. rewrite scan_once_string.
      rewrite scanstring_escaped by (assumption || discriminate). reflexivity.
  - inversion V as [| | | | |items' Vi|]; subst. cbn [no_surrogate_pairs] in P.
    assert (R : Forall (readable (S level)) items).
    { rewrite forallb_forall in P. rewrite Forall_forall in *.
      intros x Hx. apply IH; auto. }
    destruct items as [|x xs].
    + split; [apply (token_ends_intro _ []); reflexivity|].
      intros t _. exists 1. reflexivity.
    + rewrite encode_list. split.
      * change (py "[") with [chr "["]. cbn [app].
        rewrite !app_assoc. apply token_ends_intro; reflexivity.
      * intros t _.
        destruct (array_items_join (S level) (x :: xs) R ltac:(discriminate)
                    [] (newline_indent level) t (newline_indent_ws level))
          as [f Hf].
        exists (S f). change (py "[") with [chr "["]. change (py "]") with [chr "]"].
        norm_app. cbn [app]. rewrite scan_once_array.
        rewrite skip_ws_app by apply newline_indent_ws.
        assert (Hd : exists c r, encode (S level) x = c :: r /\ value_start c = true).
        { inversion R as [|? ? [[Hd _] _] _]; subst. exact Hd. }
        cbn [map] in Hf |- *.
        rewrite skip_ws_join by exact Hd.
        remember (join (py "," ++ newline_indent (S level))
                    (encode (S level) x :: map (encode (S level)) xs)) as J eqn:EJ.
        assert (HJ : exists c r, J = c :: r /\ value_start c = true).
        { destruct Hd as [c [r [E C]]]. subst J. rewrite E.
          destruct (join_head (py "," ++ newline_indent (S level)) c r
                      (map (encode (S level)) xs)) as [r' Er].
          exists c, r'. split; [exact Er|exact C]. }
        destruct HJ as [c [r [-> C]]]. cbn [app] in Hf |- *.
        rewrite (proj1 (value_start_not_close c C)). exact Hf.
  - inversion V as [| | | | | |entries' Nd Ve]; subst. cbn [no_surrogate_pairs] in P.
    assert (R : Forall (fun kv => key_ok (fst kv) /\ readable (S level) (snd kv))
                  entries).
    { rewrite forallb_forall in P. rewrite Forall_forall in *.
      intros kv Hkv. specialize (P kv Hkv). apply andb_true_iff in P as [Pk Pv].
      apply negb_true_iff in Pk. destruct (Ve kv Hkv) as [Vk Vv].
      split; [split; assumption|]. apply IH; auto. }
    destruct entries as [|e es].
    + split; [apply (token_ends_intro _ []); reflexivity|].
      intros t _. exists 1. reflexivity.
    + rewrite encode_dict. split.
      * change (py "{") with [chr "{"]. cbn [app].
        rewrite !app_assoc. apply token_ends_intro; reflexivity.
      * intros t _.
        destruct (object_items_join (S level) (e :: es) R ltac:(discriminate)
                    [] (newline_indent level) t (newline_indent_ws level))
          as [f Hf].
        rewrite (dict_of_fresh (e :: es) []) in Hf by exact Nd. cbn [app] in Hf.
        exists (S f). change (py "{") with [chr "{"]. change (py "}") with [chr "}"].
        norm_app. cbn [app]. rewrite scan_once_object.
        rewrite skip_ws_app by apply newline_indent_ws.
        assert (Hd : exists c r, encode_entry (S level) e = c :: r
                                 /\ value_start c = true).
        { unfold encode_entry, encode_basestring_ascii.
          eexists QUOTE, _. split; reflexivity. }
        cbn [map] in Hf |- *.
        rewrite skip_ws_join by exact Hd.
        remember (join (py "," ++ newline_indent (S level))
                    (encode_entry (S level) e :: map (encode_entry (S level)) es))
          as J eqn:EJ.
        assert (HJ : exists r, J = QUOTE :: r).
        { subst J. unfold encode_entry at 1, encode_basestring_ascii.
          cbn [app]. apply join_head. }
        destruct HJ as [r ->]. cbn [app] in Hf |- *.
        change (QUOTE =? chr "}")%N with false. cbv iota. exact Hf.
Qed.

(** A value with valid strings, distinct keys and no surrogate pair is
    read back from its dump. *)
Lemma loads_dumps v :
  valid_value v -> no_surrogate_pairs v = true ->
  json_loads (json_dumps v) = Some v.
Proof.
  intros V P. destruct (encode_readable v V P 0) as [T R].
  apply json_text_loads. split; [exact T|]. intros f t L S.
  destruct (R t S) as [f0 H0]. apply (scan_once_fuel_done _ _ _ H0). exact L.
Qed.

End RoundTrip.

(** ** What json.loads returns is a valid value *)

Lemma valid_str_app a b : valid_str (a ++ b) = valid_str a && valid_str b.
Proof. apply forallb_app. Qed.

Lemma valid_str_rev a : valid_str (rev a) = valid_str a.
Proof. apply forallb_rev. Qed.

Lemma hex_value_bound c n : hex_value c = Some n -> (n < 16)%N.
Proof.
  unfold hex_value.
  repeat match goal with
  | |- context [if ?b then _ else _] => destruct b eqn:?
  end; intros E; inversion E; subst;
  repeat match goal with
  | H : (_ && _)%bool = true |- _ => apply andb_true_iff in H as [? ?]
  | H : (_ <=? _)%N = true |- _ => apply N.leb_le in H
  end; lia.
Qed.

Lemma hex4_bound a b c d u : hex4 a b c d = Some u -> (u < 0x10000)%N.
Proof.
  unfold hex4.
  destruct (hex_value a) as [x|] eqn:A; [|discriminate].
  destruct (hex_value b) as [y|] eqn:B; [|discriminate].
  destruct (hex_value c) as [z|] eqn:C; [|discriminate].
  destruct (hex_value d) as [w|] eqn:D; [|discriminate].
  apply hex_value_bound in A, B, C, D. intros E; inversion E; subst. lia.
Qed.

Lemma unescape_bound e c : unescape e = Some c -> (c <= 0x10FFFF)%N.
Proof.
  unfold unescape.
  repeat match goal with
  | |- context [if ?b then _ else _] => destruct b
  end; intros E; inversion E; subst; apply N.leb_le; reflexivity.
Qed.

Lemma scanstring_valid n :
  forall s, List.length s <= n ->
  forall hi acc str rest,
  scanstring hi acc s = Some (str, rest) ->
  valid_str s = true -> valid_str acc = true ->
  (hi = true -> exists h a, acc = h :: a /\ is_high_surrogate h = true) ->
  valid_str str = true.
Proof.
  induction n as [|n IH]; intros s Hlen hi acc str rest H Vs Va Hh.
  - destruct s; [discriminate|simpl in Hlen; lia].
  - destruct s as [|c r]; [discriminate|]. cbn [scanstring] in H.
    cbn [valid_str forallb] in Vs. apply andb_true_iff in Vs as [Vc Vr].
    destruct (c =? QUOTE)%N.
    { inversion H; subst. rewrite valid_str_rev. exact Va. }
    destruct (c =? BACKSLASH)%N.
    + destruct r as [|e r1]; [discriminate|].
      cbn [forallb] in Vr. apply andb_true_iff in Vr as [Ve Vr].
      destruct (e =? chr "u")%N.
      * destruct r1 as [|h1 [|h2 [|h3 [|h4 r2]]]]; try discriminate.
        cbn [forallb] in Vr.
        repeat (apply andb_true_iff in Vr as [_ Vr]).
        destruct (hex4 h1 h2 h3 h4) as [u|] eqn:Eh; [|discriminate].
        apply hex4_bound in Eh.
        destruct (hi && is_low_surrogate u) eqn:Ej.
        -- apply andb_true_iff in Ej as [Ehi El]. subst hi.
           destruct (Hh eq_refl) as [h [a [-> Hi]]].
           apply (IH r2 ltac:(simpl in Hlen |- *; lia) _ _ _ _ H Vr);
             [|discriminate].
           cbn [hd tl valid_str forallb] in Va |- *.
           apply andb_true_iff in Va as [_ Va]. rewrite Va, andb_true_r.
           unfold is_high_surrogate in Hi. unfold is_low_surrogate in El.
           apply andb_true_iff in Hi as [H1 H2]. apply andb_true_iff in El as [L1 L2].
           apply N.leb_le in H1, H2, L1, L2. apply N.leb_le.
           unfold join_surrogates. lia.
        -- apply (IH r2 ltac:(simpl in Hlen |- *; lia) _ _ _ _ H Vr).
           ++ cbn [valid_str forallb]. fold (valid_str acc). rewrite Va, andb_true_r.
              apply N.leb_le. lia.
           ++ intros Hi. exists u, acc. auto.
      * destruct (unescape e) as [c'|] eqn:Ee; [|discriminate].
        apply (IH r1 ltac:(simpl in Hlen |- *; lia) _ _ _ _ H Vr); [|discriminate].
        cbn [valid_str forallb]. fold (valid_str acc). rewrite Va, andb_true_r.
        apply N.leb_le. apply (unescape_bound _ _ Ee).
    + destruct (c <=? 31)%N; [discriminate|].
      apply (IH r ltac:(simpl in Hlen |- *; lia) _ _ _ _ H Vr); [|discriminate].
      cbn [valid_str forallb]. fold (valid_str acc). rewrite Vc, Va. reflexivity.
Qed.

Lemma valid_skip_ws s : valid_str s = true -> valid_str (skip_ws s) = true.
Proof.
  intros V. destruct (skip_ws_split s) as [ws [E _]]. rewrite E in V.
  rewrite valid_str_app in V. apply andb_true_iff in V. apply V.
Qed.

Lemma valid_tail c s : valid_str (c :: s) = true -> valid_str s = true.
Proof. cbn [valid_str forallb]. intros H. apply andb_true_iff in H. apply H. Qed.

Lemma valid_rest_scan f s v rest :
  scan_once f s = Done (v, rest) -> valid_str s = true -> valid_str rest = true.
Proof.
  intros H V. destruct (proj1 (scan_stable f) _ _ _ H) as [pre [E _]].
  rewrite E, valid_str_app in V. apply andb_true_iff in V. apply V.
Qed.

Lemma valid_rest_string hi acc s str rest :
  scanstring hi acc s = Some (str, rest) -> valid_str s = true ->
  valid_str rest = true.
Proof.
  intros H V. destruct (scanstring_stable _ s (le_n _) _ _ _ _ H) as [pre [E _]].
  rewrite E, valid_str_app in V. apply andb_true_iff in V as [_ V].
  apply (valid_tail _ _ V).
Qed.

Lemma dict_set_keys d k v :
  map fst (dict_set d k v)
  = if existsb (fun kv => str_eqb (fst kv) k) d then map fst d else map fst d ++ [k].
Proof.
  induction d as [|[k' w] d IH]; [reflexivity|].
  cbn [dict_set existsb fst]. destruct (str_eqb k' k) eqn:E.
  - reflexivity.
  - cbn [map fst orb]. rewrite IH. destruct (existsb _ d); reflexivity.
Qed.

Lemma dict_set_valid d k v :
  valid_value (PyDict d) -> valid_str k = true -> valid_value v ->
  valid_value (PyDict (dict_set d k v)).
Proof.
  intros V Vk Vv. inversion V as [| | | | | |d' Nd Fd]; subst. constructor.
  - rewrite dict_set_keys.
    destruct (existsb (fun kv => str_eqb (fst kv) k) d) eqn:E; [exact Nd|].
    apply NoDup_app; [exact Nd|constructor; [intros []|constructor]|].
    intros a Ha [Ea|[]]. subst a.
    apply in_map_iff in Ha as [[k' w] [Ek Hin]]. cbn in Ek. subst k'.
    assert (X : existsb (fun kv => str_eqb (fst kv) k) d = true).
    { apply existsb_exists. exists (k, w). split; [exact Hin|].
      apply str_eqb_eq. reflexivity. }
    congruence.
  - clear Nd V. induction d as [|[k' w] d IH]; cbn [dict_set].
    + constructor; [split; assumption|constructor].
    + inversion Fd as [|? ? [Hk Hw] Fd']; subst.
      destruct (str_eqb k' k) eqn:E.
      * constructor; [split; assumption|exact Fd'].
      * constructor; [split; assumption|apply IH; exact Fd'].
Qed.

Lemma scan_valid fuel :
  (forall s v rest, scan_once fuel s = Done (v, rest) ->
     valid_str s = true -> valid_value v)
  /\ (forall acc s v rest, array_items fuel acc s = Done (v, rest) ->
        valid_str s = true -> Forall valid_value acc -> valid_value v)
  /\ (forall d s v rest, object_items fuel d s = Done (v, rest) ->
        valid_str s = true -> valid_value (PyDict d) -> valid_value v).
Proof.
  induction fuel as [|f [IH1 [IH2 IH3]]].
  { repeat split; intros; discriminate. }
  split; [|split].
  - intros s v rest H V. destruct s as [|c r]; [discriminate|].
    rewrite scan_once_S in H. pose proof (valid_tail _ _ V) as Vr.
    destruct (c =? QUOTE)%N.
    { destruct (scanstring false [] r) as [[str rest']|] eqn:Es; [|discriminate].
      inversion H; subst. constructor.
      apply (scanstring_valid _ r (le_n _) _ _ _ _ Es Vr); [reflexivity|discriminate]. }
    destruct (c =? chr "{")%N.
    { pose proof (valid_skip_ws _ Vr) as Vw.
      destruct (skip_ws r) as [|c' r']; [discriminate|].
      destruct (c' =? chr "}")%N.
      - inversion H; subst. constructor; constructor.
      - apply (IH3 _ _ _ _ H Vw). constructor; constructor. }
    destruct (c =? chr "[")%N.
    { pose proof (valid_skip_ws _ Vr) as Vw.
      destruct (skip_ws r) as [|c' r']; [discriminate|].
      destruct (c' =? chr "]")%N.
      - inversion H; subst. constructor; constructor.
      - apply (IH2 _ _ _ _ H Vw). constructor. }
    repeat match type of H with
    | (if ?b then _ else _) = _ =>
        destruct b; [inversion H; subst; constructor|]
    end.
    destruct (match_number (c :: r)) as [[v' rest']|] eqn:M; [|discriminate].
    inversion H; subst.
    destruct (match_number_sound _ _ _ M) as [sg [ip [fr [ex [_ [_ [_ [_ [_ ->]]]]]]]]].
    unfold number_value. destruct fr, ex; constructor.
  - intros acc s v rest H V A. rewrite array_items_S in H.
    destruct (scan_once f s) as [[v1 r1]| |] eqn:E1; try discriminate.
    pose proof (IH1 _ _ _ E1 V) as V1.
    pose proof (valid_skip_ws _ (valid_rest_scan _ _ _ _ E1 V)) as Vw.
    destruct (skip_ws r1) as [|c r']; [discriminate|].
    destruct (c =? chr "]")%N.
    { inversion H; subst. constructor.
      change (rev acc ++ [v1]) with (rev (v1 :: acc)).
      apply Forall_rev. constructor; assumption. }
    destruct (c =? chr ",")%N; [|discriminate].
    apply (IH2 _ _ _ _ H).
    + apply valid_skip_ws. apply (valid_tail _ _ Vw).
    + constructor; assumption.
  - intros d s v rest H V Vd. rewrite object_items_S in H.
    destruct s as [|q r]; [discriminate|]. pose proof (valid_tail _ _ V) as Vr.
    destruct (q =? QUOTE)%N; [|discriminate].
    destruct (scanstring false [] r) as [[key r1]|] eqn:Es; [|discriminate].
    assert (Vk : valid_str key = true).
    { apply (scanstring_valid _ r (le_n _) _ _ _ _ Es Vr); [reflexivity|discriminate]. }
    pose proof (valid_skip_ws _ (valid_rest_string _ _ _ _ _ Es Vr)) as Vw1.
    destruct (skip_ws r1) as [|colon r2]; [discriminate|].
    destruct (colon =? chr ":")%N; [|discriminate].
    pose proof (valid_skip_ws _ (valid_tail _ _ Vw1)) as Vw2.
    destruct (scan_once f (skip_ws r2)) as [[v1 r3]| |] eqn:E1; try discriminate.
    pose proof (IH1 _ _ _ E1 Vw2) as V1.
    pose proof (valid_skip_ws _ (valid_rest_scan _ _ _ _ E1 Vw2)) as Vw3.
    pose proof (dict_set_valid d key v1 Vd Vk V1) as Vd'.
    destruct (skip_ws r3) as [|c r4]; [discriminate|].
    destruct (c =? chr "}")%N.
    { inversion H; subst. exact Vd'. }
    destruct (c =? chr ",")%N; [|discriminate].
    apply (IH3 _ _ _ _ H); [|exact Vd'].
    apply valid_skip_ws. apply (valid_tail _ _ Vw3).
Qed.

Lemma json_loads_valid s v :
  json_loads s = Some v -> valid_str s = true -> valid_value v.
Proof.
  unfold json_loads. destruct s as [|c r]; [discriminate|].
  destruct (c =? BOM)%N; [discriminate|].
  destruct (scan_once (fuel_for (c :: r)) (skip_ws (c :: r)))
    as [[v' rest]| |] eqn:E; try discriminate.
  destruct (skip_ws rest); [|discriminate]. intros H V. inversion H; subst.
  apply (proj1 (scan_valid _) _ _ _ E). apply valid_skip_ws. exact V.
Qed.

(** C6, amended: a result read from a reply, none of whose strings holds
    a high surrogate followed by a low one, is read back from its
    [json.dumps(_, indent=2)] as it was, key for key, given that the
    [repr] of a float reads back as that float. *)
Theorem json_export_round_trip (s : pystr) (v : value) :
  (forall x, match_number (double_repr x) = Some (PyFloat (FFinite x), [])) ->
  valid_str s = true ->
  json_loads s = Some v ->
  no_surrogate_pairs v = true ->
  json_loads (json_dumps v) = Some v.
Proof.
  intros Repr V L P. apply loads_dumps; [exact Repr| |exact P].
  apply (json_loads_valid s v L V).
Qed.

(** * Further properties of the script *)

(** ** The events of a computation, part by part *)

Lemma forallb_fst_bind {A B} (P : event -> bool) (m : M A) (k : A -> M B) :
  forallb P (fst m) = true ->
  (forall a, snd m = Ok a -> forallb P (fst (k a)) = true) ->
  forallb P (fst (bind m k)) = true.
Proof.
  intros Hm Hk. rewrite fst_bind, forallb_app, Hm.
  destruct (snd m) as [a|e]; [apply Hk; reflexivity|reflexivity].
Qed.

Lemma forallb_emit (P : event -> bool) e : P e = true -> forallb P (fst (emit e)) = true.
Proof. intros H. cbn [emit fst forallb]. rewrite H. reflexivity. Qed.

Lemma forallb_lift {A} (P : event -> bool) (r : result A) : forallb P (fst (lift r)) = true.
Proof. reflexivity. Qed.

(** Every element [display_extracted_data] and [present] make is one of
    those that present a result, or a subheader. *)
Section Presentation.

Variable P : event -> bool.
Hypothesis P_presents : forall e, presents e = true -> P e = true.
Hypothesis P_subheader : forall s, P (StSubheader s) = true.

Lemma st_metric_events label v : forallb P (fst (st_metric label v)) = true.
Proof.
  unfold st_metric. destruct v as [x|f].
  - destruct (metric_accepts x); [|reflexivity].
    apply forallb_emit, P_presents. reflexivity.
  - apply forallb_emit, P_presents. reflexivity.
Qed.

Ltac shown :=
  repeat first
    [ apply forallb_lift
    | apply st_metric_events
    | apply forallb_emit; first [apply P_subheader | apply P_presents; reflexivity]
    | apply forallb_fst_bind; [|intros ? _] ].

Lemma metric_field_events data label key :
  forallb P (fst (metric_field data label key)) = true.
Proof. unfold metric_field. shown. Qed.

Lemma write_field_events data label key :
  forallb P (fst (write_field data label key)) = true.
Proof. unfold write_field. shown. Qed.

Lemma metric_amount_events data label key :
  forallb P (fst (metric_amount data label key)) = true.
Proof. unfold metric_amount. shown. Qed.

Lemma display_line_items_events data :
  forallb P (fst (display_line_items data)) = true.
Proof.
  unfold display_line_items. shown.
  - match goal with |- context [truthy ?v] => destruct (truthy v) end;
      shown; reflexivity.
  - match goal with |- context [if ?b then _ else _] => destruct b end; shown.
Qed.

Lemma display_extracted_data_shown data :
  forallb P (fst (display_extracted_data data)) = true.
Proof.
  unfold display_extracted_data.
  repeat first
    [ apply metric_field_events | apply write_field_events
    | apply metric_amount_events | apply display_line_items_events
    | apply forallb_emit; first [apply P_subheader | apply P_presents; reflexivity]
    | apply forallb_fst_bind; [|intros ? _] ].
Qed.

Lemma present_events data : forallb P (fst (present data)) = true.
Proof.
  unfold present.
  repeat first
    [ apply display_extracted_data_shown
    | apply forallb_lift
    | apply forallb_emit; first [apply P_subheader | apply P_presents; reflexivity]
    | apply forallb_fst_bind; [|intros ? _] ].
  match goal with |- context [truthy ?v] => destruct (truthy v) end.
  - shown.
  - reflexivity.
Qed.

Lemma present_if_truthy_events out : forallb P (fst (present_if_truthy out)) = true.
Proof.
  destruct out as [data|]; [|reflexivity]. unfold present_if_truthy.
  destruct (truthy data); [apply present_events|reflexivity].
Qed.

End Presentation.

(** ** Calls and errors of a run *)

Lemma filter_none {A} (P : A -> bool) l :
  forallb (fun e => negb (P e)) l = true -> filter P l = [].
Proof.
  induction l as [|a l IH]; cbn [forallb filter]; [reflexivity|].
  intros H. apply andb_true_iff in H as [Ha Hl].
  destruct (P a); [discriminate|auto].
Qed.

(** The elements of a run that [P] keeps are among those of the upload
    flow, when [P] keeps none of the page and of the footer. *)
Lemma run_filter (P : event -> bool) w :
  forallb (fun e => negb (P e)) (page_top ++ page_rest ++ fst footer) = true ->
  filter P (run w)
  = if nonempty (typed_key w) then []
    else match uploaded_file w with
         | Some file => filter P (fst (process_upload w (stored_key w) file))
         | None => []
         end.
Proof.
  intros H. rewrite !forallb_app in H.
  apply andb_true_iff in H as [H1 H]. apply andb_true_iff in H as [H2 H3].
  rewrite run_eq. destruct (nonempty (typed_key w)).
  - apply filter_none, H1.
  - rewrite !filter_app, (filter_none P page_top H1), (filter_none P page_rest H2),
      (filter_none P (fst footer) H3), app_nil_r.
    destruct (uploaded_file w); reflexivity.
Qed.

Lemma present_if_truthy_filter (P : event -> bool) out :
  (forall e, presents e = true -> P e = false) ->
  (forall s, P (StSubheader s) = false) ->
  filter P (fst (present_if_truthy out)) = [].
Proof.
  intros H1 H2. apply filter_none, present_if_truthy_events.
  - intros e H. rewrite (H1 e H). reflexivity.
  - intros s. rewrite H2. reflexivity.
Qed.

Lemma presents_no_request e : presents e = true -> is_request e = false.
Proof. destruct e; try discriminate; reflexivity. Qed.

Lemma presents_no_error e : presents e = true -> is_error e = false.
Proof. destruct e; try discriminate; reflexivity. Qed.

(** What follows the spinner holds calls of the completion service,
    error messages and the elements that present a result, and nothing
    else. *)
Lemma extraction_filter (P : event -> bool) store r image :
  (forall e, presents e = true -> P e = false) ->
  (forall s, P (StSubheader s) = false) ->
  (forall e, is_request e = true -> P e = false) ->
  (forall e, is_error e = true -> P e = false) ->
  filter P
    (fst (extract_invoice_data store r image)
     ++ match snd (extract_invoice_data store r image) with
        | Ok out =>
            fst (present_if_truthy out)
            ++ match snd (present_if_truthy out) with
               | Ok _ => []
               | Raise e => [upload_error e]
               end
        | Raise e => [upload_error e]
        end) = [].
Proof.
  intros H1 H2 H3 H4.
  assert (Q : forall out,
             filter P
               (fst (present_if_truthy out)
                ++ match snd (present_if_truthy out) with
                   | Ok _ => []
                   | Raise e => [upload_error e]
                   end) = []).
  { intros out. rewrite filter_app.
    rewrite (present_if_truthy_filter P out H1 H2).
    destruct (snd (present_if_truthy out)); [reflexivity|].
    cbn [filter app]. rewrite H4; reflexivity. }
  assert (A : forall key b, P (request_of key b) = false)
    by (intros; apply H3; reflexivity).
  assert (B : forall e, P (extract_error e) = false)
    by (intros; apply H4; reflexivity).
  rewrite extract_invoice_data_eq, filter_app.
  destruct (init_openai store) as [key|e]; cbn [fst snd filter];
    [|rewrite B, Q; reflexivity].
  destruct (encode_image image) as [b|e]; cbn [fst snd filter];
    [|rewrite B, Q; reflexivity].
  destruct (response_content r) as [content|e]; cbn [fst snd filter];
    [|rewrite A, B, Q; reflexivity].
  destruct (json_loads (fence_stripped content)); cbn [fst snd filter];
    rewrite ?A, ?B, Q; reflexivity.
Qed.

(** The calls of the completion service a run makes. *)
Lemma requests_of_run w :
  filter is_request (run w)
  = if nonempty (typed_key w) then []
    else match uploaded_file w with
         | Some file =>
             match Image_open file with
             | Some image =>
                 if has_key (stored_key w) && extract_clicked w then
                   match init_openai (stored_key w), encode_image image with
                   | Ok key, Ok base64_image => [request_of key base64_image]
                   | _, _ => []
                   end
                 else []
             | None => []
             end
         | None => []
         end.
Proof.
  rewrite run_filter by reflexivity.
  destruct (nonempty (typed_key w)); [reflexivity|].
  destruct (uploaded_file w) as [file|]; [|reflexivity].
  rewrite process_upload_eq. cbn [filter is_request].
  destruct (Image_open file) as [image|]; [|reflexivity]. cbn [filter is_request].
  destruct (stored_key w) as [|entry] eqn:S; [reflexivity|].
  destruct (has_key (SecretsFile entry)); [|reflexivity]. cbn [filter is_request andb].
  destruct (extract_clicked w); [|reflexivity]. cbn [filter is_request].
  rewrite extract_invoice_data_eq.
  assert (Q : forall out,
             filter is_request
               (fst (present_if_truthy out)
                ++ match snd (present_if_truthy out) with
                   | Ok _ => []
                   | Raise e => [upload_error e]
                   end) = []).
  { intros out. rewrite filter_app.
    rewrite (present_if_truthy_filter is_request out presents_no_request)
      by reflexivity.
    destruct (snd (present_if_truthy out)); reflexivity. }
  destruct (init_openai (SecretsFile entry)) as [key|e].
  - destruct (encode_image image) as [b|e].
    + destruct (response_content (api_reply w)) as [content|e].
      * destruct (json_loads (fence_stripped content)); cbn [fst snd];
          rewrite filter_app, Q; reflexivity.
      * cbn [fst snd]. rewrite filter_app, Q. reflexivity.
    + cbn [fst snd]. rewrite filter_app, Q. reflexivity.
  - cbn [fst snd]. rewrite filter_app, Q. reflexivity.
Qed.

Lemma nonempty_false s : nonempty s = false <-> s = [].
Proof. destruct s; split; try reflexivity; discriminate. Qed.

Lemma encode_image_ok image base64_image :
  encode_image image = Ok base64_image <->
  exists png, Image_save_png image = Some png /\ base64_image = b64encode png.
Proof.
  unfold encode_image. destruct (Image_save_png image) as [png|]; split.
  - intros H. inversion H. eauto.
  - intros [p [H ->]]. inversion H. reflexivity.
  - discriminate.
  - intros [p [H _]]. discriminate.
Qed.

Lemma existsb_filter {A} (P : A -> bool) l :
  existsb P l = true <-> filter P l <> [].
Proof.
  rewrite existsb_exists. split.
  - intros [e [I R]] F.
    assert (K : In e (filter P l)) by (apply filter_In; auto).
    rewrite F in K. exact K.
  - intros F. destruct (filter P l) as [|e l'] eqn:Q; [congruence|].
    assert (K : In e (filter P l)) by (rewrite Q; left; reflexivity).
    apply filter_In in K. exists e. exact K.
Qed.

(** X1: a run calls the completion service exactly when nothing is
    typed in the sidebar, the secrets hold a key, a file is uploaded that
    [Image.open] reads, the extract button is clicked, and the image can be
    saved as PNG. *)
Theorem request_sent_iff (w : session) :
  existsb is_request (run w) = true <->
  typed_key w = []
  /\ exists file image png,
       uploaded_file w = Some file /\ Image_open file = Some image
       /\ has_key (stored_key w) = true /\ extract_clicked w = true
       /\ Image_save_png image = Some png.
Proof.
  rewrite existsb_filter, requests_of_run. split.
  - intros H. destruct (nonempty (typed_key w)) eqn:T; [congruence|].
    apply nonempty_false in T. split; [exact T|].
    destruct (uploaded_file w) as [file|]; [|congruence].
    destruct (Image_open file) as [image|] eqn:O; [|congruence].
    destruct (has_key (stored_key w)) eqn:K; [|cbn [andb] in H; congruence].
    destruct (extract_clicked w); [|cbn [andb] in H; congruence].
    cbn [andb] in H. destruct (init_openai (stored_key w)) as [key|e]; [|congruence].
    destruct (encode_image image) as [b|e] eqn:I; [|congruence].
    apply encode_image_ok in I as [png [I _]].
    exists file, image, png. auto.
  - intros [T [file [image [png [U [O [K [C I]]]]]]]].
    rewrite (nonempty_nil _ T), U, O, K, C. cbn [andb].
    destruct (has_key_some _ K) as [key [-> _]].
    unfold encode_image. rewrite I. discriminate.
Qed.

(** X2: every call of the completion service in a run that makes its own
    client (a run on an empty cache) is made with nothing typed in the
    sidebar, and carries the key of the secrets, which is not empty; the
    model, the prompt and the token limit of lines 60-77; and a data URL
    that holds the base64 text of the PNG bytes of the uploaded image. *)
Theorem request_carries_key_and_image
  (w : session) (api_key model prompt image_url : pystr) (max_tokens : Z) :
  In (ChatCompletionsCreate api_key model prompt image_url max_tokens) (run w) ->
  typed_key w = []
  /\ stored_key w = SecretsFile (Some api_key) /\ api_key <> []
  /\ model = MODEL /\ prompt = PROMPT /\ max_tokens = 1000%Z
  /\ exists file image png,
       uploaded_file w = Some file /\ Image_open file = Some image
       /\ Image_save_png image = Some png
       /\ image_url = py "data:image/png;base64," ++ b64encode png.
Proof.
  intros H.
  assert (K : In (ChatCompletionsCreate api_key model prompt image_url max_tokens)
                (filter is_request (run w))) by (apply filter_In; auto).
  rewrite requests_of_run in K.
  destruct (nonempty (typed_key w)) eqn:T; [destruct K|].
  apply nonempty_false in T.
  destruct (uploaded_file w) as [file|]; [|destruct K].
  destruct (Image_open file) as [image|] eqn:O; [|destruct K].
  destruct (has_key (stored_key w)) eqn:Hk; [|destruct K].
  destruct (extract_clicked w); [|destruct K]. cbn [andb] in K.
  destruct (has_key_some _ Hk) as [key [S N]]. rewrite S in K.
  cbn [init_openai secrets_item] in K.
  destruct (encode_image image) as [b|e] eqn:I; [|destruct K].
  destruct K as [K|[]]. unfold request_of in K. inversion K; subst.
  apply encode_image_ok in I as [png [I ->]].
  split; [exact T|]. split; [exact S|]. split; [exact N|].
  repeat (split; [reflexivity|]). exists file, image, png. auto.
Qed.


(** ** The display, case by case *)

Lemma present_dict d :
  present (PyDict d)
  = match display_extracted_data (PyDict d) with
    | (shown, Ok _) =>
        (StSuccess SUCCESS_EXTRACTED :: shown
         ++ downloads (PyDict d) (field_or d "line_items" PyNone), Ok tt)
    | (shown, Raise e) => (StSuccess SUCCESS_EXTRACTED :: shown, Raise e)
    end.
Proof.
  unfold present. cbn [bind emit app].
  destruct (display_extracted_data (PyDict d)) as [shown [[]|e]] eqn:D;
    [|reflexivity].
  assert (A : line_items_accepted d = true).
  { apply display_completes_iff. rewrite D. reflexivity. }
  unfold downloads, json_button, csv_button, get_or. cbn [lift bind emit app].
  unfold line_items_accepted in A.
  destruct (truthy (field_or d "line_items" PyNone)).
  - cbn [negb orb] in A. apply frame_ok_spec in A. rewrite A.
    cbn [lift bind emit ret app]. rewrite ?app_nil_r. reflexivity.
  - cbn [bind emit ret app]. rewrite ?app_nil_r. reflexivity.
Qed.

Lemma present_raise data e :
  snd (display_extracted_data data) = Raise e ->
  present data = (StSuccess SUCCESS_EXTRACTED :: fst (display_extracted_data data),
                  Raise e).
Proof.
  intros H. unfold present. cbn [bind emit app].
  destruct (display_extracted_data data) as [shown r]. cbn [snd] in H. subst r.
  reflexivity.
Qed.

Lemma metrics_accepted_false d :
  metrics_accepted d = false ->
  exists n, n <= 4
    /\ display_extracted_data (PyDict d)
       = (firstn n (display_head d), Raise MetricError).
Proof.
  unfold metrics_accepted. rewrite display_extracted_data_eq. intros H.
  destruct (metric_accepts (field_or d "invoice_number" NA));
    [|exists 2; split; [lia|reflexivity]].
  destruct (metric_accepts (field_or d "invoice_date" NA));
    [|exists 3; split; [lia|reflexivity]].
  destruct (metric_accepts (field_or d "due_date" NA)); [discriminate H|].
  exists 4. split; [lia|reflexivity].
Qed.

Lemma metrics_accepted_true d :
  metrics_accepted d = true ->
  display_extracted_data (PyDict d)
  = if truthy (field_or d "line_items" PyNone) then
      match py_len (field_or d "line_items" PyNone) with
      | Ok _ =>
          match pd_DataFrame (field_or d "line_items" PyNone) with
          | Ok _ =>
              (display_head d
               ++ StDataframe (field_or d "line_items" PyNone)
                  :: display_totals d, Ok tt)
          | Raise _ => (display_head d, Raise FrameError)
          end
      | Raise _ => (display_head d, Raise TypeError)
      end
    else (display_head d ++ StWrite [FLit NO_LINE_ITEMS] :: display_totals d,
          Ok tt).
Proof.
  unfold metrics_accepted. intros Hm.
  apply andb_true_iff in Hm as [Hm M3]. apply andb_true_iff in Hm as [M1 M2].
  rewrite display_extracted_data_eq, M1, M2, M3.
  destruct (truthy (field_or d "line_items" PyNone)); [|reflexivity].
  destruct (py_len (field_or d "line_items" PyNone)) as [n|e] eqn:L.
  - destruct (pd_DataFrame (field_or d "line_items" PyNone)) as [[]|e] eqn:F;
      [reflexivity|].
    rewrite (pd_DataFrame_raises _ _ F). reflexivity.
  - rewrite (py_len_raises _ _ L). reflexivity.
Qed.


(** X5: on a mapping, [display_extracted_data] raises in three cases
    and in no other.  [st.metric] refuses the invoice number, the invoice
    date or the due date (a list or a mapping): the display stops within
    its first four elements.  [line_items] is truthy and has no length (a
    number other than zero, or [True]): it is [TypeError], raised by [len]
    after the subheader of the line items.  [line_items] is truthy, has a
    length, and [pd.DataFrame] refuses it: the display stops at the same
    place.  In the last two cases neither a table nor the totals are
    shown. *)
Theorem display_raises_iff (d : pydict) :
  (snd (display_extracted_data (PyDict d)) <> Ok tt <->
   metrics_accepted d = false
   \/ truthy (field_or d "line_items" PyNone) = true
      /\ (py_len (field_or d "line_items" PyNone) = Raise TypeError
          \/ frame_ok (field_or d "line_items" PyNone) = false))
  /\ (snd (display_extracted_data (PyDict d)) = Raise MetricError <->
      metrics_accepted d = false)
  /\ (snd (display_extracted_data (PyDict d)) = Raise TypeError <->
      metrics_accepted d = true
      /\ truthy (field_or d "line_items" PyNone) = true
      /\ py_len (field_or d "line_items" PyNone) = Raise TypeError)
  /\ (snd (display_extracted_data (PyDict d)) = Raise FrameError <->
      metrics_accepted d = true
      /\ truthy (field_or d "line_items" PyNone) = true
      /\ (exists n, py_len (field_or d "line_items" PyNone) = Ok n)
      /\ frame_ok (field_or d "line_items" PyNone) = false)
  /\ (snd (display_extracted_data (PyDict d)) = Raise MetricError ->
      exists n, n <= 4
        /\ fst (display_extracted_data (PyDict d)) = firstn n (display_head d))
  /\ (forall e, snd (display_extracted_data (PyDict d)) = Raise e ->
      e = MetricError
      \/ (e = TypeError \/ e = FrameError)
         /\ display_extracted_data (PyDict d) = (display_head d, Raise e)
         /\ forallb (fun x => negb (is_total x)) (display_head d) = true).
Proof.
  destruct (metrics_accepted d) eqn:M.
  - rewrite (metrics_accepted_true d M). unfold frame_ok.
    destruct (truthy (field_or d "line_items" PyNone)) eqn:T.
    + destruct (py_len (field_or d "line_items" PyNone)) as [n|e] eqn:L.
      * destruct (pd_DataFrame (field_or d "line_items" PyNone)) as [[]|e] eqn:F;
          cbn [fst snd].
        -- repeat split; try congruence; try discriminate.
           ++ intros [H|[_ [H|H]]]; discriminate H.
           ++ intros [_ [_ H]]; discriminate H.
           ++ intros [_ [_ [_ H]]]; discriminate H.
        -- repeat split; try congruence; try discriminate; eauto.
           ++ intros [_ [_ H]]; discriminate H.
           ++ intros e' H. inversion H; subst e'. right. repeat split. auto.
      * rewrite (py_len_raises _ _ L). cbn [fst snd].
        repeat split; try congruence; try discriminate; eauto.
        -- intros [_ [_ [[n H] _]]]. discriminate H.
        -- intros e' H. inversion H; subst e'. right. repeat split. auto.
    + cbn [fst snd]. repeat split; try congruence; try discriminate.
      * intros [H|[H _]]; discriminate H.
      * intros [_ [H _]]; discriminate H.
      * intros [_ [H _]]; discriminate H.
  - destruct (metrics_accepted_false d M) as [n [N E]]. rewrite E. cbn [fst snd].
    repeat split; try congruence; try discriminate; eauto.
    + intros [H _]; discriminate H.
    + intros [H _]; discriminate H.
    + intros e' H. inversion H; subst e'. auto.
Qed.

Lemma head_no_table d x : ~ In (StDataframe x) (display_head d ++ display_totals d).
Proof.
  intros K. apply in_app_or in K as [K|K];
    cbn [display_head display_totals In] in K;
    repeat (destruct K as [K|K]; [discriminate K|]); exact K.
Qed.

Lemma head_no_note d :
  ~ In (StWrite [FLit NO_LINE_ITEMS]) (display_head d ++ display_totals d).
Proof.
  intros K. apply in_app_or in K as [K|K];
    cbn [display_head display_totals In] in K;
    repeat (destruct K as [K|K]; [discriminate K|]); exact K.
Qed.

Lemma in_middle {A} (x y : A) l r :
  In x (l ++ y :: r) <-> x = y \/ In x (l ++ r).
Proof.
  rewrite !in_app_iff. cbn [In]. split.
  - intros [H|[H|H]]; auto.
  - intros [H|[H|H]]; auto.
Qed.

(** X6: when the display completes, a truthy [line_items] is what
    [pd.DataFrame] has accepted and [st.dataframe] shows, and the note of
    line 127 is not shown; a [line_items] that is missing or falsy gives
    the note and no table.  A [line_items] that is a string which is not
    empty, such as the "N/A" the prompt asks for, passes the test of line
    123 and is refused by [pd.DataFrame]: the display stops after the
    subheader of the line items, with no table, no note and no totals.
    The test [len(...) > 0] of line 123 never decides. *)
Theorem line_items_table_or_note (d : pydict) :
  (snd (display_extracted_data (PyDict d)) = Ok tt ->
   (truthy (field_or d "line_items" PyNone) = true ->
    pd_DataFrame (field_or d "line_items" PyNone) = Ok tt
    /\ In (StDataframe (field_or d "line_items" PyNone))
         (fst (display_extracted_data (PyDict d)))
    /\ ~ In (StWrite [FLit NO_LINE_ITEMS]) (fst (display_extracted_data (PyDict d))))
   /\ (truthy (field_or d "line_items" PyNone) = false ->
       In (StWrite [FLit NO_LINE_ITEMS]) (fst (display_extracted_data (PyDict d)))
       /\ forall x, ~ In (StDataframe x) (fst (display_extracted_data (PyDict d)))))
  /\ (forall c s,
        metrics_accepted d = true ->
        dict_get d (py "line_items") = Some (PyStr (c :: s)) ->
        display_extracted_data (PyDict d) = (display_head d, Raise FrameError)).
Proof.
  split.
  - intros H. apply display_completes_iff in H as [Hm Hl].
    rewrite (display_extracted_data_events d Hm Hl), display_events_split.
    unfold line_items_event, line_items_accepted in *. cbn [fst].
    destruct (truthy (field_or d "line_items" PyNone)); split; try discriminate;
      intros _.
    + cbn [negb orb] in Hl. apply frame_ok_spec in Hl. split; [exact Hl|]. split.
      * apply in_middle. left. reflexivity.
      * intros K. apply in_middle in K as [K|K]; [discriminate K|].
        exact (head_no_note d K).
    + split.
      * apply in_middle. left. reflexivity.
      * intros x K. apply in_middle in K as [K|K]; [discriminate K|].
        exact (head_no_table d x K).
  - intros c s Hm K. rewrite (metrics_accepted_true d Hm).
    rewrite (field_or_present d _ _ _ K). reflexivity.
Qed.

(** X7: when [present] completes on a mapping, the CSV download of the
    line items is offered exactly when the table of the line items is
    shown, and for the same value: the test of line 207 (truthiness alone)
    and the test of line 123 (truthiness and length) agree. *)
Theorem csv_offered_iff_table_shown (d : pydict) (items : value) :
  snd (present (PyDict d)) = Ok tt ->
  (In (csv_button items) (fst (present (PyDict d)))
   <-> In (StDataframe items) (fst (present (PyDict d)))).
Proof.
  rewrite present_dict.
  destruct (display_extracted_data (PyDict d)) as [shown [[]|e]] eqn:D;
    [|discriminate].
  intros _.
  assert (C : snd (display_extracted_data (PyDict d)) = Ok tt)
    by (rewrite D; reflexivity).
  apply display_completes_iff in C as [Hm Hl].
  rewrite (display_extracted_data_events d Hm Hl) in D. inversion D; subst shown.
  rewrite display_events_split. unfold line_items_event, downloads. cbn [fst].
  destruct (truthy (field_or d "line_items" PyNone)); split; intros K.
  - assert (E : items = field_or d "line_items" PyNone).
    { destruct K as [K|K]; [discriminate K|].
      repeat (apply in_app_or in K as [K|K]);
        cbn [display_head display_totals In] in K;
        repeat (destruct K as [K|K]; [try discriminate K|]); try contradiction.
      unfold csv_button in K. inversion K. reflexivity. }
    subst items. right. apply in_or_app. left. apply in_or_app. right.
    left. reflexivity.
  - assert (E : items = field_or d "line_items" PyNone).
    { destruct K as [K|K]; [discriminate K|].
      repeat (apply in_app_or in K as [K|K]);
        cbn [display_head display_totals In] in K;
        repeat (destruct K as [K|K]; [try discriminate K|]); try contradiction.
      inversion K. reflexivity. }
    subst items. right. apply in_or_app. right. apply in_or_app. right.
    apply in_or_app. left. left. reflexivity.
  - exfalso. destruct K as [K|K]; [discriminate K|].
    repeat (apply in_app_or in K as [K|K]);
      cbn [display_head display_totals In] in K;
      repeat (destruct K as [K|K]; [discriminate K|]); exact K.
  - exfalso. destruct K as [K|K]; [discriminate K|].
    repeat (apply in_app_or in K as [K|K]);
      cbn [display_head display_totals In] in K;
      repeat (destruct K as [K|K]; [discriminate K|]); exact K.
Qed.

(** ** Runs, from the first element to the footer *)

(** X8: with nothing typed in the sidebar, a run of the script never
    ends in an exception, whatever is uploaded, replied or held by the
    secrets: the page configuration comes first and the two lines of the
    footer come last.  With a key typed in the sidebar, the run ends at
    line 150 with [TypeError], after the text input: it shows no
    confirmation, no instructions, no uploader and no footer. *)
Theorem script_completes_unless_key_typed (w : session) :
  (typed_key w = [] ->
   snd (script w) = Ok tt
   /\ (exists rest,
         run w = StSetPageConfig (py "Invoice Analyzer") [0x1F4C4%N] (py "wide")
                 :: rest)
   /\ exists shown,
        run w = shown
                ++ [StMarkdown (py "---");
                    StMarkdown (py "Built with " ++ [0x2764; 0xFE0F]%N
                                ++ py " using Streamlit and OpenAI Vision API")])
  /\ (typed_key w <> [] -> script w = (page_top, Raise TypeError)).
Proof.
  split.
  - intros T. unfold run. rewrite script_eq, (nonempty_nil _ T). cbn [fst snd].
    split; [reflexivity|]. split.
    + unfold page_top. cbn [app]. eauto.
    + eexists. rewrite !app_assoc. reflexivity.
  - intros T. rewrite script_eq. destruct (typed_key w); [congruence|reflexivity].
Qed.

(** X9: when [Image.open] refuses the uploaded file, the run shows the
    subheader of the upload and the error message of line 222, and nothing
    else between the uploader and the footer: no image, no warning, no
    button, no call of the completion service. *)
Theorem unreadable_upload (w : session) (file : list Byte.byte) :
  typed_key w = [] ->
  uploaded_file w = Some file -> Image_open file = None ->
  run w = page_top ++ page_rest
          ++ [StSubheader (0x1F4F8%N :: py " Uploaded Invoice");
              upload_error ImageError]
          ++ fst footer.
Proof.
  intros T U O. rewrite run_eq, (nonempty_nil _ T), U, process_upload_eq, O.
  reflexivity.
Qed.

Lemma has_key_intro key : key <> [] -> has_key (SecretsFile (Some key)) = true.
Proof. destruct key; [congruence|reflexivity]. Qed.

(** A run in which the reply parses. *)
Lemma run_extracted w file image png key content others v :
  typed_key w = [] ->
  uploaded_file w = Some file -> Image_open file = Some image ->
  stored_key w = SecretsFile (Some key) -> key <> [] -> extract_clicked w = true ->
  Image_save_png image = Some png ->
  api_reply w = ApiReturns (Some content :: others) ->
  parse_response content = Some v ->
  run w = page_top ++ page_rest ++ upload_head image
          ++ request_of key (b64encode png)
             :: (fst (present_if_truthy (Some v))
                 ++ match snd (present_if_truthy (Some v)) with
                    | Ok _ => []
                    | Raise e => [upload_error e]
                    end)
          ++ fst footer.
Proof.
  intros T U O S N C I R P.
  rewrite run_eq, (nonempty_nil _ T), U, process_upload_eq, O, S.
  rewrite (has_key_intro key N), C, R, extract_invoice_data_eq.
  cbn [init_openai secrets_item response_content]. unfold encode_image. rewrite I.
  unfold parse_response in P. rewrite P. cbn [fst snd].
  unfold upload_head. cbn [app]. repeat rewrite <- app_assoc. reflexivity.
Qed.

(** X10: a successful run, element by element.  With nothing typed in
    the sidebar, a key in the secrets, an image, a click and a reply that
    parses to a mapping that is not empty, whose invoice number, invoice
    date and due date [st.metric] accepts and whose [line_items] is
    missing, falsy or accepted by [pd.DataFrame], the run shows the upload,
    calls the completion service once, shows the success message, the
    display of the mapping, the downloads and the raw view, and no
    error. *)
Theorem successful_run
  (w : session) (file : list Byte.byte) (image : bitmap) (png : list Byte.byte)
  (key content : pystr) (others : list (option pystr)) (d : pydict) :
  typed_key w = [] ->
  uploaded_file w = Some file -> Image_open file = Some image ->
  stored_key w = SecretsFile (Some key) -> key <> [] -> extract_clicked w = true ->
  Image_save_png image = Some png ->
  api_reply w = ApiReturns (Some content :: others) ->
  parse_response content = Some (PyDict d) -> d <> [] ->
  metrics_accepted d = true -> line_items_accepted d = true ->
  run w = page_top ++ page_rest ++ upload_head image
          ++ [request_of key (b64encode png); StSuccess SUCCESS_EXTRACTED]
          ++ display_events d
          ++ downloads (PyDict d) (field_or d "line_items" PyNone)
          ++ fst footer
  /\ count_events is_error (run w) = 0.
Proof.
  intros T U O S N C I R P D Hm Hl.
  pose proof (display_extracted_data_events d Hm Hl) as Ed.
  assert (E : run w = page_top ++ page_rest ++ upload_head image
          ++ [request_of key (b64encode png); StSuccess SUCCESS_EXTRACTED]
          ++ display_events d
          ++ downloads (PyDict d) (field_or d "line_items" PyNone)
          ++ fst footer).
  { rewrite (run_extracted w file image png key content others (PyDict d))
      by assumption.
    unfold present_if_truthy. destruct d as [|kv d]; [congruence|].
    cbn [truthy]. rewrite present_dict, Ed. cbn [fst snd app].
    rewrite app_nil_r. repeat rewrite <- app_assoc. reflexivity. }
  split; [exact E|]. rewrite E. unfold count_events. rewrite !filter_app.
  replace (display_events d) with (fst (display_extracted_data (PyDict d)))
    by (rewrite Ed; reflexivity).
  rewrite (filter_none is_error (fst (display_extracted_data (PyDict d))))
    by (apply display_extracted_data_shown;
        [intros e H; rewrite (presents_no_error e H)|intros s]; reflexivity).
  unfold downloads. rewrite !filter_app.
  destruct (truthy (field_or d "line_items" PyNone)); reflexivity.
Qed.

Lemma forallb_firstn {A} (Q : A -> bool) n l :
  forallb Q l = true -> forallb Q (firstn n l) = true.
Proof.
  revert n. induction l as [|a l IH]; intros [|n] H; cbn [firstn forallb] in *;
    try reflexivity.
  apply andb_true_iff in H as [Ha Hl]. rewrite Ha, (IH n Hl). reflexivity.
Qed.

(** X11: when the display of a truthy result raises ([st.metric],
    [len] or [pd.DataFrame] on a mapping, [data.get] on another value), the
    success message is already shown; the run then shows what the display
    made before it raised and the error message of line 222 with that
    exception, and offers no download and no raw view. *)
Theorem rendering_failure_reported
  (w : session) (file : list Byte.byte) (image : bitmap) (png : list Byte.byte)
  (key content : pystr) (others : list (option pystr)) (v : value) (e : exn) :
  typed_key w = [] ->
  uploaded_file w = Some file -> Image_open file = Some image ->
  stored_key w = SecretsFile (Some key) -> key <> [] -> extract_clicked w = true ->
  Image_save_png image = Some png ->
  api_reply w = ApiReturns (Some content :: others) ->
  parse_response content = Some v -> truthy v = true ->
  snd (display_extracted_data v) = Raise e ->
  run w = page_top ++ page_rest ++ upload_head image
          ++ [request_of key (b64encode png); StSuccess SUCCESS_EXTRACTED]
          ++ fst (display_extracted_data v)
          ++ [upload_error e]
          ++ fst footer
  /\ forall e', In e' (run w) ->
       match e' with
       | StDownloadButton _ _ _ _ | StExpander _ | StJson _ => False
       | _ => True
       end.
Proof.
  intros Ty U O S N C I R P T K.
  assert (E : run w = page_top ++ page_rest ++ upload_head image
          ++ [request_of key (b64encode png); StSuccess SUCCESS_EXTRACTED]
          ++ fst (display_extracted_data v)
          ++ [upload_error e]
          ++ fst footer).
  { rewrite (run_extracted w file image png key content others v) by assumption.
    unfold present_if_truthy. rewrite T, (present_raise v e K).
    cbn [fst snd app]. repeat rewrite <- app_assoc. reflexivity. }
  split; [exact E|]. rewrite E. intros e' H.
  set (Q := fun x : event =>
              match x with
              | StDownloadButton _ _ _ _ | StExpander _ | StJson _ => false
              | _ => true
              end).
  assert (A : forallb Q (page_top ++ page_rest ++ upload_head image
          ++ [request_of key (b64encode png); StSuccess SUCCESS_EXTRACTED]
          ++ fst (display_extracted_data v)
          ++ [upload_error e]
          ++ fst footer) = true).
  { rewrite !forallb_app.
    assert (B : forallb Q (fst (display_extracted_data v)) = true).
    { destruct v as [| | | | | |d]; try reflexivity.
      destruct (metrics_accepted d) eqn:M.
      - rewrite (metrics_accepted_true d M) in K |- *.
        destruct (truthy (field_or d "line_items" PyNone)); [|discriminate K].
        destruct (py_len (field_or d "line_items" PyNone)); [|reflexivity].
        destruct (pd_DataFrame (field_or d "line_items" PyNone));
          [discriminate K|reflexivity].
      - destruct (metrics_accepted_false d M) as [n [_ F]]. rewrite F. cbn [fst].
        apply forallb_firstn. reflexivity. }
    rewrite B. reflexivity. }
  rewrite forallb_forall in A. specialize (A e' H).
  destruct e'; cbn in A |- *; trivial; discriminate A.
Qed.

(** ** extract_invoice_data *)

(** X12: [extract_invoice_data] never raises.  It shows an error
    message exactly when one of its steps has failed, and then returns
    [None]; it shows none exactly when the client, the PNG file, the reply
    and [json.loads] have all succeeded, and then returns the parsed value.
    What it returns is [None] also for the reply [null], which is no
    failure and shows no message.  When it makes its own client, it does
    not call the completion service exactly when the secrets give no key or
    the image cannot be saved as PNG. *)
Theorem extract_never_raises (store : secrets) (r : reply) (image : bitmap) :
  exists out,
    snd (extract_invoice_data store r image) = Ok out
    /\ (existsb is_error (fst (extract_invoice_data store r image)) = true <->
        out = None)
    /\ (existsb is_error (fst (extract_invoice_data store r image)) = false <->
        exists key base64_image content v,
          init_openai store = Ok key /\ encode_image image = Ok base64_image
          /\ response_content r = Ok content
          /\ json_loads (fence_stripped content) = Some v /\ out = Some v)
    /\ (returned out = PyNone <->
        existsb is_error (fst (extract_invoice_data store r image)) = true
        \/ exists content,
             response_content r = Ok content
             /\ json_loads (fence_stripped content) = Some PyNone)
    /\ (existsb is_request (fst (extract_invoice_data store r image)) = false <->
        (forall key, store <> SecretsFile (Some key))
        \/ Image_save_png image = None).
Proof.
  rewrite extract_invoice_data_eq.
  assert (S : (forall key, store <> SecretsFile (Some key)) ->
              exists e, init_openai store = Raise e).
  { destruct store as [|[key|]]; cbn; eauto. intros H. destruct (H key eq_refl). }
  destruct (init_openai store) as [key|e] eqn:K.
  - assert (N : ~ forall key', store <> SecretsFile (Some key')).
    { intros H. destruct (S H) as [e E]. discriminate E. }
    unfold encode_image. destruct (Image_save_png image) as [png|].
    + destruct (response_content r) as [content|e] eqn:Er.
      * destruct (json_loads (fence_stripped content)) as [v|] eqn:Ej.
        -- exists (Some v). cbn [fst snd existsb is_error request_of is_request orb].
           split; [reflexivity|]. split; [split; discriminate|]. split.
           { split; [intros _|reflexivity]. exists key, (b64encode png), content, v.
             repeat split. exact Ej. }
           split.
           { cbn [returned]. split.
             - intros ->. right. exists content. auto.
             - intros [H|[c [E1 E2]]]; [discriminate H|].
               inversion E1; subst c. congruence. }
           split; [discriminate|]. intros [H|H]; [destruct (N H)|discriminate H].
        -- exists None. cbn [fst snd existsb is_error extract_error request_of
                              is_request orb returned].
           split; [reflexivity|]. split; [split; reflexivity|]. split.
           { split; [discriminate|].
             intros [k [b [c [v [_ [_ [E1 [E2 _]]]]]]]].
             inversion E1; subst c. congruence. }
           split; [split; auto|].
           split; [discriminate|]. intros [H|H]; [destruct (N H)|discriminate H].
      * exists None. cbn [fst snd existsb is_error extract_error request_of
                            is_request orb returned].
        split; [reflexivity|]. split; [split; reflexivity|]. split.
        { split; [discriminate|].
          intros [k [b [c [v [_ [_ [E1 _]]]]]]]. discriminate E1. }
        split; [split; auto|].
        split; [discriminate|]. intros [H|H]; [destruct (N H)|discriminate H].
    + exists None. cbn [fst snd existsb is_error extract_error is_request orb
                          returned].
      split; [reflexivity|]. split; [split; reflexivity|]. split.
      { split; [discriminate|].
        intros [k [b [c [v [_ [E1 _]]]]]]. discriminate E1. }
      split; [split; auto|]. split; auto.
  - exists None. cbn [fst snd existsb is_error extract_error is_request orb returned].
    split; [reflexivity|]. split; [split; reflexivity|]. split.
    { split; [discriminate|].
      intros [k [b [c [v [E1 _]]]]]. discriminate E1. }
    split; [split; auto|]. split; [intros _|reflexivity].
    left. intros key' ->. discriminate K.
Qed.

(** X13: with a key and an image, a failure of the completion service
    or a reply without usable content is reported after the request and
    gives [None]: the exception of the client, [IndexError] for a reply
    without choices, [AttributeError] for a first choice whose content is
    [None]. *)
Theorem extract_reports_api_failure
  (store : secrets) (key : pystr) (image : bitmap) (base64_image : pystr) :
  init_openai store = Ok key -> encode_image image = Ok base64_image ->
  (forall message,
     extract_invoice_data store (ApiRaises message) image
     = ([request_of key base64_image; extract_error (APIError message)], Ok None))
  /\ extract_invoice_data store (ApiReturns []) image
     = ([request_of key base64_image; extract_error IndexError], Ok None)
  /\ forall others,
       extract_invoice_data store (ApiReturns (None :: others)) image
       = ([request_of key base64_image; extract_error AttributeError], Ok None).
Proof.
  intros K E. repeat split; intros; rewrite extract_invoice_data_eq, K, E; reflexivity.
Qed.

(** ** Replies: whitespace, fences, and what is refused *)

Lemma str_lstrip_spaces a s :
  forallb str_isspace a = true -> str_lstrip (a ++ s) = str_lstrip s.
Proof.
  induction a as [|x a IH]; cbn [app forallb str_lstrip]; auto. intros H.
  apply andb_true_iff in H as [W F]. rewrite W. auto.
Qed.

Lemma str_lstrip_split s :
  exists sp, s = sp ++ str_lstrip s /\ forallb str_isspace sp = true.
Proof.
  induction s as [|c s IH]; [exists []; auto|]. cbn [str_lstrip].
  destruct (str_isspace c) eqn:E.
  - destruct IH as [sp [E1 F]]. exists (c :: sp). cbn [app forallb].
    rewrite E, F, <- E1. auto.
  - exists []. auto.
Qed.

Lemma str_lstrip_head s c r : str_lstrip s = c :: r -> str_isspace c = false.
Proof.
  induction s as [|x s IH]; cbn [str_lstrip]; [discriminate|].
  destruct (str_isspace x) eqn:E; [auto|]. intros H. inversion H; subst. exact E.
Qed.

Lemma str_rstrip_split s :
  exists sp, s = str_rstrip s ++ sp /\ forallb str_isspace sp = true.
Proof.
  unfold str_rstrip. destruct (str_lstrip_split (rev s)) as [sp [E F]].
  exists (rev sp). split.
  - rewrite <- rev_app_distr, <- E, rev_involutive. reflexivity.
  - rewrite forallb_rev. exact F.
Qed.

(** What [str.strip] returns is empty or starts with a visible
    character. *)
Lemma str_strip_head s c r : str_strip s = c :: r -> str_isspace c = false.
Proof.
  unfold str_strip. intros H.
  destruct (str_rstrip_split (str_lstrip s)) as [sp [E _]].
  rewrite H in E. cbn [app] in E. apply (str_lstrip_head s c (r ++ sp)). exact E.
Qed.

Lemma str_strip_padded a s b :
  (exists c r, s = c :: r /\ str_isspace c = false) ->
  (exists p d, s = p ++ [d] /\ str_isspace d = false) ->
  forallb str_isspace a = true -> forallb str_isspace b = true ->
  str_strip (a ++ s ++ b) = s.
Proof.
  intros [c [r [E C]]] [p [d [E' D]]] Fa Fb. unfold str_strip.
  rewrite str_lstrip_spaces by assumption.
  assert (L : str_lstrip (s ++ b) = s ++ b).
  { rewrite E. cbn [app]. apply str_lstrip_visible, C. }
  rewrite L. unfold str_rstrip. rewrite rev_app_distr.
  rewrite str_lstrip_spaces by (rewrite forallb_rev; assumption).
  rewrite E', rev_app_distr. cbn [rev app]. rewrite str_lstrip_visible by assumption.
  change (d :: rev p) with (rev [d] ++ rev p). rewrite <- rev_app_distr.
  apply rev_involutive.
Qed.

Lemma token_ends_visible pre :
  token_ends pre ->
  (exists c r, pre = c :: r /\ str_isspace c = false)
  /\ (exists p d, pre = p ++ [d] /\ str_isspace d = false).
Proof.
  intros [[c [r [E C]]] L]. split; [|exact L].
  exists c, r. split; [exact E|]. apply value_start_visible, C.
Qed.

Lemma forallb_json_ws_isspace ws :
  forallb json_ws ws = true -> forallb str_isspace ws = true.
Proof.
  induction ws as [|w ws IH]; cbn [forallb]; auto. intros H.
  apply andb_true_iff in H as [W F]. rewrite (json_ws_isspace w W). auto.
Qed.

Lemma visible_not_ws c : str_isspace c = false -> json_ws c = false.
Proof.
  intros H. destruct (json_ws c) eqn:E; [|reflexivity].
  rewrite (json_ws_isspace c E) in H. discriminate.
Qed.

(** [json.loads] skips the whitespace of the JSON grammar on both
    sides. *)
Lemma json_loads_padded a J b v :
  json_loads J = Some v -> forallb json_ws a = true -> forallb json_ws b = true ->
  json_loads (a ++ J ++ b) = Some v.
Proof.
  intros H Fa Fb.
  destruct (json_loads_inv J v H) as [ws [pre [rest [-> [Fw [Fr T]]]]]].
  replace (a ++ (ws ++ pre ++ rest) ++ b) with ((a ++ ws) ++ pre ++ (rest ++ b))
    by (repeat rewrite <- app_assoc; reflexivity).
  apply json_loads_intro; [exact T| |]; rewrite forallb_app.
  - rewrite Fa, Fw. reflexivity.
  - rewrite Fr, Fb. reflexivity.
Qed.

Lemma not_tag_start x :
  json_ws x = true \/ value_start x = true -> (chr "j" =? x)%N = false.
Proof.
  intros [H|H].
  - unfold json_ws in H. repeat (apply orb_true_iff in H as [H|H]);
      apply N.eqb_eq in H; subst; reflexivity.
  - unfold value_start in H.
    repeat (apply orb_true_iff in H as [H|H]);
      try (apply N.eqb_eq in H; subst; reflexivity).
    unfold is_digit in H. apply andb_true_iff in H as [_ B].
    apply N.leb_le in B. apply N.eqb_neq. intros <-. cbn in B. lia.
Qed.

Lemma json_text_head a J b v :
  json_loads J = Some v -> forallb json_ws a = true ->
  exists x r, a ++ J ++ b = x :: r /\ (json_ws x = true \/ value_start x = true).
Proof.
  intros H Fa.
  destruct (json_loads_inv J v H) as [ws [pre [rest [-> [Fw [Fr T]]]]]].
  destruct T as [[[c [r [-> C]]] _] _].
  destruct a as [|x a].
  - destruct ws as [|x ws].
    + cbn [app]. eauto.
    + cbn [app forallb] in *. apply andb_true_iff in Fw as [W _]. eauto.
  - cbn [app forallb] in *. apply andb_true_iff in Fa as [W _]. eauto.
Qed.

Lemma fence_json_strip X a b :
  forallb str_isspace a = true -> forallb str_isspace b = true ->
  fence_stripped (a ++ FENCE_JSON ++ X ++ FENCE ++ b) = X.
Proof.
  intros Fa Fb. unfold fence_stripped.
  replace (a ++ FENCE_JSON ++ X ++ FENCE ++ b)
    with (a ++ (FENCE_JSON ++ X ++ FENCE) ++ b)
    by (repeat rewrite <- app_assoc; reflexivity).
  rewrite str_strip_padded; try assumption.
  - unfold strip_fence. rewrite str_startswith_app.
    rewrite (py_slice_drop _ 7) by (rewrite length_app; cbn; lia).
    apply (remove_first_and_last_app FENCE_JSON). reflexivity.
  - exists (chr "`"), (py "``json" ++ X ++ FENCE). split; reflexivity.
  - exists (FENCE_JSON ++ X ++ py "``"), (chr "`"). split; [|reflexivity].
    change FENCE with (py "``" ++ [chr "`"]).
    repeat rewrite <- app_assoc. reflexivity.
Qed.

Lemma fence_bare_strip x r a b :
  (chr "j" =? x)%N = false ->
  forallb str_isspace a = true -> forallb str_isspace b = true ->
  fence_stripped (a ++ FENCE ++ (x :: r) ++ FENCE ++ b) = x :: r.
Proof.
  intros T Fa Fb. unfold fence_stripped.
  replace (a ++ FENCE ++ (x :: r) ++ FENCE ++ b)
    with (a ++ (FENCE ++ (x :: r) ++ FENCE) ++ b)
    by (repeat rewrite <- app_assoc; reflexivity).
  rewrite str_strip_padded; try assumption.
  - unfold strip_fence.
    assert (F : str_startswith FENCE_JSON (FENCE ++ (x :: r) ++ FENCE) = false).
    { change (FENCE ++ (x :: r) ++ FENCE)
        with (chr "`" :: chr "`" :: chr "`" :: x :: r ++ FENCE).
      change FENCE_JSON with (chr "`" :: chr "`" :: chr "`" :: chr "j" :: py "son").
      cbn [str_startswith]. rewrite !N.eqb_refl, T. reflexivity. }
    rewrite F, str_startswith_app.
    rewrite (py_slice_drop _ 3) by (rewrite length_app; cbn; lia).
    apply (remove_first_and_last_app FENCE). reflexivity.
  - exists (chr "`"), (py "``" ++ (x :: r) ++ FENCE). split; reflexivity.
  - exists (FENCE ++ (x :: r) ++ py "``"), (chr "`"). split; [|reflexivity].
    change (FENCE ++ (x :: r) ++ FENCE)
      with (FENCE ++ (x :: r) ++ py "``" ++ [chr "`"]).
    repeat rewrite <- app_assoc. reflexivity.
Qed.

(** X14: a reply is read as its JSON text whatever whitespace surrounds
    it: any whitespace of [str.isspace] around the reply (a no-break space
    included, which [json.loads] alone refuses), and any whitespace of the
    JSON grammar, or none, between the fences and the text (a line feed, a
    carriage return and a line feed, spaces), for a fence tagged [json],
    a bare fence and no fence, and for any JSON value. *)
Theorem fences_tolerate_whitespace
  (outer1 ws1 J ws2 outer2 : pystr) (v : value) :
  forallb str_isspace outer1 = true -> forallb str_isspace outer2 = true ->
  forallb json_ws ws1 = true -> forallb json_ws ws2 = true ->
  json_loads J = Some v ->
  parse_response (outer1 ++ FENCE_JSON ++ (ws1 ++ J ++ ws2) ++ FENCE ++ outer2)
  = Some v
  /\ parse_response (outer1 ++ FENCE ++ (ws1 ++ J ++ ws2) ++ FENCE ++ outer2)
     = Some v
  /\ parse_response (outer1 ++ J ++ outer2) = Some v.
Proof.
  intros F1 F2 W1 W2 H. unfold parse_response. repeat split.
  - rewrite fence_json_strip by assumption. apply json_loads_padded; assumption.
  - destruct (json_text_head ws1 J ws2 v H W1) as [x [r [E X]]]. rewrite E.
    rewrite fence_bare_strip by (assumption || apply not_tag_start, X).
    rewrite <- E. apply json_loads_padded; assumption.
  - destruct (json_loads_inv J v H) as [ws [pre [rest [-> [Fw [Fr T]]]]]].
    replace (outer1 ++ (ws ++ pre ++ rest) ++ outer2)
      with ((outer1 ++ ws) ++ pre ++ (rest ++ outer2))
      by (repeat rewrite <- app_assoc; reflexivity).
    destruct (token_ends_visible pre (proj1 T)) as [V1 V2].
    unfold fence_stripped. rewrite str_strip_padded; try assumption.
    + rewrite token_not_fenced by apply T. apply json_text_loads. exact T.
    + rewrite forallb_app, F1, (forallb_json_ws_isspace ws Fw). reflexivity.
    + rewrite forallb_app, F2, (forallb_json_ws_isspace rest Fr). reflexivity.
Qed.

Lemma not_digit_cases c :
  is_digit c = false ->
  ((0x31 <=? c) && (c <=? 0x39))%N = false /\ (c =? 0x30)%N = false.
Proof.
  unfold is_digit. intros H. split.
  - apply andb_false_iff in H. apply andb_false_iff.
    destruct H as [H|H]; apply N.leb_gt in H; [left|right]; apply N.leb_gt; lia.
  - apply N.eqb_neq. intros ->. discriminate H.
Qed.

(** [scan_once] refuses an input whose first character starts no
    value. *)
Lemma scan_once_no_start f c r :
  value_start c = false -> scan_once (S f) (c :: r) = DecodeError.
Proof.
  unfold value_start. intros H.
  apply orb_false_iff in H as [H Hd]. apply orb_false_iff in H as [H Hm].
  apply orb_false_iff in H as [H HI]. apply orb_false_iff in H as [H HN].
  apply orb_false_iff in H as [H Hf]. apply orb_false_iff in H as [H Ht].
  apply orb_false_iff in H as [H Hn]. apply orb_false_iff in H as [H Ha].
  apply orb_false_iff in H as [Hq Ho].
  destruct (not_digit_cases c Hd) as [D1 D0].
  rewrite scan_once_other; try assumption;
    try (apply startswith_head_false; rewrite N.eqb_sym; assumption).
  unfold match_number, match_sign. rewrite Hm. unfold match_int_part.
  rewrite D1, D0. reflexivity.
Qed.

Lemma json_loads_no_start c r :
  json_ws c = false -> value_start c = false -> json_loads (c :: r) = None.
Proof.
  intros W V. unfold json_loads. destruct (c =? BOM)%N; [reflexivity|].
  rewrite skip_ws_visible by exact W. unfold fuel_for.
  replace (2 * List.length (c :: r) + 1) with (S (2 * List.length (c :: r))) by lia.
  rewrite scan_once_no_start by exact V. reflexivity.
Qed.

Lemma strip_fence_unfenced s : str_startswith FENCE s = false -> strip_fence s = s.
Proof.
  intros H. unfold strip_fence. rewrite H.
  destruct (str_startswith FENCE_JSON s) eqn:J; [|reflexivity].
  apply str_startswith_split in J. rewrite J in H.
  change FENCE_JSON with (FENCE ++ py "json") in H.
  rewrite <- app_assoc, str_startswith_app in H. discriminate H.
Qed.

(** X15: a reply that is blank, or whose first visible character starts
    neither a JSON value nor a fence (prose before the JSON, for one), is
    refused by [json.loads]: nothing is searched for inside the reply. *)
Theorem reply_not_starting_a_value_rejected (content : pystr) :
  (forall c r, str_strip content = c :: r ->
     value_start c = false /\ str_startswith FENCE (c :: r) = false) ->
  parse_response content = None.
Proof.
  intros H. unfold parse_response, fence_stripped.
  destruct (str_strip content) as [|c r] eqn:E; [reflexivity|].
  destruct (H c r eq_refl) as [V F].
  rewrite strip_fence_unfenced by exact F.
  apply json_loads_no_start; [|exact V].
  apply visible_not_ws, (str_strip_head content c r E).
Qed.

(** ** A fence with another tag *)

Lemma letter_visible c : is_letter c = true -> json_ws c = false /\ is_digit c = false.
Proof.
  intros H.
  assert (R : (0x41 <= c)%N).
  { unfold is_letter in H.
    apply orb_true_iff in H as [H|H]; apply andb_true_iff in H as [H _];
      apply N.leb_le in H; lia. }
  split.
  - unfold json_ws. repeat (apply orb_false_iff; split); apply N.eqb_neq; cbn; lia.
  - unfold is_digit. apply andb_false_iff. right. apply N.leb_gt. lia.
Qed.

(** On an input that starts with a letter, [scan_once] reads one of the
    five literals or refuses the input. *)
Lemma scan_once_letter f c r :
  is_letter c = true ->
  scan_once (S f) (c :: r) = DecodeError
  \/ exists lit val s',
       In lit [lit_null; lit_true; lit_false; lit_nan; lit_inf]
       /\ c :: r = lit ++ s'
       /\ scan_once (S f) (c :: r) = Done (val, s').
Proof.
  intros L. destruct (letter_visible c L) as [_ D].
  assert (Q : (c =? QUOTE)%N = false /\ (c =? chr "{")%N = false
              /\ (c =? chr "[")%N = false /\ (c =? chr "-")%N = false).
  { unfold is_letter in L.
    apply orb_true_iff in L as [L|L]; apply andb_true_iff in L as [L1 L2];
      apply N.leb_le in L1; apply N.leb_le in L2;
      repeat split; apply N.eqb_neq; intros ->;
      first [now (compute in L1; destruct L1) | now (compute in L2; destruct L2)]. }
  destruct Q as [Q1 [Q2 [Q3 Q4]]].
  cbn [scan_once]. rewrite Q1, Q2, Q3.
  destruct (str_startswith lit_null (c :: r)) eqn:E1.
  { right. exists lit_null, PyNone, (skipn 4 (c :: r)).
    split; [cbn; auto|]. split; [apply (str_startswith_split _ _ E1)|reflexivity]. }
  destruct (str_startswith lit_true (c :: r)) eqn:E2.
  { right. exists lit_true, (PyBool true), (skipn 4 (c :: r)).
    split; [cbn; auto|]. split; [apply (str_startswith_split _ _ E2)|reflexivity]. }
  destruct (str_startswith lit_false (c :: r)) eqn:E3.
  { right. exists lit_false, (PyBool false), (skipn 5 (c :: r)).
    split; [cbn; auto|]. split; [apply (str_startswith_split _ _ E3)|reflexivity]. }
  destruct (str_startswith lit_nan (c :: r)) eqn:E4.
  { right. exists lit_nan, (PyFloat FNaN), (skipn 3 (c :: r)).
    split; [cbn; auto|]. split; [apply (str_startswith_split _ _ E4)|reflexivity]. }
  destruct (str_startswith lit_inf (c :: r)) eqn:E5.
  { right. exists lit_inf, (PyFloat (FInf false)), (skipn 8 (c :: r)).
    split; [cbn; auto 6|]. split; [apply (str_startswith_split _ _ E5)|reflexivity]. }
  left.
  assert (E6 : str_startswith lit_neginf (c :: r) = false).
  { apply startswith_head_false. rewrite N.eqb_sym. exact Q4. }
  rewrite E6. destruct (not_digit_cases c D) as [D1 D0].
  unfold match_number, match_sign. rewrite Q4. unfold match_int_part.
  rewrite D1, D0. reflexivity.
Qed.

(** A text of letters that starts a sequence of letters followed by
    another character is within the letters. *)
Lemma letters_prefix lit : forall L w rest s',
  forallb is_letter lit = true -> is_letter w = false ->
  lit ++ s' = L ++ w :: rest ->
  exists L', L = lit ++ L'.
Proof.
  induction lit as [|a lit IH]; intros L w rest s' F W E.
  - exists L. reflexivity.
  - cbn [forallb] in F. apply andb_true_iff in F as [Fa F].
    destruct L as [|b L]; cbn [app] in E; inversion E; subst.
    + congruence.
    + destruct (IH L w rest s' F W H1) as [L' ->]. exists L'. reflexivity.
Qed.

Lemma json_ws_not_letter c : json_ws c = true -> is_letter c = false.
Proof.
  intros H. destruct (is_letter c) eqn:L; [|reflexivity].
  destruct (letter_visible c L) as [W _]. congruence.
Qed.

(** Letters, whitespace and then a JSON text: [json.loads] refuses the
    whole, whatever the letters are. *)
Lemma letters_before_text L ws1 J t v :
  L <> [] -> forallb is_letter L = true ->
  ws1 <> [] -> forallb json_ws ws1 = true ->
  json_loads J = Some v ->
  json_loads (L ++ ws1 ++ J ++ t) = None.
Proof.
  intros NL FL NW FW H.
  destruct L as [|c L]; [congruence|]. destruct ws1 as [|w ws1]; [congruence|].
  cbn [forallb] in FL, FW.
  apply andb_true_iff in FL as [Lc FL]. apply andb_true_iff in FW as [Ww FW].
  destruct (letter_visible c Lc) as [Wc _].
  destruct (json_loads_inv J v H) as [ws [pre [rest [-> [Fw [Fr T]]]]]].
  destruct T as [[[p [q [-> P]]] _] _].
  change ((c :: L) ++ (w :: ws1) ++ (ws ++ (p :: q) ++ rest) ++ t)
    with (c :: (L ++ w :: ws1 ++ (ws ++ (p :: q) ++ rest) ++ t)).
  remember (L ++ w :: ws1 ++ (ws ++ (p :: q) ++ rest) ++ t) as tail eqn:Et.
  unfold json_loads. destruct (c =? BOM)%N; [reflexivity|].
  rewrite skip_ws_visible by exact Wc. unfold fuel_for.
  replace (2 * List.length (c :: tail) + 1) with (S (2 * List.length (c :: tail)))
    by lia.
  destruct (scan_once_letter (2 * List.length (c :: tail)) c tail Lc)
    as [E|[lit [val [s' [I [E S]]]]]]; [rewrite E; reflexivity|].
  rewrite S.
  assert (Fl : forallb is_letter lit = true).
  { cbn [In] in I. repeat (destruct I as [<-|I]; [reflexivity|]). destruct I. }
  assert (E' : lit ++ s' = (c :: L) ++ w :: ws1 ++ (ws ++ (p :: q) ++ rest) ++ t).
  { rewrite <- E, Et. reflexivity. }
  destruct (letters_prefix lit (c :: L) w _ s' Fl (json_ws_not_letter w Ww) E')
    as [L' EL].
  rewrite EL, <- app_assoc in E'. apply app_inv_head in E'. subst s'.
  destruct (skip_ws (L' ++ w :: ws1 ++ (ws ++ (p :: q) ++ rest) ++ t)) eqn:K;
    [|reflexivity].
  apply skip_ws_nil in K. rewrite forallb_app in K. cbn [forallb] in K.
  rewrite !forallb_app in K. cbn [forallb] in K.
  rewrite (value_start_not_ws p P) in K. cbn [andb] in K.
  rewrite !andb_false_r in K. discriminate K.
Qed.

(** A tag of letters that is followed by another character and starts
    with [json] is [json] followed by letters. *)
Lemma startswith_letters p : forall tag w rest,
  forallb is_letter p = true -> is_letter w = false ->
  str_startswith p (tag ++ w :: rest) = true -> str_startswith p tag = true.
Proof.
  induction p as [|a p IH]; intros tag w rest F W H; [reflexivity|].
  cbn [forallb] in F. apply andb_true_iff in F as [Fa F].
  destruct tag as [|b tag]; cbn [app str_startswith] in *.
  - apply andb_true_iff in H as [E _]. apply N.eqb_eq in E. congruence.
  - apply andb_true_iff in H as [E H]. rewrite E. cbn [andb].
    apply (IH tag w rest F W H).
Qed.

Lemma fence_bare_strip_any Y a b :
  str_startswith (py "json") (Y ++ FENCE) = false ->
  forallb str_isspace a = true -> forallb str_isspace b = true ->
  fence_stripped (a ++ FENCE ++ Y ++ FENCE ++ b) = Y.
Proof.
  intros T Fa Fb. unfold fence_stripped.
  replace (a ++ FENCE ++ Y ++ FENCE ++ b) with (a ++ (FENCE ++ Y ++ FENCE) ++ b)
    by (repeat rewrite <- app_assoc; reflexivity).
  rewrite str_strip_padded; try assumption.
  - unfold strip_fence.
    assert (F : str_startswith FENCE_JSON (FENCE ++ Y ++ FENCE) = false).
    { change FENCE_JSON with (chr "`" :: chr "`" :: chr "`" :: py "json").
      change (FENCE ++ Y ++ FENCE)
        with (chr "`" :: chr "`" :: chr "`" :: Y ++ FENCE).
      cbn [str_startswith]. rewrite !N.eqb_refl. cbn [andb]. exact T. }
    rewrite F, str_startswith_app.
    rewrite (py_slice_drop _ 3) by (rewrite length_app; cbn; lia).
    apply (remove_first_and_last_app FENCE). reflexivity.
  - exists (chr "`"), (py "``" ++ Y ++ FENCE). split; reflexivity.
  - exists (FENCE ++ Y ++ py "``"), (chr "`"). split; [|reflexivity].
    change (FENCE ++ Y ++ FENCE) with (FENCE ++ Y ++ py "``" ++ [chr "`"]).
    repeat rewrite <- app_assoc. reflexivity.
Qed.

(** X16: a fence with a tag of letters other than [json] in lower case
    (JSON, javascript, python, typescript, text, toml) before a JSON text
    on the lines that follow is handled as a bare fence, or as a fence
    tagged [json] when the tag starts with these four letters: letters of
    the tag stay in front of the text, and the reply is refused. *)
Theorem tagged_fence_rejected
  (outer1 tag ws1 J ws2 outer2 : pystr) (v : value) :
  forallb str_isspace outer1 = true -> forallb str_isspace outer2 = true ->
  tag <> [] -> forallb is_letter tag = true -> tag <> py "json" ->
  ws1 <> [] -> forallb json_ws ws1 = true -> forallb json_ws ws2 = true ->
  json_loads J = Some v ->
  parse_response (outer1 ++ FENCE ++ tag ++ ws1 ++ J ++ ws2 ++ FENCE ++ outer2)
  = None.
Proof.
  intros F1 F2 NT FT NJ NW W1 W2 H. unfold parse_response.
  destruct (str_startswith (py "json") tag) eqn:S.
  - apply str_startswith_split in S.
    remember (skipn (List.length (py "json")) tag) as tag' eqn:Et. clear Et.
    assert (N' : tag' <> []).
    { intros ->. rewrite app_nil_r in S. exact (NJ S). }
    subst tag. rewrite forallb_app in FT. apply andb_true_iff in FT as [_ FT].
    replace (outer1 ++ FENCE ++ (py "json" ++ tag') ++ ws1 ++ J ++ ws2
             ++ FENCE ++ outer2)
      with (outer1 ++ FENCE_JSON ++ (tag' ++ ws1 ++ J ++ ws2) ++ FENCE ++ outer2)
      by (change FENCE_JSON with (FENCE ++ py "json");
          repeat rewrite <- app_assoc; reflexivity).
    rewrite fence_json_strip by assumption.
    apply (letters_before_text tag' ws1 J ws2 v); assumption.
  - replace (outer1 ++ FENCE ++ tag ++ ws1 ++ J ++ ws2 ++ FENCE ++ outer2)
      with (outer1 ++ FENCE ++ (tag ++ ws1 ++ J ++ ws2) ++ FENCE ++ outer2)
      by (repeat rewrite <- app_assoc; reflexivity).
    rewrite fence_bare_strip_any; try assumption.
    + apply (letters_before_text tag ws1 J ws2 v); assumption.
    + destruct ws1 as [|w ws1]; [congruence|].
      cbn [forallb] in W1. apply andb_true_iff in W1 as [Ww _].
      destruct (str_startswith (py "json")
                  ((tag ++ (w :: ws1) ++ J ++ ws2) ++ FENCE)) eqn:K; [|reflexivity].
      rewrite <- app_assoc in K. cbn [app] in K.
      rewrite (startswith_letters (py "json") tag w _ eq_refl
                 (json_ws_not_letter w Ww) K) in S.
      discriminate S.
Qed.

Lemma str_rstrip_keeps a c t :
  str_isspace c = false -> exists t', str_rstrip (a ++ c :: t) = a ++ c :: t'.
Proof.
  intros C. destruct (str_rstrip_split (a ++ c :: t)) as [sp [E F]].
  unfold str_rstrip in *. rewrite rev_app_distr in *. cbn [rev] in *.
  rewrite <- app_assoc in *. cbn [app] in *.
  destruct (str_lstrip_split (rev t)) as [sp' [E' F']].
  rewrite E' in E |- *. rewrite <- !app_assoc in *.
  rewrite !str_lstrip_spaces in * by exact F'.
  destruct (str_lstrip (rev t)) as [|x u] eqn:L.
  - cbn [app] in *. rewrite str_lstrip_visible by exact C.
    exists []. cbn [rev]. rewrite rev_involutive. reflexivity.
  - pose proof (str_lstrip_head _ _ _ L) as X. cbn [app].
    rewrite str_lstrip_visible by exact X.
    exists (rev (x :: u)). 
    change (x :: u ++ c :: rev a) with ((x :: u) ++ [c] ++ rev a).
    rewrite !rev_app_distr, rev_involutive. cbn [rev app].
    rewrite <- app_assoc. reflexivity.
Qed.

(** ** A fence that is not closed *)

(** What [scan_once] reads from an object does not depend on what follows
    the closing brace. *)
Lemma scan_object_any_tail f r v :
  scan_once f (chr "{" :: r) = Done (v, []) ->
  forall t, scan_once f (chr "{" :: r ++ t) = Done (v, t).
Proof.
  destruct f as [|f]; [discriminate|]. intros H t.
  rewrite scan_once_object in *.
  destruct (skip_ws r) as [|c' r'] eqn:E; [discriminate|].
  destruct (skip_ws_tail r c' r' E) as [ws [-> [F C]]].
  rewrite <- app_assoc, skip_ws_app by exact F. cbn [app].
  rewrite skip_ws_visible by exact C.
  destruct (c' =? chr "}")%N.
  - inversion H; subst. reflexivity.
  - destruct (proj2 (proj2 (scan_stable f)) _ _ _ _ H) as [pre0 [E0 S0]].
    change (c' :: r' ++ t) with ((c' :: r') ++ t). rewrite E0, <- app_assoc.
    apply S0.
Qed.

Lemma drop_last_split {A} (k : nat) (s : list A) :
  0 < k -> s <> [] -> exists x, s = drop_last k s ++ x /\ x <> [].
Proof.
  intros K N. unfold drop_last. exists (skipn (List.length s - k) s).
  split; [symmetry; apply firstn_skipn|]. intros E.
  apply (f_equal (@List.length A)) in E. rewrite length_skipn in E.
  destruct s; [congruence|]. cbn [List.length] in E. lia.
Qed.

(** The text of an object without its last three characters is not a JSON
    text. *)
Lemma truncated_object_rejected ws1 r0 v :
  forallb json_ws ws1 = true -> json_text (chr "{" :: r0) v ->
  json_loads (drop_last 3 (ws1 ++ chr "{" :: r0)) = None.
Proof.
  intros W [T R].
  destruct (json_loads (drop_last 3 (ws1 ++ chr "{" :: r0))) as [v'|] eqn:H;
    [exfalso|reflexivity].
  destruct (drop_last_split 3 (ws1 ++ chr "{" :: r0)) as [x [E X]];
    [lia|destruct ws1; discriminate|].
  destruct (json_loads_inv _ _ H) as [ws' [pre' [rest' [E' [Fw [Fr [T' R']]]]]]].
  rewrite E' in E. apply (f_equal skip_ws) in E.
  rewrite skip_ws_app in E by exact W.
  rewrite skip_ws_visible in E by reflexivity.
  repeat rewrite <- app_assoc in E. rewrite skip_ws_app in E by exact Fw.
  rewrite skip_ws_token in E by exact T'.
  destruct T' as [[c [r1 [-> C]]] L']. cbn [app] in E.
  injection E as Ec H1. subst c.
  set (F := S (2 * List.length (chr "{" :: r0))).
  assert (A : scan_once F (chr "{" :: r0) = Done (v, [])).
  { rewrite <- (app_nil_r (chr "{" :: r0)) at 1. apply R; [|reflexivity].
    rewrite app_nil_r. unfold F. lia. }
  assert (B : scan_once F (chr "{" :: r1) = Done (v', [])).
  { rewrite <- (app_nil_r (chr "{" :: r1)) at 1. apply R'; [|reflexivity].
    rewrite app_nil_r. unfold F. rewrite H1. cbn [List.length].
    rewrite !length_app. lia. }
  pose proof (scan_object_any_tail F r1 v' B (rest' ++ x)) as K.
  rewrite <- H1, A in K. inversion K as [[Ev Ex]].
  symmetry in Ex. apply app_eq_nil in Ex as [_ Ex]. exact (X Ex).
Qed.

(** X22: a reply that opens a fence before a JSON object and does not
    close it is refused: the slice of line 83 or 85 takes the last three
    characters off the object itself, and what is left is not JSON. *)
Theorem unclosed_fence_rejected (ws1 r : pystr) (v : value) :
  forallb json_ws ws1 = true ->
  json_loads (chr "{" :: r) = Some v ->
  parse_response (FENCE_JSON ++ ws1 ++ chr "{" :: r) = None
  /\ parse_response (FENCE ++ ws1 ++ chr "{" :: r) = None.
Proof.
  intros W H.
  destruct (json_loads_inv _ _ H) as [ws [pre [rest [E [Fw [Fr T]]]]]].
  destruct ws as [|w ws].
  2:{ cbn [app forallb] in *. inversion E; subst w. discriminate Fw. }
  cbn [app] in E. pose proof T as [[[c [r0 [-> C]]] L] _].
  cbn [app] in E. inversion E; subst c r. clear E.
  destruct L as [p [d [Ep D]]].
  unfold parse_response, fence_stripped. split.
  - replace (FENCE_JSON ++ ws1 ++ chr "{" :: r0 ++ rest)
      with ([] ++ (FENCE_JSON ++ ws1 ++ chr "{" :: r0) ++ rest)
      by (cbn [app]; repeat rewrite <- app_assoc; reflexivity).
    rewrite str_strip_padded.
    + unfold strip_fence. rewrite str_startswith_app.
      rewrite (py_slice_drop _ 7) by (rewrite length_app; cbn; lia).
      unfold remove_first_and_last.
      change (skipn 7 (FENCE_JSON ++ ws1 ++ chr "{" :: r0))
        with (ws1 ++ chr "{" :: r0).
      apply (truncated_object_rejected ws1 r0 v W T).
    + exists (chr "`"), (py "``json" ++ ws1 ++ chr "{" :: r0). split; reflexivity.
    + exists (FENCE_JSON ++ ws1 ++ p), d. split; [|exact D].
      replace (chr "{" :: r0) with (p ++ [d]) by (symmetry; exact Ep).
      repeat rewrite <- app_assoc. reflexivity.
    + reflexivity.
    + apply forallb_json_ws_isspace, Fr.
  - replace (FENCE ++ ws1 ++ chr "{" :: r0 ++ rest)
      with ([] ++ (FENCE ++ ws1 ++ chr "{" :: r0) ++ rest)
      by (cbn [app]; repeat rewrite <- app_assoc; reflexivity).
    rewrite str_strip_padded.
    + unfold strip_fence.
      assert (J : str_startswith FENCE_JSON (FENCE ++ ws1 ++ chr "{" :: r0) = false).
      { destruct ws1 as [|x ws1].
        - reflexivity.
        - cbn [forallb] in W. apply andb_true_iff in W as [Wx _].
          change (FENCE ++ (x :: ws1) ++ chr "{" :: r0)
            with (chr "`" :: chr "`" :: chr "`" :: x :: ws1 ++ chr "{" :: r0).
          change FENCE_JSON
            with (chr "`" :: chr "`" :: chr "`" :: chr "j" :: py "son").
          cbn [str_startswith]. rewrite !N.eqb_refl, (not_tag_start x) by auto.
          reflexivity. }
      rewrite J, str_startswith_app.
      rewrite (py_slice_drop _ 3) by (rewrite length_app; cbn; lia).
      unfold remove_first_and_last.
      change (skipn 3 (FENCE ++ ws1 ++ chr "{" :: r0)) with (ws1 ++ chr "{" :: r0).
      apply (truncated_object_rejected ws1 r0 v W T).
    + exists (chr "`"), (py "``" ++ ws1 ++ chr "{" :: r0). split; reflexivity.
    + exists (FENCE ++ ws1 ++ p), d. split; [|exact D].
      replace (chr "{" :: r0) with (p ++ [d]) by (symmetry; exact Ep).
      repeat rewrite <- app_assoc. reflexivity.
    + reflexivity.
    + apply forallb_json_ws_isspace, Fr.
Qed.

(** ** Text after the object *)

(** X17: text after a JSON object (a sentence that follows it, with or
    without a space between, or a full stop) makes [json.loads] refuse the
    whole reply, and nothing of the object is kept. *)
Theorem trailing_text_rejected
  (outer r : pystr) (v : value) (c : codepoint) (t : pystr) :
  forallb str_isspace outer = true ->
  json_loads (chr "{" :: r) = Some v ->
  str_isspace c = false ->
  parse_response (outer ++ chr "{" :: r ++ c :: t) = None.
Proof.
  intros Fo H C.
  destruct (json_loads_inv _ _ H) as [ws [pre [rest [E [Fw [Fr T]]]]]].
  destruct ws as [|w ws].
  2:{ cbn [app forallb] in *. inversion E; subst w. discriminate Fw. }
  cbn [app] in E. pose proof T as [[[p [r0 [-> P]]] _] R].
  cbn [app] in E. inversion E; subst p r. clear E.
  unfold parse_response, fence_stripped, str_strip.
  rewrite str_lstrip_spaces by exact Fo.
  rewrite str_lstrip_visible by reflexivity.
  destruct (str_rstrip_keeps (chr "{" :: r0 ++ rest) c t C) as [t' K].
  change (chr "{" :: (r0 ++ rest) ++ c :: t)
    with ((chr "{" :: r0 ++ rest) ++ c :: t).
  rewrite K. cbn [app]. rewrite strip_fence_unfenced by reflexivity.
  assert (B : scan_once (S (2 * List.length (chr "{" :: r0))) (chr "{" :: r0)
              = Done (v, [])).
  { rewrite <- (app_nil_r (chr "{" :: r0)) at 2. apply R; [|reflexivity].
    rewrite app_nil_r. cbn [List.length]. lia. }
  pose proof (scan_object_any_tail _ r0 v B (rest ++ c :: t')) as A.
  unfold json_loads. change (chr "{" =? BOM)%N with false. cbn iota.
  rewrite skip_ws_visible by reflexivity.
  replace (chr "{" :: (r0 ++ rest) ++ c :: t')
    with (chr "{" :: r0 ++ rest ++ c :: t')
    by (rewrite <- app_assoc; reflexivity).
  rewrite (scan_once_fuel_done _ _ _ A) by (unfold fuel_for; lia).
  rewrite skip_ws_app by exact Fr.
  rewrite skip_ws_visible by (apply visible_not_ws, C). reflexivity.
Qed.

(** ** The exports *)

Ltac in_range :=
  unfold printable; apply orb_true_iff; right; apply andb_true_iff;
  split; apply N.leb_le; ndiv.

Lemma hex_digit_printable n : (n < 16)%N -> printable (hex_digit n) = true.
Proof.
  intros H. unfold hex_digit. destruct (N.ltb_spec n 10); in_range.
Qed.

Lemma u_escape_printable n :
  (n < 0x10000)%N -> forallb printable (u_escape n) = true.
Proof.
  intros H. unfold u_escape. cbn [forallb].
  rewrite !hex_digit_printable by ndiv. reflexivity.
Qed.

Lemma escape_char_printable c :
  (c <= 0x10FFFF)%N -> forallb printable (escape_char c) = true.
Proof.
  intros H. unfold escape_char.
  repeat match goal with
         | |- context [if (c =? ?k)%N then _ else _] =>
             destruct (c =? k)%N; [reflexivity|]
         end.
  destruct ((0x20 <=? c) && (c <=? 0x7e))%N eqn:E.
  - cbn [forallb]. unfold printable. rewrite E, orb_true_r. reflexivity.
  - destruct (N.ltb_spec c 0x10000) as [L|L].
    + apply u_escape_printable. exact L.
    + rewrite forallb_app, !u_escape_printable by ndiv. reflexivity.
Qed.

Lemma encode_basestring_ascii_printable s :
  valid_str s = true -> forallb printable (encode_basestring_ascii s) = true.
Proof.
  intros H. unfold encode_basestring_ascii. cbn [forallb].
  rewrite forallb_app. cbn [forallb]. rewrite andb_true_r.
  change (printable QUOTE) with true. cbn [andb].
  induction s as [|c s IH]; [reflexivity|]. cbn [flat_map].
  unfold valid_str in H. cbn [forallb] in H. apply andb_true_iff in H as [C V].
  rewrite forallb_app, escape_char_printable by (apply N.leb_le, C).
  apply IH, V.
Qed.

Lemma digits_fuel_printable f : forall n, forallb printable (digits_fuel f n) = true.
Proof.
  induction f as [|f IH]; intros n; [reflexivity|].
  rewrite digits_fuel_S, forallb_app. cbn [forallb].
  replace (printable (48 + n mod 10)) with true by (symmetry; in_range).
  destruct (n <? 10)%N; [reflexivity|]. rewrite IH. reflexivity.
Qed.

Lemma int_repr_printable z : forallb printable (int_repr z) = true.
Proof.
  unfold int_repr, digits_of. destruct (z <? 0)%Z; cbn [forallb];
    rewrite digits_fuel_printable; reflexivity.
Qed.

Lemma newline_indent_printable level :
  forallb printable (newline_indent level) = true.
Proof.
  unfold newline_indent. cbn [forallb]. change (printable 10) with true. cbn [andb].
  induction (2 * level) as [|n IH]; [reflexivity|]. cbn [repeat forallb].
  rewrite IH. reflexivity.
Qed.

Lemma join_printable sep parts :
  forallb printable sep = true ->
  Forall (fun p => forallb printable p = true) parts ->
  forallb printable (join sep parts) = true.
Proof.
  intros S F. induction F as [|p parts Hp F IH]; [reflexivity|].
  destruct parts as [|q parts]; [exact Hp|].
  change (join sep (p :: q :: parts)) with (p ++ sep ++ join sep (q :: parts)).
  rewrite !forallb_app, Hp, S, IH. reflexivity.
Qed.

Section Printable.

Hypothesis double_repr_printable :
  forall x, forallb printable (double_repr x) = true.

Lemma float_repr_printable f : forallb printable (float_repr f) = true.
Proof.
  destruct f as [|[|]|x]; try reflexivity. apply double_repr_printable.
Qed.

Lemma encode_printable v :
  strings_valid v = true -> forall level, forallb printable (encode level v) = true.
Proof.
  induction v as [|b|z|f|s|items IH|entries IH] using value_nested_ind;
    intros V level.
  - reflexivity.
  - destruct b; reflexivity.
  - apply int_repr_printable.
  - apply float_repr_printable.
  - apply encode_basestring_ascii_printable, V.
  - destruct items as [|x xs]; [reflexivity|]. rewrite encode_list.
    rewrite !forallb_app, !newline_indent_printable, join_printable.
    + reflexivity.
    + rewrite forallb_app, newline_indent_printable. reflexivity.
    + cbn [strings_valid] in V. rewrite forallb_forall in V.
      rewrite Forall_forall in IH. apply Forall_forall. intros p I.
      apply in_map_iff in I as [y [<- I]]. apply IH; auto.
  - destruct entries as [|e es]; [reflexivity|]. rewrite encode_dict.
    rewrite !forallb_app, !newline_indent_printable, join_printable.
    + reflexivity.
    + rewrite forallb_app, newline_indent_printable. reflexivity.
    + cbn [strings_valid] in V. rewrite forallb_forall in V.
      rewrite Forall_forall in IH. apply Forall_forall. intros p I.
      apply in_map_iff in I as [y [<- I]]. unfold encode_entry.
      specialize (V y I). apply andb_true_iff in V as [K W].
      rewrite !forallb_app, encode_basestring_ascii_printable, IH by auto.
      reflexivity.
Qed.

(** X18: the text of the JSON download holds printable ASCII characters
    and line feeds only, whatever characters the strings of the result
    hold: [json.dumps] is called with its default [ensure_ascii], and every
    other character is written as an escape.  ([float.__repr__] is a
    parameter, and is taken to write printable ASCII.) *)
Theorem json_export_printable (v : value) :
  strings_valid v = true -> forallb printable (json_dumps v) = true.
Proof. intros V. apply encode_printable. exact V. Qed.

End Printable.

Lemma b64_char_symbol n : (n < 64)%N -> b64_symbol (b64_char n) = true.
Proof. intros H. unfold b64_symbol. rewrite b64_index_char by exact H. reflexivity. Qed.

Lemma b64encode_shape bs :
  List.length (b64encode bs) = 4 * ((List.length bs + 2) / 3)
  /\ forallb b64_symbol (b64encode bs) = true.
Proof.
  induction bs as [|a|a b|a b c l [IH1 IH2]] using list_ind3.
  - split; reflexivity.
  - split; [reflexivity|]. cbn [b64encode forallb].
    pose proof (Byte.to_N_bounded a). set (x := Byte.to_N a) in *.
    rewrite !b64_char_symbol by ndiv. reflexivity.
  - split; [reflexivity|]. cbn [b64encode forallb].
    pose proof (Byte.to_N_bounded a). pose proof (Byte.to_N_bounded b).
    set (x := Byte.to_N a) in *. set (y := Byte.to_N b) in *.
    rewrite !b64_char_symbol by ndiv. reflexivity.
  - split.
    + cbn [b64encode List.length app]. rewrite IH1.
      replace (S (S (S (List.length l))) + 2) with (1 * 3 + (List.length l + 2)) by lia.
      rewrite Nat.div_add_l by lia. lia.
    + cbn [b64encode forallb app].
      pose proof (Byte.to_N_bounded a). pose proof (Byte.to_N_bounded b).
      pose proof (Byte.to_N_bounded c).
      set (x := Byte.to_N a) in *. set (y := Byte.to_N b) in *.
      set (z := Byte.to_N c) in *.
      rewrite !b64_char_symbol by ndiv. exact IH2.
Qed.

(** X19: the text [encode_image] gives for an image that can be saved
    holds four characters for every three bytes of the PNG file, the last
    group padded, and only characters of the base64 alphabet and the
    padding character. *)
Theorem encode_image_text (image : bitmap) (png : list Byte.byte) :
  Image_save_png image = Some png ->
  exists text,
    encode_image image = Ok text
    /\ List.length text = 4 * ((List.length png + 2) / 3)
    /\ forallb b64_symbol text = true.
Proof.
  intros H. exists (b64encode png). unfold encode_image. rewrite H.
  split; [reflexivity|]. apply b64encode_shape.
Qed.

(** ** The display reads thirteen fields *)

(** X20: [display_extracted_data] reads the thirteen fields of the
    prompt and nothing else: two mappings that agree on these fields are
    displayed alike, whatever other keys the reply holds. *)
Theorem display_ignores_other_fields (d d' : pydict) :
  (forall key, In key DISPLAYED_FIELDS -> dict_get d (py key) = dict_get d' (py key)) ->
  display_extracted_data (PyDict d) = display_extracted_data (PyDict d').
Proof.
  intros H.
  assert (F : forall key default,
             In key DISPLAYED_FIELDS -> field_or d key default = field_or d' key default).
  { intros key default I. unfold field_or. rewrite (H key I). reflexivity. }
  rewrite !display_extracted_data_eq. unfold display_head, display_totals.
  rewrite !(F "line_items"%string), !(F "invoice_number"%string),
    !(F "invoice_date"%string), !(F "due_date"%string), !(F "vendor_name"%string),
    !(F "vendor_address"%string), !(F "vendor_tax_id"%string),
    !(F "customer_name"%string), !(F "customer_address"%string),
    !(F "currency"%string), !(F "subtotal"%string), !(F "tax_amount"%string),
    !(F "total_amount"%string)
    by (cbn [DISPLAYED_FIELDS In]; tauto).
  reflexivity.
Qed.

(** ** The sidebar *)

Lemma presents_not_key_configured e : presents e = true -> is_key_configured e = false.
Proof.
  destruct e; try discriminate; try reflexivity. cbn [presents is_key_configured].
  intros H. apply str_eqb_eq in H. subst s. reflexivity.
Qed.

Lemma in_filter_iff (P : event -> bool) e l :
  P e = true -> (In e l <-> In e (filter P l)).
Proof. intros H. rewrite filter_In. tauto. Qed.

Lemma existsb_filter_nil {A} (P : A -> bool) l : filter P l = [] -> existsb P l = false.
Proof.
  intros F. destruct (existsb P l) eqn:E; [|reflexivity].
  apply existsb_filter in E. congruence.
Qed.

(** What the upload flow shows that [P] keeps, when [P] keeps nothing of
    what follows the spinner. *)
Lemma process_upload_filter (P : event -> bool) w store file :
  (forall e, presents e = true -> P e = false) ->
  (forall s, P (StSubheader s) = false) ->
  (forall e, is_request e = true -> P e = false) ->
  (forall e, is_error e = true -> P e = false) ->
  (forall i s, P (StImage i s) = false) -> (forall s, P (StSpinner s) = false) ->
  filter P (fst (process_upload w store file))
  = match Image_open file with
    | Some image =>
        match store with
        | NoSecretsFile => []
        | SecretsFile entry =>
            if key_truthy entry then filter P [StButton BUTTON_LABEL]
            else filter P [StWarning WARNING_NO_KEY]
        end
    | None => []
    end.
Proof.
  intros H1 H2 H3 H4 H5 H6. rewrite process_upload_eq. cbn [filter].
  rewrite H2. destruct (Image_open file) as [image|].
  2:{ cbn [filter]. unfold upload_error. rewrite H4; reflexivity. }
  cbn [filter]. rewrite H5. destruct store as [|entry].
  { cbn [filter]. unfold upload_error. rewrite H4; reflexivity. }
  cbn [has_key]. destruct (key_truthy entry); [|reflexivity].
  change (StButton BUTTON_LABEL
          :: (if extract_clicked w
              then StSpinner (py "Analyzing invoice...")
                   :: fst (extract_invoice_data (SecretsFile entry) (api_reply w) image)
                   ++ match snd (extract_invoice_data (SecretsFile entry)
                                   (api_reply w) image) with
                      | Ok out =>
                          fst (present_if_truthy out)
                          ++ match snd (present_if_truthy out) with
                             | Ok _ => []
                             | Raise e => [upload_error e]
                             end
                      | Raise e => [upload_error e]
                      end
              else []))
    with ([StButton BUTTON_LABEL]
          ++ (if extract_clicked w
              then StSpinner (py "Analyzing invoice...")
                   :: fst (extract_invoice_data (SecretsFile entry) (api_reply w) image)
                   ++ match snd (extract_invoice_data (SecretsFile entry)
                                   (api_reply w) image) with
                      | Ok out =>
                          fst (present_if_truthy out)
                          ++ match snd (present_if_truthy out) with
                             | Ok _ => []
                             | Raise e => [upload_error e]
                             end
                      | Raise e => [upload_error e]
                      end
              else [])).
  rewrite filter_app. destruct (extract_clicked w); [|apply app_nil_r].
  cbn [filter]. rewrite H6, extraction_filter by assumption. apply app_nil_r.
Qed.

(** X21: the confirmation "API key configured!" of line 151 is never
    shown: line 151 is reached through line 150 alone, which raises, and no
    other step of a run shows it. *)
Theorem key_confirmation_never_shown (w : session) :
  existsb is_key_configured (run w) = false.
Proof.
  apply existsb_filter_nil. rewrite run_filter by reflexivity.
  destruct (nonempty (typed_key w)); [reflexivity|].
  destruct (uploaded_file w) as [file|]; [|reflexivity].
  rewrite process_upload_filter;
    try (intros e; destruct e; try discriminate; reflexivity);
    try reflexivity.
  - destruct (Image_open file); [|reflexivity].
    destruct (stored_key w) as [|entry]; [reflexivity|].
    destruct (key_truthy entry); reflexivity.
  - apply presents_not_key_configured.
Qed.

(** ** The button or the warning *)

Lemma button_or_warning_of_run w :
  filter (fun e => is_trigger e || is_warning e) (run w)
  = if nonempty (typed_key w) then []
    else match uploaded_file w with
         | Some file =>
             match Image_open file with
             | Some image =>
                 match stored_key w with
                 | NoSecretsFile => []
                 | SecretsFile entry =>
                     if key_truthy entry then [StButton BUTTON_LABEL]
                     else [StWarning WARNING_NO_KEY]
                 end
             | None => []
             end
         | None => []
         end.
Proof.
  rewrite run_filter by reflexivity.
  destruct (nonempty (typed_key w)); [reflexivity|].
  destruct (uploaded_file w) as [file|]; [|reflexivity].
  rewrite process_upload_filter;
    try (intros e; destruct e; try discriminate; reflexivity);
    reflexivity.
Qed.

(** X23: with nothing typed in the sidebar and an image uploaded and
    opened, a run offers the extract button when the secrets hold a key,
    shows the warning of line 178 when there is a secrets file that holds
    none or an empty one, and shows neither when there is no secrets file
    (the read of line 177 raises).  It never shows both; with a key typed
    in, or without an opened image, it shows neither. *)
Theorem button_or_warning (w : session) :
  (In (StButton BUTTON_LABEL) (run w) <->
   typed_key w = []
   /\ exists file image,
        uploaded_file w = Some file /\ Image_open file = Some image
        /\ has_key (stored_key w) = true)
  /\ (In (StWarning WARNING_NO_KEY) (run w) <->
      typed_key w = []
      /\ exists file image entry,
           uploaded_file w = Some file /\ Image_open file = Some image
           /\ stored_key w = SecretsFile entry /\ key_truthy entry = false).
Proof.
  rewrite (in_filter_iff (fun e => is_trigger e || is_warning e)
             (StButton BUTTON_LABEL)) by reflexivity.
  rewrite (in_filter_iff (fun e => is_trigger e || is_warning e)
             (StWarning WARNING_NO_KEY)) by reflexivity.
  rewrite button_or_warning_of_run.
  destruct (nonempty (typed_key w)) eqn:T.
  { assert (N : typed_key w <> []) by (intros E; rewrite E in T; discriminate T).
    split; split;
      [intros []|intros [E _]; exact (N E)|intros []|intros [E _]; exact (N E)]. }
  apply nonempty_false in T.
  destruct (uploaded_file w) as [file|].
  2:{ split; split;
        [intros []|intros [_ [f [i [U _]]]]; discriminate U
        |intros []|intros [_ [f [i [en [U _]]]]]; discriminate U]. }
  destruct (Image_open file) as [image|] eqn:O.
  2:{ assert (N : forall f i, Some file = Some f -> Image_open f = Some i -> False)
        by (intros f i U O'; inversion U; subst; congruence).
      split; split;
        [intros []|intros [_ [f [i [U [O' _]]]]]; exact (N f i U O')
        |intros []|intros [_ [f [i [en [U [O' _]]]]]]; exact (N f i U O')]. }
  destruct (stored_key w) as [|entry] eqn:S.
  { split; split;
      [intros []|intros [_ [f [i [_ [_ H]]]]]; discriminate H
      |intros []|intros [_ [f [i [en [_ [_ [H _]]]]]]]; discriminate H]. }
  cbn [has_key]. destruct (key_truthy entry) eqn:Kt; split; split.
  - intros _. split; [exact T|]. exists file, image. auto.
  - intros _. left. reflexivity.
  - intros [H|[]]. discriminate H.
  - intros [_ [f [i [en [_ [_ [E H]]]]]]]. inversion E; subst en. congruence.
  - intros [H|[]]. discriminate H.
  - intros [_ [f [i [_ [_ H]]]]]. discriminate H.
  - intros _. split; [exact T|]. exists file, image, entry. auto.
  - intros _. left. reflexivity.
Qed.

(** ** The client cache across runs *)

Lemma extract_invoice_data_cached_eq store r image cache :
  extract_invoice_data_cached store r image cache
  = (extract_invoice_data (client_store cache store) r image,
     cache_after cache store).
Proof.
  unfold extract_invoice_data_cached, extract_invoice_data, try_except_c, bind_c,
    init_openai_cached, plain, client_store, cache_after.
  destruct cache as [client|].
  - cbn [init_openai secrets_item lift bind ret app].
    destruct (encode_image image) as [b|e]; [|reflexivity].
    cbn [lift bind emit app].
    destruct (response_content r) as [content|e]; [|reflexivity].
    cbn [lift bind emit app].
    destruct (loads_or_raise (fence_stripped content)); reflexivity.
  - destruct (init_openai store) as [key|e]; [|reflexivity].
    cbn [lift bind ret app].
    destruct (encode_image image) as [b|e]; [|reflexivity].
    cbn [lift bind emit app].
    destruct (response_content r) as [content|e]; [|reflexivity].
    cbn [lift bind emit app].
    destruct (loads_or_raise (fence_stripped content)); reflexivity.
Qed.

(** The upload flow from a cache: what [process_upload] shows with the
    client of the cache in the place of the one the secrets give. *)
Lemma process_upload_cached_eq w store file cache :
  fst (fst (process_upload_cached w store file cache))
  = StSubheader (0x1F4F8%N :: py " Uploaded Invoice")
    :: match Image_open file with
       | None => [upload_error ImageError]
       | Some image =>
           StImage image (py "Uploaded Invoice")
           :: match store with
              | NoSecretsFile => [upload_error SecretsError]
              | SecretsFile _ =>
                  if has_key store then
                    StButton BUTTON_LABEL
                    :: if extract_clicked w then
                         StSpinner (py "Analyzing invoice...")
                         :: fst (extract_invoice_data (client_store cache store)
                                   (api_reply w) image)
                         ++ match snd (extract_invoice_data
                                         (client_store cache store)
                                         (api_reply w) image) with
                            | Ok out =>
                                fst (present_if_truthy out)
                                ++ match snd (present_if_truthy out) with
                                   | Ok _ => []
                                   | Raise e => [upload_error e]
                                   end
                            | Raise e => [upload_error e]
                            end
                       else []
                  else [StWarning WARNING_NO_KEY]
              end
       end
  /\ snd (fst (process_upload_cached w store file cache)) = Ok tt
  /\ snd (process_upload_cached w store file cache)
     = match Image_open file with
       | Some _ =>
           if has_key store && extract_clicked w then cache_after cache store
           else cache
       | None => cache
       end.
Proof.
  unfold process_upload_cached, bind_c, try_except_c, plain.
  cbn [emit fst snd app].
  destruct (Image_open file) as [image|]; [|repeat split].
  cbn [lift bind emit ret app fst snd].
  destruct store as [|entry]; [repeat split|].
  cbn [secrets_get has_key lift fst snd app].
  destruct (key_truthy entry); cbn [negb andb]; [|repeat split].
  destruct (extract_clicked w); [|repeat split].
  rewrite extract_invoice_data_cached_eq.
  destruct (extract_invoice_data (client_store cache (SecretsFile entry))
              (api_reply w) image)
    as [ev [out|e]]; cbn [fst snd app]; [|repeat split].
  destruct (present_if_truthy out) as [ev' [[]|e']]; cbn [fst snd app];
    rewrite ?app_nil_r; repeat rewrite <- app_assoc; repeat split.
Qed.

Lemma run_cached_eq cache w :
  run_cached cache w
  = if nonempty (typed_key w) then (page_top, cache)
    else (page_top ++ page_rest
          ++ match uploaded_file w with
             | Some file =>
                 fst (fst (process_upload_cached w (stored_key w) file cache))
             | None => []
             end
          ++ fst footer,
          match uploaded_file w with
          | Some file => snd (process_upload_cached w (stored_key w) file cache)
          | None => cache
          end).
Proof.
  unfold run_cached, script_cached, bind_c, plain, ret_c.
  rewrite preamble_eq. destruct (nonempty (typed_key w)); [reflexivity|].
  destruct (uploaded_file w) as [file|].
  - destruct (process_upload_cached_eq w (stored_key w) file cache) as [_ [K _]].
    destruct (process_upload_cached w (stored_key w) file cache) as [[ev' r'] c'].
    cbn [fst snd] in K |- *. subst r'. cbn [footer bind emit fst snd app].
    repeat rewrite <- app_assoc. reflexivity.
  - reflexivity.
Qed.

Lemma cache_after_run cache w :
  snd (run_cached cache w)
  = if reaches_client w then cache_after cache (stored_key w) else cache.
Proof.
  rewrite run_cached_eq. unfold reaches_client.
  destruct (nonempty (typed_key w)); [reflexivity|]. cbn [snd negb andb].
  destruct (uploaded_file w) as [file|]; [|reflexivity].
  destruct (process_upload_cached_eq w (stored_key w) file cache) as [_ [_ C]].
  rewrite C. destruct (Image_open file); reflexivity.
Qed.

Lemma run_cached_cold w : fst (run_cached None w) = run w.
Proof.
  rewrite run_cached_eq, run_eq.
  destruct (nonempty (typed_key w)); [reflexivity|]. cbn [fst].
  destruct (uploaded_file w) as [file|]; [|reflexivity].
  destruct (process_upload_cached_eq w (stored_key w) file None) as [E _].
  rewrite E, process_upload_eq. reflexivity.
Qed.

Lemma reaches_client_key w :
  reaches_client w = true ->
  exists key, stored_key w = SecretsFile (Some key) /\ key <> [].
Proof.
  unfold reaches_client. intros H. apply andb_true_iff in H as [_ H].
  destruct (uploaded_file w) as [file|]; [|discriminate H].
  destruct (Image_open file); [|discriminate H].
  apply andb_true_iff in H as [H _]. apply has_key_some, H.
Qed.

(** X24: on an empty cache a run shows and sends what [run] gives, the
    run in which [init_openai] is not cached; and it leaves in the cache
    the client of the key of the secrets exactly when it reaches
    [init_openai] (nothing typed in the sidebar, a key in the secrets, an
    opened image, a click), whether or not the call that follows
    succeeds. *)
Theorem cold_cache_run (w : session) :
  fst (run_cached None w) = run w
  /\ (reaches_client w = false -> snd (run_cached None w) = None)
  /\ (reaches_client w = true ->
      exists key,
        stored_key w = SecretsFile (Some key) /\ key <> []
        /\ snd (run_cached None w) = Some key).
Proof.
  split; [apply run_cached_cold|]. rewrite cache_after_run. split.
  - intros ->. reflexivity.
  - intros R. rewrite R. destruct (reaches_client_key w R) as [key [S N]].
    exists key. rewrite S. auto.
Qed.

(** The calls of a run from a cache. *)
Lemma requests_of_run_cached cache w :
  filter is_request (fst (run_cached cache w))
  = if reaches_client w then
      match uploaded_file w with
      | Some file =>
          match Image_open file with
          | Some image =>
              match init_openai (client_store cache (stored_key w)),
                    encode_image image with
              | Ok key, Ok base64_image => [request_of key base64_image]
              | _, _ => []
              end
          | None => []
          end
      | None => []
      end
    else [].
Proof.
  rewrite run_cached_eq. unfold reaches_client.
  destruct (nonempty (typed_key w)); [reflexivity|]. cbn [fst negb andb].
  rewrite !filter_app.
  replace (filter is_request page_top) with (@nil event) by reflexivity.
  replace (filter is_request page_rest) with (@nil event) by reflexivity.
  replace (filter is_request (fst footer)) with (@nil event) by reflexivity.
  rewrite app_nil_r. cbn [app].
  destruct (uploaded_file w) as [file|]; [|reflexivity].
  destruct (process_upload_cached_eq w (stored_key w) file cache) as [E _].
  rewrite E. cbn [filter is_request].
  destruct (Image_open file) as [image|]; [|reflexivity]. cbn [filter is_request].
  destruct (stored_key w) as [|entry]; [reflexivity|].
  destruct (has_key (SecretsFile entry)); [|reflexivity].
  cbn [filter is_request andb].
  destruct (extract_clicked w); [|reflexivity]. cbn [filter is_request].
  rewrite extract_invoice_data_eq.
  assert (Q : forall out,
             filter is_request
               (fst (present_if_truthy out)
                ++ match snd (present_if_truthy out) with
                   | Ok _ => []
                   | Raise e => [upload_error e]
                   end) = []).
  { intros out. rewrite filter_app.
    rewrite (present_if_truthy_filter is_request out presents_no_request)
      by reflexivity.
    destruct (snd (present_if_truthy out)); reflexivity. }
  destruct (init_openai (client_store cache (SecretsFile entry))) as [key|e].
  - destruct (encode_image image) as [b|e].
    + destruct (response_content (api_reply w)) as [content|e].
      * destruct (json_loads (fence_stripped content)); cbn [fst snd];
          rewrite filter_app, Q; reflexivity.
      * cbn [fst snd]. rewrite filter_app, Q. reflexivity.
    + cbn [fst snd]. rewrite filter_app, Q. reflexivity.
  - cbn [fst snd]. rewrite filter_app, Q. reflexivity.
Qed.

Lemma request_key_in e key l :
  In e l -> request_key e = Some key -> In e (filter is_request l).
Proof.
  intros I K. apply filter_In. split; [exact I|]. destruct e; try discriminate K.
  reflexivity.
Qed.

(** With a client in the cache, a run leaves the cache as it is and
    makes every call with the key of the cached client. *)
Lemma warm_run_cache client w : snd (run_cached (Some client) w) = Some client.
Proof.
  rewrite cache_after_run. cbn [cache_after].
  destruct (reaches_client w); reflexivity.
Qed.

Lemma run_cached_request_key cache w e api_key :
  In e (fst (run_cached cache w)) -> request_key e = Some api_key ->
  reaches_client w = true
  /\ init_openai (client_store cache (stored_key w)) = Ok api_key.
Proof.
  intros I K. pose proof (request_key_in e api_key _ I K) as R.
  rewrite requests_of_run_cached in R.
  destruct (reaches_client w); [|destruct R]. split; [reflexivity|].
  destruct (uploaded_file w) as [file|]; [|destruct R].
  destruct (Image_open file) as [image|]; [|destruct R].
  destruct (init_openai (client_store cache (stored_key w))) as [key|x];
    [|destruct R].
  destruct (encode_image image) as [b|x]; [|destruct R].
  destruct R as [R|[]]. subst e. cbn [request_of request_key] in K. congruence.
Qed.

Lemma runs_cached_warm client ws e api_key :
  In e (runs_cached (Some client) ws) -> request_key e = Some api_key ->
  api_key = client.
Proof.
  induction ws as [|w ws IH]; cbn [runs_cached]; [intros []|].
  intros I K. apply in_app_or in I as [I|I].
  - destruct (run_cached_request_key _ _ _ _ I K) as [_ C].
    cbn [client_store init_openai secrets_item] in C. congruence.
  - rewrite warm_run_cache in I. apply IH; assumption.
Qed.

(** X25: the client is made once in a server process.  The key of the
    secrets at the first run that reaches [init_openai] is the key of every
    call of the completion service in that run and in all the runs that
    follow, whatever key the secrets hold later: a change of the secrets
    file changes what [st.secrets.get] reads and not the client. *)
Theorem first_key_serves_every_request
  (before : list session) (w : session) (after : list session) (key : pystr) :
  forallb (fun w' => negb (reaches_client w')) before = true ->
  reaches_client w = true -> stored_key w = SecretsFile (Some key) ->
  forall e api_key,
    In e (runs_cached None (before ++ w :: after)) ->
    request_key e = Some api_key -> api_key = key.
Proof.
  intros B R S e api_key. induction before as [|w0 before IH]; cbn [app runs_cached].
  - intros I K. apply in_app_or in I as [I|I].
    + destruct (run_cached_request_key _ _ _ _ I K) as [_ C].
      rewrite S in C. cbn [client_store init_openai secrets_item] in C. congruence.
    + rewrite cache_after_run, R, S in I.
      cbn [cache_after init_openai secrets_item] in I.
      apply (runs_cached_warm key after e api_key I K).
  - cbn [forallb] in B. apply andb_true_iff in B as [B0 B].
    apply negb_true_iff in B0. intros I K. apply in_app_or in I as [I|I].
    + destruct (run_cached_request_key _ _ _ _ I K) as [C _]. congruence.
    + rewrite cache_after_run, B0 in I. apply IH; assumption.
Qed.

End InvoiceApp.

Arguments PyNone {double}.
Arguments PyBool {double} b.
Arguments PyInt {double} z.
Arguments PyFloat {double} f.
Arguments PyStr {double} s.
Arguments PyList {double} items.
Arguments PyDict {double} entries.

(** ** The properties on the instance *)

Lemma fenced_bodies_parse_alike_witness :
  parse_response Sample.double Sample.double_of_str (fenced_json sample_json)
  = Some (PyDict (sample_mapping Sample.double))
  /\ parse_response Sample.double Sample.double_of_str (fenced_bare sample_json)
     = Some (PyDict (sample_mapping Sample.double))
  /\ parse_response Sample.double Sample.double_of_str sample_json
     = Some (PyDict (sample_mapping Sample.double)).
Proof.
  apply (fenced_bodies_parse_alike Sample.double Sample.double_of_str
           sample_json (sample_mapping Sample.double)).
  reflexivity.
Defined.

Lemma extract_reports_parse_failure_witness :
  json_loads Sample.double Sample.double_of_str (fence_stripped sample_prose) = None
  /\ extract_invoice_data Sample.double Sample.double_of_str
       Sample.bitmap Sample.Image_save_png
       (SecretsFile (Some (py "sk-test"))) (ApiReturns [Some sample_prose])
       sample_file
     = ([ChatCompletionsCreate Sample.double Sample.bitmap (py "sk-test") MODEL PROMPT
           (py "data:image/png;base64," ++ py "iVBORw==") 1000;
         StError Sample.double Sample.bitmap
           [FLit Sample.double (py "Error extracting data: ");
            FExn Sample.double JSONDecodeError]],
        Ok (option (value Sample.double)) None).
Proof.
  split; [reflexivity|].
  apply (extract_reports_parse_failure Sample.double Sample.double_of_str
           Sample.bitmap Sample.Image_save_png
           (SecretsFile (Some (py "sk-test"))) (py "sk-test") sample_file
           (py "iVBORw==") sample_prose []); reflexivity.
Defined.

Lemma strip_fence_fixed_offsets_witness :
  fence_stripped (fenced_json sample_json)
  = remove_first_and_last 7 (str_strip (fenced_json sample_json))
  /\ fence_stripped (fenced_json sample_json) = NL :: sample_json ++ [NL].
Proof.
  split; [|reflexivity].
  apply (strip_fence_fixed_offsets (fenced_json sample_json) 7).
  left. split; reflexivity.
Defined.

Lemma display_defaults_missing_fields_witness :
  display_extracted_data Sample.double Sample.double_is_zero Sample.bitmap
    Sample.DataFrame_accepts (PyDict (sample_mapping Sample.double))
  = (display_events Sample.double Sample.double_is_zero Sample.bitmap
       (sample_mapping Sample.double),
     Ok unit tt).
Proof.
  apply (proj1 (proj2 (display_defaults_missing_fields Sample.double
                         Sample.double_is_zero Sample.bitmap
                         Sample.DataFrame_accepts (sample_mapping Sample.double))));
    reflexivity.
Defined.

Lemma display_empty_line_items_witness :
  In (StWrite Sample.double Sample.bitmap [FLit Sample.double NO_LINE_ITEMS])
    (fst (display_extracted_data Sample.double Sample.double_is_zero Sample.bitmap
            Sample.DataFrame_accepts (PyDict (sample_mapping Sample.double)))).
Proof.
  apply (display_empty_line_items Sample.double Sample.double_is_zero
           Sample.bitmap Sample.DataFrame_accepts (sample_mapping Sample.double)).
  - reflexivity.
  - right. exists (PyList []). split; reflexivity.
Defined.

Lemma json_export_round_trip_witness :
  json_loads Sample.double Sample.double_of_str
    (json_dumps Sample.double Sample.double_repr
       (PyDict (sample_mapping Sample.double)))
  = Some (PyDict (sample_mapping Sample.double)).
Proof.
  apply (json_export_round_trip Sample.double Sample.double_of_str
           Sample.double_repr sample_json).
  - intros []. reflexivity.
  - reflexivity.
  - reflexivity.
  - reflexivity.
Defined.



Lemma falsy_result_not_presented_witness :
  forallb (fun e => negb (presents Sample.double Sample.bitmap e))
    (run Sample.double Sample.double_of_str Sample.double_repr
       Sample.double_is_zero Sample.bitmap Sample.Image_open
       Sample.Image_save_png Sample.DataFrame_accepts empty_object_session)
  = true.
Proof.
  apply (falsy_result_not_presented Sample.double Sample.double_of_str
           Sample.double_repr Sample.double_is_zero Sample.bitmap
           Sample.Image_open Sample.Image_save_png Sample.DataFrame_accepts
           empty_object_session
           sample_file sample_file (py "iVBORw==") (py "{}") [] (PyDict []));
    reflexivity.
Defined.

(** ** The further properties on the instance *)

Lemma request_sent_iff_witness :
  existsb (is_request Sample.double Sample.bitmap)
    (run Sample.double Sample.double_of_str Sample.double_repr
       Sample.double_is_zero Sample.bitmap Sample.Image_open
       Sample.Image_save_png Sample.DataFrame_accepts
       (session_with_reply sample_json))
  = true.
Proof.
  apply (proj2 (request_sent_iff Sample.double Sample.double_of_str
                  Sample.double_repr Sample.double_is_zero Sample.bitmap
                  Sample.Image_open Sample.Image_save_png Sample.DataFrame_accepts
                  (session_with_reply sample_json))).
  split; [reflexivity|]. exists sample_file, sample_file, sample_file.
  repeat split.
Defined.

Lemma request_carries_key_and_image_witness :
  stored_key (session_with_reply sample_json) = SecretsFile (Some (py "sk-test")).
Proof.
  refine (proj1 (proj2 (request_carries_key_and_image Sample.double
                          Sample.double_of_str Sample.double_repr
                          Sample.double_is_zero Sample.bitmap
                          Sample.Image_open Sample.Image_save_png
                          Sample.DataFrame_accepts
                          (session_with_reply sample_json) (py "sk-test") MODEL
                          PROMPT (py "data:image/png;base64," ++ py "iVBORw==")
                          1000 _))).
  vm_compute. repeat (first [left; reflexivity | right]).
Defined.


Lemma display_raises_iff_witness :
  snd (display_extracted_data Sample.double Sample.double_is_zero Sample.bitmap
         Sample.DataFrame_accepts (PyDict (listed_number_mapping Sample.double)))
  = Raise unit MetricError.
Proof.
  apply (proj2 (proj1 (proj2 (display_raises_iff Sample.double
                                Sample.double_is_zero Sample.bitmap
                                Sample.DataFrame_accepts
                                (listed_number_mapping Sample.double))))).
  reflexivity.
Defined.

Lemma line_items_table_or_note_witness :
  In (StDataframe Sample.double Sample.bitmap (example_line_items Sample.double))
    (fst (display_extracted_data Sample.double Sample.double_is_zero Sample.bitmap
            Sample.DataFrame_accepts
            (PyDict [(py "line_items", example_line_items Sample.double)])))
  /\ display_extracted_data Sample.double Sample.double_is_zero Sample.bitmap
       Sample.DataFrame_accepts (PyDict [(py "line_items", PyStr (py "N/A"))])
     = (display_head Sample.double Sample.bitmap
          [(py "line_items", PyStr (py "N/A"))],
        Raise unit FrameError).
Proof.
  split.
  - apply (proj1 (proj2 (proj1 (proj1 (line_items_table_or_note Sample.double
                                         Sample.double_is_zero Sample.bitmap
                                         Sample.DataFrame_accepts
                                         [(py "line_items",
                                           example_line_items Sample.double)])
                                  eq_refl)
                           eq_refl))).
  - apply (proj2 (line_items_table_or_note Sample.double Sample.double_is_zero
                    Sample.bitmap Sample.DataFrame_accepts
                    [(py "line_items", PyStr (py "N/A"))])
             (chr "N") (py "/A")); reflexivity.
Defined.

Lemma csv_offered_iff_table_shown_witness :
  In (csv_button Sample.double Sample.bitmap (example_line_items Sample.double))
    (fst (present Sample.double Sample.double_repr Sample.double_is_zero
            Sample.bitmap Sample.DataFrame_accepts
            (PyDict [(py "line_items", example_line_items Sample.double)]))).
Proof.
  apply (proj2 (csv_offered_iff_table_shown Sample.double Sample.double_repr
                  Sample.double_is_zero Sample.bitmap Sample.DataFrame_accepts
                  [(py "line_items", example_line_items Sample.double)]
                  (example_line_items Sample.double) eq_refl)).
  vm_compute. repeat (first [left; reflexivity | right]).
Defined.

Lemma script_completes_unless_key_typed_witness :
  script Sample.double Sample.double_of_str Sample.double_repr
    Sample.double_is_zero Sample.bitmap Sample.Image_open
    Sample.Image_save_png Sample.DataFrame_accepts typed_session
  = (page_top Sample.double Sample.bitmap, Raise unit TypeError)
  /\ snd (script Sample.double Sample.double_of_str Sample.double_repr
            Sample.double_is_zero Sample.bitmap Sample.Image_open
            Sample.Image_save_png Sample.DataFrame_accepts
            (session_with_reply sample_json))
     = Ok unit tt.
Proof.
  split.
  - apply (proj2 (script_completes_unless_key_typed Sample.double
                    Sample.double_of_str Sample.double_repr Sample.double_is_zero
                    Sample.bitmap Sample.Image_open Sample.Image_save_png
                    Sample.DataFrame_accepts typed_session)).
    discriminate.
  - apply (proj1 (script_completes_unless_key_typed Sample.double
                    Sample.double_of_str Sample.double_repr Sample.double_is_zero
                    Sample.bitmap Sample.Image_open Sample.Image_save_png
                    Sample.DataFrame_accepts (session_with_reply sample_json))).
    reflexivity.
Defined.

Lemma unreadable_upload_witness :
  In (upload_error Sample.double Sample.bitmap ImageError)
    (run Sample.double Sample.double_of_str Sample.double_repr
       Sample.double_is_zero Sample.bitmap Strict.Image_open
       Sample.Image_save_png Sample.DataFrame_accepts broken_session).
Proof.
  rewrite (unreadable_upload Sample.double Sample.double_of_str Sample.double_repr
             Sample.double_is_zero Sample.bitmap Strict.Image_open
             Sample.Image_save_png Sample.DataFrame_accepts broken_session
             [Byte.x00] eq_refl eq_refl eq_refl).
  apply in_or_app. right. apply in_or_app. right. right. left. reflexivity.
Defined.

Lemma successful_run_witness :
  count_events Sample.double Sample.bitmap (is_error Sample.double Sample.bitmap)
    (run Sample.double Sample.double_of_str Sample.double_repr
       Sample.double_is_zero Sample.bitmap Sample.Image_open
       Sample.Image_save_png Sample.DataFrame_accepts
       (session_with_reply sample_json))
  = 0.
Proof.
  assert (K : py "sk-test" <> []) by discriminate.
  assert (D : sample_mapping Sample.double <> []) by discriminate.
  apply (proj2 (successful_run Sample.double Sample.double_of_str
                  Sample.double_repr Sample.double_is_zero Sample.bitmap
                  Sample.Image_open Sample.Image_save_png Sample.DataFrame_accepts
                  (session_with_reply sample_json) sample_file sample_file
                  sample_file (py "sk-test") sample_json []
                  (sample_mapping Sample.double)
                  eq_refl eq_refl eq_refl eq_refl K eq_refl eq_refl eq_refl
                  eq_refl D eq_refl eq_refl)).
Defined.

Lemma rendering_failure_reported_witness :
  In (upload_error Sample.double Sample.bitmap MetricError)
    (run Sample.double Sample.double_of_str Sample.double_repr
       Sample.double_is_zero Sample.bitmap Sample.Image_open
       Sample.Image_save_png Sample.DataFrame_accepts
       (session_with_reply (pyq "{'invoice_number': ['x'], 'line_items': []}"))).
Proof.
  assert (K : py "sk-test" <> []) by discriminate.
  rewrite (proj1 (rendering_failure_reported Sample.double Sample.double_of_str
                    Sample.double_repr Sample.double_is_zero Sample.bitmap
                    Sample.Image_open Sample.Image_save_png
                    Sample.DataFrame_accepts
                    (session_with_reply
                       (pyq "{'invoice_number': ['x'], 'line_items': []}"))
                    sample_file sample_file sample_file (py "sk-test")
                    (pyq "{'invoice_number': ['x'], 'line_items': []}") []
                    (PyDict (listed_number_mapping Sample.double))
                    MetricError
                    eq_refl eq_refl eq_refl eq_refl K eq_refl eq_refl eq_refl
                    eq_refl eq_refl eq_refl)).
  apply in_or_app. right. apply in_or_app. right. apply in_or_app. right.
  apply in_or_app. right. apply in_or_app. right. left. reflexivity.
Defined.

Lemma extract_never_raises_witness :
  exists out,
    snd (extract_invoice_data Sample.double Sample.double_of_str Sample.bitmap
           Sample.Image_save_png (SecretsFile (Some (py "sk-test")))
           (ApiReturns [Some (py "null")]) sample_file)
    = Ok (option (value Sample.double)) out
    /\ returned Sample.double out = PyNone
    /\ existsb (is_error Sample.double Sample.bitmap)
         (fst (extract_invoice_data Sample.double Sample.double_of_str
                 Sample.bitmap Sample.Image_save_png
                 (SecretsFile (Some (py "sk-test")))
                 (ApiReturns [Some (py "null")]) sample_file))
       = false.
Proof.
  destruct (extract_never_raises Sample.double Sample.double_of_str Sample.bitmap
              Sample.Image_save_png (SecretsFile (Some (py "sk-test")))
              (ApiReturns [Some (py "null")]) sample_file)
    as [out [E [_ [_ [R _]]]]].
  exists out. split; [exact E|]. split; [|reflexivity].
  apply R. right. exists (py "null"). split; reflexivity.
Defined.

Lemma extract_reports_api_failure_witness :
  fst (extract_invoice_data Sample.double Sample.double_of_str Sample.bitmap
         Sample.Image_save_png (SecretsFile (Some (py "sk-test")))
         (ApiReturns []) sample_file)
  = [request_of Sample.double Sample.bitmap (py "sk-test") (py "iVBORw==");
     extract_error Sample.double Sample.bitmap IndexError].
Proof.
  rewrite (proj1 (proj2 (extract_reports_api_failure Sample.double
                           Sample.double_of_str Sample.bitmap Sample.Image_save_png
                           (SecretsFile (Some (py "sk-test"))) (py "sk-test")
                           sample_file (py "iVBORw==") eq_refl eq_refl))).
  reflexivity.
Defined.

Lemma fences_tolerate_whitespace_witness :
  parse_response Sample.double Sample.double_of_str
    ([0xa0%N] ++ FENCE_JSON ++ ([CR; NL] ++ sample_json ++ [NL]) ++ FENCE ++ [NL])
  = Some (PyDict (sample_mapping Sample.double)).
Proof.
  apply (proj1 (fences_tolerate_whitespace Sample.double Sample.double_of_str
                  [0xa0%N] [CR; NL] sample_json [NL] [NL]
                  (PyDict (sample_mapping Sample.double))
                  eq_refl eq_refl eq_refl eq_refl eq_refl)).
Defined.

Lemma reply_not_starting_a_value_rejected_witness :
  parse_response Sample.double Sample.double_of_str sample_prose = None.
Proof.
  apply (reply_not_starting_a_value_rejected Sample.double Sample.double_of_str
           sample_prose).
  intros c r E. vm_compute in E. inversion E. split; reflexivity.
Defined.

Lemma tagged_fence_rejected_witness :
  parse_response Sample.double Sample.double_of_str
    ([] ++ FENCE ++ py "typescript" ++ [NL] ++ sample_json ++ [NL] ++ FENCE ++ [])
  = None
  /\ parse_response Sample.double Sample.double_of_str
       ([] ++ FENCE ++ py "jsonc" ++ [NL] ++ sample_json ++ [NL] ++ FENCE ++ [])
     = None.
Proof.
  assert (W : [NL] <> []) by discriminate.
  split.
  - assert (T : py "typescript" <> []) by discriminate.
    assert (J : py "typescript" <> py "json") by discriminate.
    apply (tagged_fence_rejected Sample.double Sample.double_of_str
             [] (py "typescript") [NL] sample_json [NL] []
             (PyDict (sample_mapping Sample.double))
             eq_refl eq_refl T eq_refl J W eq_refl eq_refl eq_refl).
  - assert (T : py "jsonc" <> []) by discriminate.
    assert (J : py "jsonc" <> py "json") by discriminate.
    apply (tagged_fence_rejected Sample.double Sample.double_of_str
             [] (py "jsonc") [NL] sample_json [NL] []
             (PyDict (sample_mapping Sample.double))
             eq_refl eq_refl T eq_refl J W eq_refl eq_refl eq_refl).
Defined.

Lemma trailing_text_rejected_witness :
  parse_response Sample.double Sample.double_of_str
    ([] ++ chr "{" :: py "} " ++ chr "E" :: py "xtracted from the invoice.")
  = None
  /\ parse_response Sample.double Sample.double_of_str
       ([] ++ chr "{" :: py "}" ++ chr "." :: [])
     = None.
Proof.
  split.
  - apply (trailing_text_rejected Sample.double Sample.double_of_str
             [] (py "} ") (PyDict []) (chr "E") (py "xtracted from the invoice."));
      reflexivity.
  - apply (trailing_text_rejected Sample.double Sample.double_of_str
             [] (py "}") (PyDict []) (chr ".") []);
      reflexivity.
Defined.

Lemma json_export_printable_witness :
  forallb printable
    (json_dumps Sample.double Sample.double_repr
       (PyDict (unicode_mapping Sample.double)))
  = true.
Proof.
  apply (json_export_printable Sample.double Sample.double_repr
           (fun _ => eq_refl) (PyDict (unicode_mapping Sample.double))).
  reflexivity.
Defined.

Lemma encode_image_text_witness :
  exists text,
    encode_image Sample.bitmap Sample.Image_save_png sample_file = Ok (list N) text
    /\ List.length text = 4 * ((List.length sample_file + 2) / 3)
    /\ forallb b64_symbol text = true.
Proof.
  apply (encode_image_text Sample.bitmap Sample.Image_open Sample.Image_save_png
           sample_file sample_file).
  reflexivity.
Defined.

Lemma display_ignores_other_fields_witness :
  display_extracted_data Sample.double Sample.double_is_zero Sample.bitmap
    Sample.DataFrame_accepts (PyDict (sample_mapping Sample.double))
  = display_extracted_data Sample.double Sample.double_is_zero Sample.bitmap
      Sample.DataFrame_accepts (PyDict (annotated_mapping Sample.double)).
Proof.
  apply (display_ignores_other_fields Sample.double Sample.double_is_zero
           Sample.bitmap Sample.DataFrame_accepts (sample_mapping Sample.double)
           (annotated_mapping Sample.double)).
  intros key H. cbn [DISPLAYED_FIELDS In] in H.
  repeat (destruct H as [H|H]; [rewrite <- H; reflexivity|]). destruct H.
Defined.

Lemma unclosed_fence_rejected_witness :
  parse_response Sample.double Sample.double_of_str
    (FENCE_JSON ++ [NL] ++ chr "{" :: py "}")
  = None.
Proof.
  apply (proj1 (unclosed_fence_rejected Sample.double Sample.double_of_str
                  [NL] (py "}") (PyDict []) eq_refl eq_refl)).
Defined.

Lemma button_or_warning_witness :
  In (StButton Sample.double Sample.bitmap BUTTON_LABEL)
    (run Sample.double Sample.double_of_str Sample.double_repr
       Sample.double_is_zero Sample.bitmap Sample.Image_open
       Sample.Image_save_png Sample.DataFrame_accepts empty_object_session)
  /\ In (StWarning Sample.double Sample.bitmap WARNING_NO_KEY)
       (run Sample.double Sample.double_of_str Sample.double_repr
          Sample.double_is_zero Sample.bitmap Sample.Image_open
          Sample.Image_save_png Sample.DataFrame_accepts keyless_session)
  /\ ~ In (StWarning Sample.double Sample.bitmap WARNING_NO_KEY)
         (run Sample.double Sample.double_of_str Sample.double_repr
            Sample.double_is_zero Sample.bitmap Sample.Image_open
            Sample.Image_save_png Sample.DataFrame_accepts no_secrets_session).
Proof.
  split; [|split].
  - apply (proj2 (proj1 (button_or_warning Sample.double Sample.double_of_str
                           Sample.double_repr Sample.double_is_zero Sample.bitmap
                           Sample.Image_open Sample.Image_save_png
                           Sample.DataFrame_accepts empty_object_session))).
    split; [reflexivity|]. exists sample_file, sample_file. repeat split.
  - apply (proj2 (proj2 (button_or_warning Sample.double Sample.double_of_str
                           Sample.double_repr Sample.double_is_zero Sample.bitmap
                           Sample.Image_open Sample.Image_save_png
                           Sample.DataFrame_accepts keyless_session))).
    split; [reflexivity|]. exists sample_file, sample_file, None. repeat split.
  - intros H.
    apply (proj1 (proj2 (button_or_warning Sample.double Sample.double_of_str
                           Sample.double_repr Sample.double_is_zero Sample.bitmap
                           Sample.Image_open Sample.Image_save_png
                           Sample.DataFrame_accepts no_secrets_session))) in H.
    destruct H as [_ [f [i [entry [_ [_ [S _]]]]]]]. discriminate S.
Defined.

Lemma cold_cache_run_witness :
  snd (run_cached Sample.double Sample.double_of_str Sample.double_repr
         Sample.double_is_zero Sample.bitmap Sample.Image_open
         Sample.Image_save_png Sample.DataFrame_accepts None
         (session_with_reply sample_prose))
  = Some (py "sk-test").
Proof.
  destruct (proj2 (proj2 (cold_cache_run Sample.double Sample.double_of_str
                            Sample.double_repr Sample.double_is_zero Sample.bitmap
                            Sample.Image_open Sample.Image_save_png
                            Sample.DataFrame_accepts
                            (session_with_reply sample_prose)))
              eq_refl) as [key [S [_ C]]].
  rewrite C. inversion S. reflexivity.
Defined.

Lemma first_key_serves_every_request_witness :
  forallb (fun e => match request_key Sample.double Sample.bitmap e with
                    | Some api_key => str_eqb api_key (py "sk-test")
                    | None => true
                    end)
    (runs_cached Sample.double Sample.double_of_str Sample.double_repr
       Sample.double_is_zero Sample.bitmap Sample.Image_open
       Sample.Image_save_png Sample.DataFrame_accepts None
       [idle_session; session_with_reply sample_json; rekeyed_session sample_json])
  = true.
Proof.
  apply forallb_forall. intros e H.
  destruct (request_key Sample.double Sample.bitmap e) as [api_key|] eqn:K;
    [|reflexivity].
  apply str_eqb_eq.
  apply (first_key_serves_every_request Sample.double Sample.double_of_str
           Sample.double_repr Sample.double_is_zero Sample.bitmap
           Sample.Image_open Sample.Image_save_png Sample.DataFrame_accepts
           [idle_session] (session_with_reply sample_json)
           [rekeyed_session sample_json] (py "sk-test")
           eq_refl eq_refl eq_refl e api_key H K).
Defined.

(** ** Where the claims fail *)

(** C4: on the empty mapping every field is missing, and the display
    shows an empty string, not "N/A", in the place of [currency]; a
    mapping whose invoice number is a list makes [st.metric] raise, one
    whose [line_items] is the number 5 makes [len] raise, and one whose
    [line_items] is the string "N/A" makes [pd.DataFrame] raise. *)
Lemma display_missing_currency_counterexample :
  ~ Forall (fun v => v = NA Sample.double)
      (flat_map (shown_values Sample.double Sample.bitmap)
         (fst (display_extracted_data Sample.double Sample.double_is_zero
                 Sample.bitmap Sample.DataFrame_accepts (PyDict []))))
  /\ snd (display_extracted_data Sample.double Sample.double_is_zero Sample.bitmap
            Sample.DataFrame_accepts
            (PyDict (listed_number_mapping Sample.double)))
     = Raise unit MetricError
  /\ snd (display_extracted_data Sample.double Sample.double_is_zero Sample.bitmap
            Sample.DataFrame_accepts (PyDict [(py "line_items", PyInt 5)]))
     = Raise unit TypeError
  /\ snd (display_extracted_data Sample.double Sample.double_is_zero Sample.bitmap
            Sample.DataFrame_accepts
            (PyDict [(py "line_items", PyStr (py "N/A"))]))
     = Raise unit FrameError.
Proof.
  split; [|repeat split]. intros F. rewrite Forall_forall in F.
  specialize (F (PyStr [])). cbn in F.
  assert (E : @PyStr Sample.double [] = NA Sample.double).
  { apply F. do 8 right. left. reflexivity. }
  discriminate E.
Qed.

(** C5: a mapping whose [line_items] is the empty list and whose invoice
    number is a list: [st.metric] raises at line 101, and the note of line
    127 is not shown. *)
Lemma display_refused_number_counterexample :
  dict_get Sample.double (listed_number_mapping Sample.double) (py "line_items")
  = Some (PyList [])
  /\ display_extracted_data Sample.double Sample.double_is_zero Sample.bitmap
       Sample.DataFrame_accepts (PyDict (listed_number_mapping Sample.double))
     = ([StSubheader Sample.double Sample.bitmap
           (0x1F4CB%N :: py " Invoice Information");
         StColumns Sample.double Sample.bitmap 3],
        Raise unit MetricError)
  /\ ~ In (StWrite Sample.double Sample.bitmap [FLit Sample.double NO_LINE_ITEMS])
         (fst (display_extracted_data Sample.double Sample.double_is_zero
                 Sample.bitmap Sample.DataFrame_accepts
                 (PyDict (listed_number_mapping Sample.double)))).
Proof.
  split; [reflexivity|]. split; [reflexivity|]. intros H. cbn in H.
  repeat (destruct H as [H|H]; [discriminate|]). exact H.
Qed.

(** C6: the result read from a reply whose string holds a high and a low
    surrogate as two characters is not read back from its dump: the two
    come back as one character. *)
Lemma json_export_surrogates_counterexample :
  valid_str surrogates_json = true
  /\ json_loads Sample.double Sample.double_of_str surrogates_json
     = Some (PyDict [(py "a", PyStr [0xD83D; 0xDE00]%N)])
  /\ json_loads Sample.double Sample.double_of_str
       (json_dumps Sample.double Sample.double_repr
          (PyDict [(py "a", PyStr [0xD83D; 0xDE00]%N)]))
     = Some (PyDict [(py "a", PyStr [0x1F600%N])])
  /\ json_loads Sample.double Sample.double_of_str
       (json_dumps Sample.double Sample.double_repr
          (PyDict [(py "a", PyStr [0xD83D; 0xDE00]%N)]))
     <> Some (PyDict [(py "a", PyStr [0xD83D; 0xDE00]%N)]).
Proof.
  repeat split; try reflexivity. discriminate.
Qed.


